(** * Genesis bootstrap and mint issuance of the kernel

    A shallow embedding of [kernel/mint.go] and [kernel/genesis.go]:
    the pool model, the mint-possibility gates, the work distributor, the
    mint transaction builders, the validation of mint snapshots and the
    genesis loader, followed by the properties established about them. *)

From Stdlib Require Import ZArith Lia.
From stdpp Require Import base option list strings pretty gmap fin_maps.

Local Open Scope Z_scope.

(** * Go machine integers and control flow *)

Module Go.

(** [int] and [uint64] are 64 bits wide; a conversion keeps the low bits. *)
Definition int (x : Z) : Z := (x + 2 ^ 63) `mod` 2 ^ 64 - 2 ^ 63.
Definition uint64 (x : Z) : Z := x `mod` 2 ^ 64.
Definition uint32 (x : Z) : Z := x `mod` 2 ^ 32.
Definition MaxUint64 : Z := 2 ^ 64 - 1.

(** [fmt.Errorf(format, args...)], or an error handed up by a collaborator
    outside the kernel package (storage, file system, codecs).  The operands
    of a message are kept as values instead of being rendered. *)
Inductive error : Type :=
| Errorf (format : string) (args : list val)
| External (origin : string)
with val : Type :=
| VInt (z : Z)
| VStr (s : string)
| VErr (e : error).

(** The three ways a call ends: a value, a returned [error], a [panic]. *)
Inductive run (A : Type) : Type :=
| Ret (a : A)
| Err (e : error)
| Panic (e : error).
Arguments Ret {A} a.
Arguments Err {A} e.
Arguments Panic {A} e.

Definition run_bind {A B : Type} (f : A -> run B) (m : run A) : run B :=
  match m with
  | Ret a => f a
  | Err e => Err e
  | Panic e => Panic e
  end.

#[global] Instance run_mret : MRet run := @Ret.
#[global] Instance run_mbind : MBind run := @run_bind.

(** The pair [(value, error)] a collaborator outside the package hands
    back; [call] is the usual [if err != nil { return err }]. *)
Inductive result (A : Type) : Type :=
| Ok (a : A)
| Failed (e : error).
Arguments Ok {A} a.
Arguments Failed {A} e.

Definition call {A : Type} (r : result A) : run A :=
  match r with
  | Ok a => Ret a
  | Failed e => Err e
  end.

(** [for i := 0; i < n; i++ { body }] over a loop state, [n] an [int]. *)
Fixpoint repeat_run {S : Type} (body : S -> run S) (n : nat) (s : S) : run S :=
  match n with
  | O => Ret s
  | Datatypes.S n' => s' ← body s; repeat_run body n' s'
  end.

Definition for_lt {S : Type} (n : Z) (body : S -> run S) (s : S) : run S :=
  repeat_run body (Z.to_nat n) s.

End Go.

Import Go.

(** * Amounts *)

(** Modelled from the spec: the declaration of [common.Integer] is not part
    of the kernel package.  An amount is a non-negative fixed-point decimal,
    held here as its count of units of [10^-precision]; the spec leaves the
    number of fractional digits open, so [NewInteger] takes it as an
    argument.  Addition and multiplication by a scalar are exact, division by
    a scalar floors, and subtracting below zero, dividing by a scalar that is
    not positive and a ratio over zero are fatal. *)
Module Integer.

Definition NewInteger (precision : nat) (x : Z) : Z := x * 10 ^ Z.of_nat precision.

Definition Add (x y : Z) : Z := x + y.

Definition Sub (x y : Z) : run Z :=
  if x <? y then Panic (Errorf "Integer.Sub" [VInt x; VInt y]) else Ret (x - y).

Definition Mul (x : Z) (y : Z) : Z := x * y.

Definition Div (x : Z) (y : Z) : run Z :=
  if y <=? 0 then Panic (Errorf "Integer.Div" [VInt x; VInt y]) else Ret (x `div` y).

Definition Cmp (x y : Z) : Z :=
  match x ?= y with
  | Lt => -1
  | Eq => 0
  | Gt => 1
  end.

Definition Sign (x : Z) : Z := Z.sgn x.

(** [x.Ration(y)] keeps numerator and denominator; [Product] floors. *)
Record RationalNumber : Type := { num : Z; den : Z }.

Definition Ration (x y : Z) : run RationalNumber :=
  if y =? 0 then Panic (Errorf "Integer.Ration" [VInt x; VInt y])
  else Ret {| num := x; den := y |}.

Definition Product (r : RationalNumber) (base : Z) : Z :=
  (num r * base) `div` den r.

End Integer.

(** * Data model *)

(** Hashes, keys, seeds and serialised values are byte strings. *)
Abbreviation Hash := string (only parsing).
Abbreviation Key := string (only parsing).
Abbreviation Script := (list Z) (only parsing).

(** [make([]byte, n)]. *)
Fixpoint zeroBytes (n : nat) : string :=
  match n with
  | O => EmptyString
  | S n' => String Ascii.zero (zeroBytes n')
  end.

Module Address.
Record t : Type := { PublicSpendKey : Key; PublicViewKey : Key }.
End Address.

(** A persisted mint distribution; [Batch] is a [uint64]. *)
Module MintDistribution.
Record t : Type := { Group : string; Batch : Z; Amount : Z }.
End MintDistribution.

Module RoundSpace.
Record t : Type := { NodeId : Hash; Batch : Z; Round : Z; Duration : Z }.
End RoundSpace.

Module Domain.
Record t : Type := { Account : Address.t }.
End Domain.

Module CustodianUpdateRequest.
Record t : Type := { Custodian : Address.t }.
End CustodianUpdateRequest.

(** Modelled from the spec: [common.Transaction] and its parts are declared
    outside the kernel package; the fields are those the genesis loader
    writes, and a mint input carries its group, batch and amount. *)
Module MintData.
Record t : Type := { Group : string; Batch : Z; Amount : Z }.
End MintData.

Module Input.
Record t : Type := { Hash : Hash; Index : Z; Mint : option MintData.t }.
End Input.

Inductive OutputType : Type :=
| OutputTypeScript
| OutputTypeNodePledge.

Module Output.
Record t : Type :=
  { Type_ : OutputType; Amount : Z; Keys : list Key; Script : Script; Mask : Key }.
End Output.

Module Transaction.
Record t : Type :=
  { Version : Z; Asset : Hash; Inputs : list Input.t; Outputs : list Output.t;
    Extra : string }.
End Transaction.

(** [common.SignedTransaction], also what [AsVersioned] wraps. *)
Module VersionedTransaction.
Record t : Type := { Transaction : Transaction.t; Signatures : list (list string) }.
End VersionedTransaction.

Module Snapshot.
Record t : Type :=
  { NodeId : Hash; Transaction : VersionedTransaction.t; RoundNumber : Z; Timestamp : Z }.
End Snapshot.

Module SnapshotWithTopologicalOrder.
Record t : Type := { Snapshot : Snapshot.t; TopologicalOrder : Z }.
End SnapshotWithTopologicalOrder.

Module CNode.
Record t : Type := { IdForNetwork : Hash; Signer : Address.t; Payee : Address.t }.
End CNode.

Module CNodeWork.
Record t : Type := { CNode : CNode.t; Work : Z }.
End CNodeWork.

(** [Genesis] of [genesis.go]; [Epoch] is an [int64]. *)
Module GenesisNode.
Record t : Type := { Address : Address.t; Balance : Z }.
End GenesisNode.

Module Genesis.
Record t : Type := { Epoch : Z; Nodes : list GenesisNode.t }.
End Genesis.

(** The store operations the mint engine reads through [node.persistStore];
    the two [uint64] counters of a node's work are kept as naturals. *)
Module Store.
Record t : Type :=
  { ReadLastMintDistribution : Z -> result MintDistribution.t;
    ReadMintDistributions : Z -> Z -> list MintDistribution.t;
    ListNodeWorks : list Hash -> Z -> result (gmap string (N * N));
    ReadNodeRoundSpacesForBatch : Hash -> Z -> result (list RoundSpace.t);
    ListAggregatedRoundSpaceCheckpoints : list Hash -> result (list RoundSpace.t);
    ReadDomains : list Domain.t }.
End Store.

(** Modelled from the spec: the storage engine behind [node.store] is
    outside the kernel package.  The state table maps a key to the hash
    stored under it, the genesis snapshots are kept as loaded, and each of
    the three operations may be set to fail, leaving the store as it was. *)
Module KVStore.
Record t : Type :=
  { table : gmap string Hash;
    snapshots : list SnapshotWithTopologicalOrder.t;
    getError : option error;
    loadError : option error;
    setError : option error }.

(** [found, err := StateGet(key, &state)]: the value is filled in only when
    the key is present. *)
Definition StateGet (s : t) (key : string) (state : Hash) : result (bool * Hash) :=
  match getError s with
  | Some e => Failed e
  | None =>
      match table s !! key with
      | Some id => Ok (true, id)
      | None => Ok (false, state)
      end
  end.

Definition SnapshotsLoadGenesis (s : t) (snaps : list SnapshotWithTopologicalOrder.t)
  : result t :=
  match loadError s with
  | Some e => Failed e
  | None =>
      Ok {| table := table s; snapshots := snapshots s ++ snaps;
             getError := getError s; loadError := loadError s; setError := setError s |}
  end.

Definition StateSet (s : t) (key : string) (id : Hash) : result t :=
  match setError s with
  | Some e => Failed e
  | None =>
      Ok {| table := <[key := id]> (table s); snapshots := snapshots s;
             getError := getError s; loadError := loadError s; setError := setError s |}
  end.
End KVStore.

(** The fields of [Node] read or written by the two files. *)
Module Node.
Record t : Type :=
  { Epoch : Z;
    isMainnet : bool;
    Account : Address.t;
    ConsensusNodes : list Address.t;
    networkId : Hash;
    IdForNetwork : Hash;
    TopoCounter : Z;
    persistStore : Store.t;
    store : KVStore.t;
    ConsensusThreshold : Z -> bool -> Z;
    NodesListWithoutState : Z -> bool -> list CNode.t }.
End Node.

(** * A test network

    Stand-ins for the primitives and a small network on which the
    definitions run: seven accepted nodes, six of them with work, an epoch
    at the start of a day, and a genesis of seven nodes. *)
Module Example.

Definition NewHash (s : string) : Hash := "H(" +:+ s +:+ ")".
Definition NewKeyFromSeed (seed : string) : Key := "K(" +:+ seed +:+ ")".
Definition Public (k : Key) : Key := "P(" +:+ k +:+ ")".
Definition DeriveGhostPublicKey (r view spend : Key) : Key :=
  "G(" +:+ r +:+ "," +:+ view +:+ "," +:+ spend +:+ ")".

(** An address with the view key derived from the spend key. *)
Definition address (spend : Key) : Address.t :=
  {| Address.PublicSpendKey := spend;
     Address.PublicViewKey := Public (NewKeyFromSeed (NewHash spend +:+ NewHash spend)) |}.

Definition AddressString (a : Address.t) : string :=
  "XIN" +:+ Address.PublicSpendKey a +:+ Address.PublicViewKey a.
Definition AddressHash (a : Address.t) : Hash := NewHash (AddressString a).
Definition NewAddressFromString (s : string) : result Address.t := Ok (address s).
Definition NewAddressFromSeed (seed : string) : Address.t := address (NewHash seed).
Definition ForNetwork (h network : Hash) : Hash := NewHash (h +:+ network).
Definition XINAssetId : Hash := NewHash "XIN".
Definition TxVersion : Z := 5.
Definition OperatorCmp : Z := 255.
Definition OperatorSum : Z := 254.
Definition Operator64 : Z := 64.
Definition NewThresholdScript (threshold : Z) : Script := [OperatorCmp; OperatorSum; threshold].

Definition TransactionMintWorkHacks (batch : Z) : string := EmptyString.
Definition hexDecodeString (s : string) : result string := Ok s.
Definition UnmarshalVersionedTransaction (s : string) : result VersionedTransaction.t :=
  Failed (External "unmarshal").

(** Amounts carry eight fractional digits; the configured mint window is
    from 7 to 9 o'clock. *)
Definition Precision : nat := 8.
Definition KernelMintTimeBegin : Z := 7.
Definition KernelMintTimeEnd : Z := 9.

Definition hour : Z := 3600000000000.
Definition epoch : Z := 1551312000 * 1000000000.

Definition cnode (name : string) : CNode.t :=
  {| CNode.IdForNetwork := NewHash name; CNode.Signer := address name;
     CNode.Payee := address (name +:+ "-payee") |}.

Definition accepted : list CNode.t :=
  cnode <$> ["n0"; "n1"; "n2"; "n3"; "n4"; "n5"; "n6"].

(** Produced and signed counts: none for [n0], a raw work of 100 for [n1]
    to [n5] and of 1000 for [n6]. *)
Definition works : gmap string (N * N) :=
  list_to_map
    [(NewHash "n1", (5, 94)); (NewHash "n2", (5, 94)); (NewHash "n3", (5, 94));
     (NewHash "n4", (5, 94)); (NewHash "n5", (5, 94)); (NewHash "n6", (50, 940))]%N.

Definition checkpoints : list RoundSpace.t :=
  (fun name => {| RoundSpace.NodeId := NewHash name; RoundSpace.Batch := 1;
                  RoundSpace.Round := 0; RoundSpace.Duration := 0 |})
  <$> ["n1"; "n2"; "n3"; "n4"; "n5"; "n6"].

Definition lastDistribution : MintDistribution.t :=
  {| MintDistribution.Group := "UNIVERSAL"; MintDistribution.Batch := 0;
     MintDistribution.Amount := 0 |}.

Definition persistStore : Store.t :=
  {| Store.ReadLastMintDistribution := fun _ => Ok lastDistribution;
     Store.ReadMintDistributions := fun _ _ => [];
     Store.ListNodeWorks := fun _ _ => Ok works;
     Store.ReadNodeRoundSpacesForBatch := fun _ _ => Ok [];
     Store.ListAggregatedRoundSpaceCheckpoints := fun _ => Ok checkpoints;
     Store.ReadDomains := [{| Domain.Account := address "domain" |}] |}.

Definition emptyStore : KVStore.t :=
  {| KVStore.table := ∅; KVStore.snapshots := []; KVStore.getError := None;
     KVStore.loadError := None; KVStore.setError := None |}.

Definition node (mainnet : bool) : Node.t :=
  {| Node.Epoch := epoch; Node.isMainnet := mainnet; Node.Account := address "self";
     Node.ConsensusNodes := []; Node.networkId := EmptyString;
     Node.IdForNetwork := EmptyString;
     Node.TopoCounter := 0; Node.persistStore := persistStore; Node.store := emptyStore;
     Node.ConsensusThreshold := fun _ _ => 5;
     Node.NodesListWithoutState := fun _ _ => accepted |}.

Definition buildMintTransactionV1 (n : Node.t) (timestamp : Z) (validateOnly : bool)
  : run (option VersionedTransaction.t) := Ret None.

(** A genesis of seven nodes with the pledge as balance, and one in which
    the seven nodes are one and the same. *)
Definition genesisNode (name : string) : GenesisNode.t :=
  {| GenesisNode.Address := address name;
     GenesisNode.Balance := Integer.NewInteger Precision 10000 |}.

Definition genesis : Genesis.t :=
  {| Genesis.Epoch := 1551312000;
     Genesis.Nodes := genesisNode <$> ["g0"; "g1"; "g2"; "g3"; "g4"; "g5"; "g6"] |}.

Definition duplicated : Genesis.t :=
  {| Genesis.Epoch := 1551312000; Genesis.Nodes := replicate 7 (genesisNode "g0") |}.

(** The file system holds the two genesis files; the marshaller is a
    stand-in that tells them apart. *)
Definition ReadFile (path : string) : result string := Ok path.
Definition jsonUnmarshal (f : string) : result Genesis.t :=
  if String.eqb f "duplicated/genesis.json" then Ok duplicated else Ok genesis.
Definition jsonMarshal (gns : Genesis.t) : result string :=
  Ok (String.concat "," (AddressString ∘ GenesisNode.Address <$> Genesis.Nodes gns)).

(** The store holds no custodian; the payload of a transaction is stood
    for by the masks of its outputs. *)
Definition ReadCustodian (s : Store.t) (timestamp : Z)
  : result (option CustodianUpdateRequest.t) := Ok None.
Definition PayloadMarshal (v : VersionedTransaction.t) : string :=
  String.concat "," (Output.Mask <$> Transaction.Outputs (VersionedTransaction.Transaction v)).
Definition PayloadHash (v : VersionedTransaction.t) : Hash := NewHash (PayloadMarshal v).
Definition hexEncodeToString (s : string) : string := s.

(** A snapshot of another node at a given timestamp. *)
Definition mintSnapshot (timestamp : Z) : Snapshot.t :=
  {| Snapshot.NodeId := NewHash "n1";
     Snapshot.Transaction :=
       {| VersionedTransaction.Transaction :=
            {| Transaction.Version := TxVersion; Transaction.Asset := XINAssetId;
               Transaction.Inputs := []; Transaction.Outputs := [];
               Transaction.Extra := EmptyString |};
          VersionedTransaction.Signatures := [] |};
     Snapshot.RoundNumber := 1; Snapshot.Timestamp := timestamp |}.

(** The node with other answers of its store and another threshold. *)
Definition withPersistStore (n : Node.t) (s : Store.t) (threshold : Z) : Node.t :=
  {| Node.Epoch := Node.Epoch n; Node.isMainnet := Node.isMainnet n;
     Node.Account := Node.Account n; Node.ConsensusNodes := Node.ConsensusNodes n;
     Node.networkId := Node.networkId n; Node.IdForNetwork := Node.IdForNetwork n;
     Node.TopoCounter := Node.TopoCounter n; Node.persistStore := s; Node.store := Node.store n;
     Node.ConsensusThreshold := fun _ _ => threshold;
     Node.NodesListWithoutState := Node.NodesListWithoutState n |}.




(** A node that asks for seven working nodes where six have worked. *)
Definition strict : Node.t := withPersistStore (node false) persistStore 7.

(** A mainnet store whose last distribution, of batch 1313, is a legacy one. *)
Definition legacyDistribution : MintDistribution.t :=
  {| MintDistribution.Group := "KERNELNODE"; MintDistribution.Batch := 1313;
     MintDistribution.Amount := 0 |}.

Definition forkStore : Store.t :=
  {| Store.ReadLastMintDistribution := fun _ => Ok legacyDistribution;
     Store.ReadMintDistributions := fun _ _ => [legacyDistribution];
     Store.ListNodeWorks := fun _ _ => Ok works;
     Store.ReadNodeRoundSpacesForBatch := fun _ _ => Ok [];
     Store.ListAggregatedRoundSpaceCheckpoints := fun _ => Ok checkpoints;
     Store.ReadDomains := [{| Domain.Account := address "domain" |}] |}.

Definition afterFork : Node.t := withPersistStore (node true) forkStore 5.

End Example.

Section Kernel.

(** Fractional digits of an amount. *)
Variable Precision : nat.

(** [config.KernelMintTimeBegin] and [config.KernelMintTimeEnd]. *)
Variables KernelMintTimeBegin KernelMintTimeEnd : Z.

(** The [crypto] and [common] primitives the kernel calls. *)
Variable NewHash : string -> Hash.
Variable NewKeyFromSeed : string -> Key.
Variable Public : Key -> Key.
Variable DeriveGhostPublicKey : Key -> Key -> Key -> Key.
Variable AddressString : Address.t -> string.
Variable AddressHash : Address.t -> Hash.
Variable NewAddressFromString : string -> result Address.t.
Variable NewAddressFromSeed : string -> Address.t.
Variable ForNetwork : Hash -> Hash -> Hash.
Variable XINAssetId : Hash.
Variable TxVersion : Z.
Variables OperatorCmp OperatorSum Operator64 : Z.
Variable NewThresholdScript : Z -> Script.

(** The pinned historical transactions, their decoders, and the V1 builder. *)
Variable TransactionMintWorkHacks : Z -> string.
Variable hexDecodeString : string -> result string.
Variable UnmarshalVersionedTransaction : string -> result VersionedTransaction.t.
Variable buildMintTransactionV1 : Node.t -> Z -> bool -> run (option VersionedTransaction.t).

(** [ioutil.ReadFile], [json.Unmarshal] into a [Genesis], [json.Marshal]. *)
Variable ReadFile : string -> result string.
Variable jsonUnmarshal : string -> result Genesis.t.
Variable jsonMarshal : Genesis.t -> result string.

Abbreviation NewInteger := (Integer.NewInteger Precision).
Abbreviation Zero := (Integer.NewInteger Precision 0).

(** ** Constants of [mint.go] and [genesis.go] *)

Definition MainnetMintPeriodForkBatch : Z := 72.
Definition MainnetMintPeriodForkTimeBegin : Z := 6.
Definition MainnetMintPeriodForkTimeEnd : Z := 18.
Definition MainnetMintWorkDistributionForkBatch : Z := 729.
Definition MainnetMintTransactionV2ForkBatch : Z := 739.
Definition MainnetMintTransactionV3ForkBatch : Z := 1313.

Definition MintPool : Z := NewInteger 500000.
Definition MintLiquidity : Z := NewInteger 500000.
Definition MintYearShares : Z := 10.
Definition MintYearBatches : Z := 365.
Definition MintNodeMaximum : Z := 50.

Definition MinimumNodeCount : Z := 7.
Definition PledgeAmount : Z := 10000.

(** ** Pool model *)

(** Loop body of [poolSizeUniversal], on the pair [(mint, pool)]. *)
Definition poolYearUniversal (s : Z * Z) : run (Z * Z) :=
  let '(mint, pool) := s in
  year ← Integer.Div pool MintYearShares;
  let mint := Integer.Add mint year in
  pool ← Integer.Sub pool year;
  mret (mint, pool).

Definition poolSizeUniversal (batch : Z) : run Z :=
  '(mint, pool) ← for_lt (batch `quot` MintYearBatches) poolYearUniversal (Zero, MintPool);
  tenth ← Integer.Div pool MintYearShares;
  day ← Integer.Div tenth MintYearBatches;
  let count := batch `rem` MintYearBatches in
  let mint := if 0 <? count then Integer.Add mint (Integer.Mul day count) else mint in
  if 0 <? Integer.Sign mint then Integer.Sub MintPool mint else mret MintPool.

(** Loop body of [poolSizeLegacy]. *)
Definition poolYearLegacy (s : Z * Z) : run (Z * Z) :=
  let '(mint, pool) := s in
  year ← Integer.Div pool MintYearShares;
  share ← Integer.Div year 10;
  let mint := Integer.Add mint (Integer.Mul share 9) in
  pool ← Integer.Sub pool year;
  mret (mint, pool).

Definition poolSizeLegacy (batch : Z) : run Z :=
  '(mint, pool) ← for_lt (batch `quot` MintYearBatches) poolYearLegacy (Zero, MintPool);
  tenth ← Integer.Div pool MintYearShares;
  day ← Integer.Div tenth MintYearBatches;
  let count := batch `rem` MintYearBatches in
  mint ← (if 0 <? count
          then share ← Integer.Div day 10;
               mret (Integer.Add mint (Integer.Mul (Integer.Mul share 9) count))
          else mret mint);
  if 0 <? Integer.Sign mint then Integer.Sub MintPool mint else mret MintPool.

(** Loop body of [pledgeAmount], on the pair [(liquidity, pool)]. *)
Definition pledgeYear (s : Z * Z) : run (Z * Z) :=
  let '(liquidity, pool) := s in
  share ← Integer.Div pool MintYearShares;
  let liquidity := Integer.Add liquidity share in
  pool ← Integer.Sub pool share;
  mret (liquidity, pool).

(** [sinceEpoch] is a [time.Duration], an [int64] of nanoseconds. *)
Definition pledgeAmount (sinceEpoch : Z) : run Z :=
  let batch := int ((sinceEpoch `quot` 3600000000000) `quot` 24) in
  '(liquidity, _) ← for_lt (batch `quot` MintYearBatches) pledgeYear (MintLiquidity, MintPool);
  Integer.Div liquidity MintNodeMaximum.

(** [PledgeAmount] of [Node]; [ts] and [Epoch] are [uint64]. *)
Definition Node_PledgeAmount (node : Node.t) (ts : Z) : run Z :=
  if ts <? Node.Epoch node then pledgeAmount 0
  else
    let since := uint64 (uint64 ts - Node.Epoch node) in
    pledgeAmount (int since).

(** ** Mint-possibility gates *)

Definition noMint : run (Z * Z) := mret (0, Zero).

(** [pool = pool.Sub(pool.Div(MintYearShares))]. *)
Definition gateYear (pool : Z) : run Z :=
  tenth ← Integer.Div pool MintYearShares;
  Integer.Sub pool tenth.

(** What both gates do with the last distribution; [perBatch] is [total] in
    the universal gate and [full] in the legacy one. *)
Definition gateDistribution (node : Node.t) (validateOnly : bool) (batch perBatch : Z)
  : run (Z * Z) :=
  match Store.ReadLastMintDistribution (Node.persistStore node) MaxUint64 with
  | Failed _ => noMint
  | Ok dist =>
      if batch <? int (MintDistribution.Batch dist) then noMint
      else if batch =? int (MintDistribution.Batch dist) then
        if validateOnly then mret (batch, MintDistribution.Amount dist) else noMint
      else
        let amount := Integer.Mul perBatch (int (batch - int (MintDistribution.Batch dist))) in
        mret (batch, amount)
  end.

Definition checkUniversalMintPossibility (node : Node.t) (timestamp : Z) (validateOnly : bool)
  : run (Z * Z) :=
  if timestamp <=? Node.Epoch node then noMint
  else
    let since := uint64 (timestamp - Node.Epoch node) in
    let hours := int (since `div` 3600000000000) in
    let batch := hours `quot` 24 in
    if batch <? 1 then noMint
    else
      let kmb := KernelMintTimeBegin in
      let kme := KernelMintTimeEnd in
      if (hours `rem` 24 <? kmb) || (kme <? hours `rem` 24) then noMint
      else
        pool ← for_lt (batch `quot` MintYearBatches) gateYear MintPool;
        pool ← Integer.Div pool MintYearShares;
        total ← Integer.Div pool MintYearBatches;
        gateDistribution node validateOnly batch total.

Definition checkLegacyMintPossibility (node : Node.t) (timestamp : Z) (validateOnly : bool)
  : run (Z * Z) :=
  if timestamp <=? Node.Epoch node then noMint
  else
    let since := uint64 (timestamp - Node.Epoch node) in
    let hours := int (since `div` 3600000000000) in
    let batch := hours `quot` 24 in
    if batch <? 1 then noMint
    else
      let fork := Node.isMainnet node && (batch <? MainnetMintPeriodForkBatch) in
      let kmb := if fork then MainnetMintPeriodForkTimeBegin else KernelMintTimeBegin in
      let kme := if fork then MainnetMintPeriodForkTimeEnd else KernelMintTimeEnd in
      if (hours `rem` 24 <? kmb) || (kme <? hours `rem` 24) then noMint
      else
        pool ← for_lt (batch `quot` MintYearBatches) gateYear MintPool;
        pool ← Integer.Div pool MintYearShares;
        total ← Integer.Div pool MintYearBatches;
        light ← Integer.Div total 10;
        let full := Integer.Mul light 9 in
        gateDistribution node validateOnly batch full.

(** ** Work distributor *)

Definition dayNanos : Z := 3600000000000 * 24.

Definition ListRoundSpaces (node : Node.t) (cids : list Hash) (day : Z)
  : run (gmap string (list RoundSpace.t)) :=
  let epoch := Node.Epoch node `div` dayNanos in
  foldl (fun acc id =>
           spaces ← acc;
           ns ← call (Store.ReadNodeRoundSpacesForBatch (Node.persistStore node) id
                        (uint64 (day - epoch)));
           mret (<[id := ns]> spaces))
        (mret ∅) cids.

Definition validateWorksAndSpacesAggregator (node : Node.t) (cids : list Hash) (thr day : Z)
  : run unit :=
  works ← call (Store.ListNodeWorks (Node.persistStore node) cids (uint32 day));
  let worksAgg :=
    map_fold (fun _ (w : N * N) n => if 0 <? Z.of_N w.1 then n + 1 else n) 0 works in
  if worksAgg <? thr then
    Err (Errorf "validateWorksAndSpacesAggregator works not ready yet %d %d %d %d"
           [VInt day; VInt (Z.of_nat (size works)); VInt worksAgg; VInt thr])
  else
    spaces ← call (Store.ListAggregatedRoundSpaceCheckpoints (Node.persistStore node) cids);
    let epoch := Node.Epoch node `div` dayNanos in
    let batch := uint64 (day - epoch) in
    let spacesAgg :=
      foldl (fun n s => if batch <=? RoundSpace.Batch s then n + 1 else n) 0 spaces in
    if (spacesAgg <? thr) || negb (worksAgg =? spacesAgg) then
      Err (Errorf "validateWorksAndSpacesAggregator spaces not ready yet %d %d %d %d %d"
             [VInt batch; VInt (Z.of_nat (length spaces)); VInt spacesAgg; VInt worksAgg;
              VInt thr])
    else mret tt.

(** [m.Work] as first computed from the pair [(w[0], w[1])] of a node. *)
Definition rawWork (w : N * N) : run Z :=
  work ← Integer.Div (Integer.Mul (NewInteger (Z.of_N w.1)) 120) 100;
  let sign := NewInteger (Z.of_N w.2) in
  mret (if 0 <? Integer.Sign sign then Integer.Add work sign else work).

(** [valid], [minW], [maxW] and [totalW] of the first loop. *)
Record WorkStats : Type := { valid : Z; minW : Z; maxW : Z; totalW : Z }.

Definition countWork (st : WorkStats) (work : Z) : WorkStats :=
  if Integer.Sign work =? 0 then st
  else
    {| valid := valid st + 1;
       minW := if Integer.Sign (minW st) =? 0 then work
               else if Integer.Cmp work (minW st) <? 0 then work
               else minW st;
       maxW := if 0 <? Integer.Cmp work (maxW st) then work else maxW st;
       totalW := Integer.Add (totalW st) work |}.

(** The second loop's update of one [m.Work]. *)
Definition clampWork (avg upper lower work : Z) : run Z :=
  if 0 <=? Integer.Cmp work upper then mret (Integer.Mul avg 2)
  else if 0 <=? Integer.Cmp work avg then
    part ← Integer.Div work 6;
    rest ← Integer.Div (Integer.Mul avg 5) 6;
    mret (Integer.Add part rest)
  else if Integer.Cmp work lower <=? 0 then Integer.Div avg 7
  else mret work.

Definition setWork (m : CNodeWork.t) (work : Z) : CNodeWork.t :=
  {| CNodeWork.CNode := CNodeWork.CNode m; CNodeWork.Work := work |}.

Definition notValid (day : Z) (mints : list CNodeWork.t) (thr valid : Z) : error :=
  Errorf "distributeKernelMintByWorks not valid %d %d %d %d"
    [VInt day; VInt (Z.of_nat (length mints)); VInt thr; VInt valid].

Definition distributeKernelMintByWorks (node : Node.t) (accepted : list CNode.t) (base : Z)
    (timestamp : Z) : run (list CNodeWork.t) :=
  let mints := map (fun n => {| CNodeWork.CNode := n; CNodeWork.Work := 0 |}) accepted in
  let cids := map CNode.IdForNetwork accepted in
  let epoch := Node.Epoch node `div` dayNanos in
  let day := timestamp `div` dayNanos in
  if day <? epoch then Panic (Errorf "invalid mint day %d %d" [VInt epoch; VInt day])
  else if uint64 (day - epoch) =? 0 then
    work ← Integer.Div base (Z.of_nat (length mints));
    mret (map (fun m => setWork m work) mints)
  else
    let thr := int (Node.ConsensusThreshold node timestamp false) in
    match validateWorksAndSpacesAggregator node cids thr day with
    | Err e => Err (Errorf "distributeKernelMintByWorks not ready yet %d %v" [VInt day; VErr e])
    | Panic e => Panic e
    | Ret _ =>
        works ← call (Store.ListNodeWorks (Node.persistStore node) cids
                        (uint32 (uint32 day - 1)));
        spaces ← ListRoundSpaces node cids (uint64 (day - 1));
        mints ← mapM (fun m =>
                   work ← rawWork (default (0%N, 0%N)
                                     (works !! CNode.IdForNetwork (CNodeWork.CNode m)));
                   mret (setWork m work)) mints;
        let st := foldl countWork {| valid := 0; minW := 0; maxW := 0; totalW := 0 |}
                    (map CNodeWork.Work mints) in
        if valid st <? thr then Err (notValid day mints thr (valid st))
        else
          rest ← Integer.Sub (totalW st) (minW st);
          rest ← Integer.Sub rest (maxW st);
          avg ← Integer.Div rest (valid st - 2);
          if Integer.Sign avg =? 0 then Err (notValid day mints thr (valid st))
          else
            let upper := Integer.Mul avg 7 in
            lower ← Integer.Div avg 7;
            mints ← mapM (fun m =>
                       work ← clampWork avg upper lower (CNodeWork.Work m);
                       mret (setWork m work)) mints;
            let total := foldl Integer.Add (NewInteger 0) (map CNodeWork.Work mints) in
            mapM (fun m =>
                    rat ← Integer.Ration (CNodeWork.Work m) total;
                    mret (setWork m (Integer.Product rat base))) mints
    end.

(** ** Mint transaction builders *)

(** Modelled from the spec: the methods of [common.Transaction] are declared
    outside the kernel package.  A script output is built as the genesis
    loader builds its outputs, from the key the seed gives, and carries the
    amount handed in; a mint input records its group, batch and amount. *)
Definition NewTransaction (asset : Hash) : Transaction.t :=
  {| Transaction.Version := TxVersion; Transaction.Asset := asset;
     Transaction.Inputs := []; Transaction.Outputs := []; Transaction.Extra := EmptyString |}.

Definition addMintInput (group : string) (tx : Transaction.t) (batch amount : Z)
  : Transaction.t :=
  {| Transaction.Version := Transaction.Version tx; Transaction.Asset := Transaction.Asset tx;
     Transaction.Inputs :=
       Transaction.Inputs tx ++
       [{| Input.Hash := zeroBytes 32; Input.Index := 0;
           Input.Mint := Some {| MintData.Group := group; MintData.Batch := batch;
                                 MintData.Amount := amount |} |}];
     Transaction.Outputs := Transaction.Outputs tx; Transaction.Extra := Transaction.Extra tx |}.

Definition AddUniversalMintInput : Transaction.t -> Z -> Z -> Transaction.t :=
  addMintInput "UNIVERSAL".

Definition AddKernelNodeMintInputLegacy : Transaction.t -> Z -> Z -> Transaction.t :=
  addMintInput "KERNELNODE".

Definition AddScriptOutput (tx : Transaction.t) (accounts : list Address.t) (script : Script)
    (amount : Z) (seed : string) : Transaction.t :=
  let r := NewKeyFromSeed seed in
  {| Transaction.Version := Transaction.Version tx; Transaction.Asset := Transaction.Asset tx;
     Transaction.Inputs := Transaction.Inputs tx;
     Transaction.Outputs :=
       Transaction.Outputs tx ++
       [{| Output.Type_ := OutputTypeScript; Output.Amount := amount;
           Output.Keys :=
             map (fun a => DeriveGhostPublicKey r (Address.PublicViewKey a)
                             (Address.PublicSpendKey a)) accounts;
           Output.Script := script; Output.Mask := Public r |}];
     Transaction.Extra := Transaction.Extra tx |}.

Definition AsVersioned (tx : Transaction.t) : VersionedTransaction.t :=
  {| VersionedTransaction.Transaction := tx; VersionedTransaction.Signatures := [] |}.

(** [mint.Amount = ...] through the pointer [tx.Inputs[0].Mint]. *)
Definition setMintAmount (tx : Transaction.t) (amount : Z) : Transaction.t :=
  match Transaction.Inputs tx with
  | i :: rest =>
      {| Transaction.Version := Transaction.Version tx; Transaction.Asset := Transaction.Asset tx;
         Transaction.Inputs :=
           {| Input.Hash := Input.Hash i; Input.Index := Input.Index i;
              Input.Mint :=
                (fun m => {| MintData.Group := MintData.Group m; MintData.Batch := MintData.Batch m;
                             MintData.Amount := amount |}) <$> Input.Mint i |} :: rest;
         Transaction.Outputs := Transaction.Outputs tx;
         Transaction.Extra := Transaction.Extra tx |}
  | [] => tx
  end.

(** [tx.Inputs[0].Mint], a fatal dereference when there is none. *)
Definition firstMint (tx : Transaction.t) : run MintData.t :=
  match Transaction.Inputs tx with
  | {| Input.Mint := Some m |} :: _ => Ret m
  | _ => Panic (External "runtime error: invalid memory address or index out of range")
  end.

(** The seed of an output: the hash of the label, twice. *)
Definition mintSeed (account : Address.t) (label : string) : string :=
  let si := NewHash (AddressString account +:+ label) in
  si +:+ si.

(** One turn of the loop over [mints], on the pair [(tx, total)]. *)
Definition addWorkOutput (batch : Z) (script : Script) (s : Transaction.t * Z)
    (m : CNodeWork.t) : Transaction.t * Z :=
  let '(tx, total) := s in
  let label := "MINTKERNELNODE" +:+ pretty batch in
  let seed := mintSeed (CNode.Signer (CNodeWork.CNode m)) label in
  (AddScriptOutput tx [CNode.Payee (CNodeWork.CNode m)] script (CNodeWork.Work m) seed,
   Integer.Add total (CNodeWork.Work m)).

Definition tryToSlashLegacyLightPool (node : Node.t) (batch : Z) (tx : Transaction.t)
  : run Transaction.t :=
  if negb (Node.isMainnet node) || (batch <? MainnetMintTransactionV3ForkBatch) then mret tx
  else
    mint ← firstMint tx;
    match Store.ReadMintDistributions (Node.persistStore node) (uint64 (batch - 1)) 1 with
    | [] => Panic (External "runtime error: index out of range")
    | last :: _ =>
        if negb (uint64 (MintDistribution.Batch last + 1) =? batch) then
          Panic (Errorf "tryToSlashLegacyLightPool %v %d"
                   [VInt (MintDistribution.Batch last); VInt batch])
        else if String.eqb (MintDistribution.Group last) (MintData.Group mint) then mret tx
        else
          let old := int (MintDistribution.Batch last) in
          legacy ← poolSizeLegacy old;
          universal ← poolSizeUniversal old;
          lightSlash ← Integer.Sub legacy universal;
          mret (setMintAmount tx (Integer.Add (MintData.Amount mint) lightSlash))
    end.

Definition overshoot (builder : string) (amount total : Z) : error :=
  Errorf (builder +:+ " %s %s") [VInt amount; VInt total].

Definition buildUniversalMintTransaction (node : Node.t)
    (custodianRequest : option CustodianUpdateRequest.t) (timestamp : Z) (validateOnly : bool)
  : run (option VersionedTransaction.t) :=
  '(batch, amount) ← checkUniversalMintPossibility node timestamp validateOnly;
  if (Integer.Sign amount <=? 0) || (batch <=? 0) then mret None
  else
    tenth ← Integer.Div amount 10;
    let kernel := Integer.Mul tenth 5 in
    let accepted := Node.NodesListWithoutState node timestamp true in
    match distributeKernelMintByWorks node accepted kernel timestamp with
    | Err _ => mret None
    | Panic e => Panic e
    | Ret mints =>
        let tx := NewTransaction XINAssetId in
        let tx := AddUniversalMintInput tx (uint64 batch) amount in
        let '(tx, total) :=
          foldl (addWorkOutput batch (NewThresholdScript 1)) (tx, NewInteger 0) mints in
        if 0 <? Integer.Cmp total amount then
          Panic (overshoot "buildUniversalMintTransaction" amount total)
        else
          tenth ← Integer.Div amount 10;
          let safe := Integer.Mul tenth 4 in
          match Store.ReadDomains (Node.persistStore node) with
          | [] => Panic (External "runtime error: index out of range")
          | domain :: _ =>
              let custodian :=
                match custodianRequest with
                | Some request => CustodianUpdateRequest.Custodian request
                | None => Domain.Account domain
                end in
              let seed := mintSeed custodian ("MINTCUSTODIANACCOUNT" +:+ pretty batch) in
              let tx := AddScriptOutput tx [custodian] (NewThresholdScript 1) safe seed in
              let total := Integer.Add total safe in
              if 0 <? Integer.Cmp total amount then
                Panic (overshoot "buildUniversalMintTransaction" amount total)
              else
                tx ← tryToSlashLegacyLightPool node (uint64 batch) tx;
                mint ← firstMint tx;
                let amount := MintData.Amount mint in
                light ← Integer.Sub amount total;
                let addr := NewAddressFromSeed (zeroBytes 64) in
                let seed := mintSeed addr ("MINTLIGHTACCOUNT" +:+ pretty batch) in
                let tx := AddScriptOutput tx [addr] (NewThresholdScript Operator64) light seed in
                mret (Some (AsVersioned tx))
          end
    end.

Definition buildLegacyKerneNodeMintTransaction (node : Node.t) (timestamp : Z)
    (validateOnly : bool) : run (option VersionedTransaction.t) :=
  '(batch, amount) ← checkLegacyMintPossibility node timestamp validateOnly;
  if (Integer.Sign amount <=? 0) || (batch <=? 0) then mret None
  else
    let raw := TransactionMintWorkHacks batch in
    if negb (String.eqb raw EmptyString) && Node.isMainnet node then
      match hexDecodeString raw with
      | Ok rt =>
          match UnmarshalVersionedTransaction rt with
          | Ok ver => mret (Some ver)
          | Failed _ => Panic (External raw)
          end
      | Failed _ => Panic (External raw)
      end
    else if Node.isMainnet node && (batch <? MainnetMintTransactionV2ForkBatch) then
      buildMintTransactionV1 node timestamp validateOnly
    else
      let accepted := Node.NodesListWithoutState node timestamp true in
      match distributeKernelMintByWorks node accepted amount timestamp with
      | Err _ => mret None
      | Panic e => Panic e
      | Ret mints =>
          let tx := NewTransaction XINAssetId in
          let tx := AddKernelNodeMintInputLegacy tx (uint64 batch) amount in
          let script := NewThresholdScript 1 in
          let '(tx, total) := foldl (addWorkOutput batch script) (tx, NewInteger 0) mints in
          if 0 <? Integer.Cmp total amount then
            Panic (overshoot "buildLegacyKerneNodeMintTransaction" amount total)
          else
            diff ← Integer.Sub amount total;
            if 0 <? Integer.Sign diff then
              let addr := NewAddressFromSeed (zeroBytes 64) in
              let seed := mintSeed addr ("MINTKERNELNODE" +:+ pretty batch +:+ "DIFF") in
              let tx := AddScriptOutput tx [addr] (NewThresholdScript Operator64) diff seed in
              mret (Some (AsVersioned tx))
            else mret (Some (AsVersioned tx))
      end.

(** ** Genesis loader *)

(** The checks of one turn of the loop of [readGenesis]. *)
Definition checkGenesisNode (inputsFilter : gmap string bool) (input : GenesisNode.t)
  : run unit :=
  let address := GenesisNode.Address input in
  _ ← call (NewAddressFromString (AddressString address));
  if Integer.Cmp (GenesisNode.Balance input) (NewInteger PledgeAmount) <? 0 then
    Err (Errorf "invalid genesis input amount %s" [VInt (GenesisNode.Balance input)])
  else if default false (inputsFilter !! AddressString address) then
    Err (Errorf "duplicated genesis inputs %s" [VStr (AddressString address)])
  else
    let seed := NewHash (Address.PublicSpendKey address) in
    let privateView := NewKeyFromSeed (seed +:+ seed) in
    if negb (String.eqb (Public privateView) (Address.PublicViewKey address)) then
      Err (Errorf "invalid node key format %s %s"
             [VStr (Public privateView); VStr (Address.PublicViewKey address)])
    else mret tt.

(** The loop itself: [inputsFilter] is read in every turn and written in
    none. *)
Fixpoint checkGenesisNodes (inputsFilter : gmap string bool) (nodes : list GenesisNode.t)
  : run unit :=
  match nodes with
  | [] => mret tt
  | input :: rest =>
      _ ← checkGenesisNode inputsFilter input;
      checkGenesisNodes inputsFilter rest
  end.

Definition readGenesis (path : string) : run Genesis.t :=
  f ← call (ReadFile path);
  gns ← call (jsonUnmarshal f);
  if negb (Z.of_nat (length (Genesis.Nodes gns)) =? MinimumNodeCount) then
    Err (Errorf "invalid genesis inputs number %d/%d"
           [VInt (Z.of_nat (length (Genesis.Nodes gns))); VInt MinimumNodeCount])
  else
    let inputsFilter : gmap string bool := ∅ in
    _ ← checkGenesisNodes inputsFilter (Genesis.Nodes gns);
    mret gns.

(** The transaction of the [i]-th genesis node. *)
Definition genesisTransaction (gns : Genesis.t) (i : Z) (input : GenesisNode.t)
  : run Transaction.t :=
  let address := GenesisNode.Address input in
  let seed := NewHash (AddressString address +:+ "NODEPLEDGE") in
  let r := NewKeyFromSeed (seed +:+ seed) in
  let R := Public r in
  let keys :=
    map (fun d => DeriveGhostPublicKey r (Address.PublicViewKey (GenesisNode.Address d))
                    (Address.PublicSpendKey (GenesisNode.Address d))) (Genesis.Nodes gns) in
  let threshold := (int (int (Z.of_nat (length (Genesis.Nodes gns)) * 2) `quot` 3 + 1)) `mod` 256 in
  let pledge :=
    {| Output.Type_ := OutputTypeNodePledge; Output.Amount := NewInteger PledgeAmount;
       Output.Keys := keys; Output.Script := [OperatorCmp; OperatorSum; threshold];
       Output.Mask := R |} in
  remaining ← Integer.Sub (GenesisNode.Balance input) (NewInteger PledgeAmount);
  let outputs :=
    if 0 <? Integer.Cmp remaining (NewInteger 0) then
      let seed := NewHash (AddressString address +:+ "NODEREMAINING") in
      let r := NewKeyFromSeed (seed +:+ seed) in
      let R := Public r in
      let key := DeriveGhostPublicKey r (Address.PublicViewKey address)
                   (Address.PublicSpendKey address) in
      [pledge;
       {| Output.Type_ := OutputTypeScript; Output.Amount := remaining; Output.Keys := [key];
          Output.Script := [OperatorCmp; OperatorSum; 1]; Output.Mask := R |}]
    else [pledge] in
  mret {| Transaction.Version := TxVersion; Transaction.Asset := XINAssetId;
          Transaction.Inputs :=
            [{| Input.Hash := zeroBytes 32; Input.Index := i; Input.Mint := None |}];
          Transaction.Outputs := outputs;
          Transaction.Extra := Address.PublicSpendKey address |}.

(** Modelled from the spec: [TopoCounter.Next] is declared elsewhere in the
    package; the order is assigned from a monotonic counter, which hands out
    its value and moves on by one. *)
Definition TopoCounterNext (seq : Z) : Z * Z := (seq, uint64 (seq + 1)).

(** The loop that builds the snapshots, on [(i, counter, snapshots)]. *)
Fixpoint genesisSnapshots (gns : Genesis.t) (networkId : Hash) (i seq : Z)
    (nodes : list GenesisNode.t) : run (Z * list SnapshotWithTopologicalOrder.t) :=
  match nodes with
  | [] => mret (seq, [])
  | input :: rest =>
      tx ← genesisTransaction gns i input;
      let signed := {| VersionedTransaction.Transaction := tx;
                       VersionedTransaction.Signatures := [] |} in
      let nodeId := ForNetwork (AddressHash (GenesisNode.Address input)) networkId in
      let snapshot :=
        {| Snapshot.NodeId := nodeId; Snapshot.Transaction := signed;
           Snapshot.RoundNumber := 0;
           Snapshot.Timestamp := uint64 (int (Genesis.Epoch gns * 1000000000)) |} in
      let '(order, seq) := TopoCounterNext seq in
      let topo := {| SnapshotWithTopologicalOrder.Snapshot := snapshot;
                     SnapshotWithTopologicalOrder.TopologicalOrder := order |} in
      '(seq, snapshots) ← genesisSnapshots gns networkId (i + 1) seq rest;
      mret (seq, topo :: snapshots)
  end.

Definition stateKeyNetwork : string := "network".

Definition withGenesis (node : Node.t) (consensus : list Address.t) (networkId idForNetwork : Hash)
  : Node.t :=
  {| Node.Epoch := Node.Epoch node; Node.isMainnet := Node.isMainnet node;
     Node.Account := Node.Account node; Node.ConsensusNodes := consensus;
     Node.networkId := networkId; Node.IdForNetwork := idForNetwork;
     Node.TopoCounter := Node.TopoCounter node; Node.persistStore := Node.persistStore node;
     Node.store := Node.store node; Node.ConsensusThreshold := Node.ConsensusThreshold node;
     Node.NodesListWithoutState := Node.NodesListWithoutState node |}.

Definition withStore (node : Node.t) (seq : Z) (store : KVStore.t) : Node.t :=
  {| Node.Epoch := Node.Epoch node; Node.isMainnet := Node.isMainnet node;
     Node.Account := Node.Account node; Node.ConsensusNodes := Node.ConsensusNodes node;
     Node.networkId := Node.networkId node; Node.IdForNetwork := Node.IdForNetwork node;
     Node.TopoCounter := seq; Node.persistStore := Node.persistStore node;
     Node.store := store; Node.ConsensusThreshold := Node.ConsensusThreshold node;
     Node.NodesListWithoutState := Node.NodesListWithoutState node |}.

(** [LoadGenesis] returns the node as it leaves it and the error, if any. *)
Definition LoadGenesis (node : Node.t) (configDir : string) : Node.t * run unit :=
  match readGenesis (configDir +:+ "/genesis.json") with
  | Err e => (node, Err e)
  | Panic e => (node, Panic e)
  | Ret gns =>
      let consensus := Node.ConsensusNodes node ++ map GenesisNode.Address (Genesis.Nodes gns) in
      match jsonMarshal gns with
      | Failed e =>
          (withGenesis node consensus (Node.networkId node) (Node.IdForNetwork node), Err e)
      | Ok data =>
          let networkId := NewHash data in
          let node :=
            withGenesis node consensus networkId
              (ForNetwork (AddressHash (Node.Account node)) networkId) in
          match KVStore.StateGet (Node.store node) stateKeyNetwork (zeroBytes 32) with
          | Failed e => (node, Err e)
          | Ok (found, id) =>
              if String.eqb id networkId then (node, Ret tt)
              else if found then
                (node, Err (Errorf "invalid genesis for network %s" [VStr id]))
              else
                match genesisSnapshots gns networkId 0 (Node.TopoCounter node)
                        (Genesis.Nodes gns) with
                | Err e => (node, Err e)
                | Panic e => (node, Panic e)
                | Ret (seq, snapshots) =>
                    match KVStore.SnapshotsLoadGenesis (Node.store node) snapshots with
                    | Failed e => (withStore node seq (Node.store node), Err e)
                    | Ok store =>
                        match KVStore.StateSet store stateKeyNetwork networkId with
                        | Failed e => (withStore node seq store, Err e)
                        | Ok store => (withStore node seq store, Ret tt)
                        end
                    end
                end
          end
      end
  end.

(** ** Pool size, mint works and the validation of a mint snapshot *)

(** The custodian the store holds at a timestamp, the payload hash and the
    payload bytes of a transaction, and [hex.EncodeToString]. *)
Variable ReadCustodian : Store.t -> Z -> result (option CustodianUpdateRequest.t).
Variable PayloadHash : VersionedTransaction.t -> Hash.
Variable PayloadMarshal : VersionedTransaction.t -> string.
Variable hexEncodeToString : string -> string.

(** [PoolSize] of [Node]. *)
Definition Node_PoolSize (node : Node.t) : run Z :=
  dist ← call (Store.ReadLastMintDistribution (Node.persistStore node) MaxUint64);
  if String.eqb (MintDistribution.Group dist) "KERNELNODE"
  then poolSizeLegacy (int (MintDistribution.Batch dist))
  else poolSizeUniversal (int (MintDistribution.Batch dist)).

(** [batch] is a [uint64], as is the sum [now]. *)
Definition ListMintWorks (node : Node.t) (batch : Z) : result (gmap string (N * N)) :=
  let now := uint64 (Node.Epoch node + uint64 (batch * dayNanos)) in
  let list := Node.NodesListWithoutState node now true in
  let cids := map CNode.IdForNetwork list in
  let day := now `div` dayNanos in
  Store.ListNodeWorks (Node.persistStore node) cids (uint32 day).

(** [now] is what [clock.Now().UnixNano()] reads, an [int64]. *)
Definition validateMintSnapshot (node : Node.t) (now : Z) (snap : Snapshot.t)
    (tx : VersionedTransaction.t) : run unit :=
  let timestamp :=
    if (Snapshot.Timestamp snap =? 0)
       && String.eqb (Snapshot.NodeId snap) (Node.IdForNetwork node)
    then uint64 now else Snapshot.Timestamp snap in
  cur ← call (ReadCustodian (Node.persistStore node) timestamp);
  signed ←
    (if bool_decide (cur = None) && Node.isMainnet node then
       signed ← buildLegacyKerneNodeMintTransaction node timestamp true;
       match signed with
       | None => Err (Errorf "no legacy mint available at %d" [VInt timestamp])
       | Some signed => mret signed
       end
     else
       signed ← buildUniversalMintTransaction node cur timestamp true;
       match signed with
       | None => Err (Errorf "no universal mint available at %d" [VInt timestamp])
       | Some signed => mret signed
       end);
  if negb (String.eqb (PayloadHash tx) (PayloadHash signed)) then
    Err (Errorf "malformed mint transaction at %d %s %s"
           [VInt timestamp; VStr (hexEncodeToString (PayloadMarshal tx));
            VStr (hexEncodeToString (PayloadMarshal signed))])
  else mret tt.

(** ** Closed forms used in the proofs *)

(** The pool left after [n] full years, a tenth taken each year. *)
Fixpoint poolAfter (n : nat) (pool : Z) : Z :=
  match n with
  | O => pool
  | S n' => poolAfter n' (pool - pool `div` 10)
  end.

(** What the legacy loop has minted after [n] full years. *)
Fixpoint legacyMinted (n : nat) (pool : Z) : Z :=
  match n with
  | O => 0
  | S n' => ((pool `div` 10) `div` 10) * 9 + legacyMinted n' (pool - pool `div` 10)
  end.

(** The values [poolSizeUniversal] and [poolSizeLegacy] return for a batch
    that is not negative. *)
Definition universalPool (batch : Z) : Z :=
  let pool := poolAfter (Z.to_nat (batch `div` 365)) MintPool in
  pool - (pool `div` 10) `div` 365 * (batch `mod` 365).

Definition legacyPool (batch : Z) : Z :=
  let years := Z.to_nat (batch `div` 365) in
  let pool := poolAfter years MintPool in
  MintPool
  - (legacyMinted years MintPool + ((pool `div` 10) `div` 365) `div` 10 * 9 * (batch `mod` 365)).

(** One day's share of the pool at [batch], the [total] of the gates, and
    the legacy gate's [full]. *)
Definition dailyShare (batch : Z) : Z :=
  (poolAfter (Z.to_nat (batch `div` 365)) MintPool `div` 10) `div` 365.

Definition legacyFull (batch : Z) : Z := dailyShare batch `div` 10 * 9.


(** The same table as a function. *)
Definition gateTable (batch perBatch : Z) (dist : MintDistribution.t) (validateOnly : bool)
  : Z * Z :=
  if batch <? MintDistribution.Batch dist then (0, Zero)
  else if batch =? MintDistribution.Batch dist then
    if validateOnly then (batch, MintDistribution.Amount dist) else (0, Zero)
  else (batch, perBatch * (batch - MintDistribution.Batch dist)).

(** The value of [rawWork], the statistics and the average of the first
    loop, the piecewise clamp of the second and the share of the third. *)
Definition rawWorkOf (w : N * N) : Z :=
  (NewInteger (Z.of_N w.1) * 120) `div` 100 + NewInteger (Z.of_N w.2).

Definition rawWorks (works : gmap string (N * N)) (accepted : list CNode.t) : list Z :=
  map (fun n => rawWorkOf (default (0%N, 0%N) (works !! CNode.IdForNetwork n))) accepted.

Definition workStats (raw : list Z) : WorkStats :=
  foldl countWork {| valid := 0; minW := 0; maxW := 0; totalW := 0 |} raw.

Definition averageWork (st : WorkStats) : Z :=
  (totalW st - minW st - maxW st) `div` (valid st - 2).

Definition clamp (avg x : Z) : Z :=
  if 7 * avg <=? x then 2 * avg
  else if avg <=? x then x `div` 6 + (avg * 5) `div` 6
  else if x <=? avg `div` 7 then avg `div` 7
  else x.

Definition sumZ (l : list Z) : Z := foldr Z.add 0 l.

Definition workShare (avg total base x : Z) : Z := (clamp avg x * base) `div` total.

(** The amounts of the outputs of a transaction, and their total. *)
Definition outputAmounts (tx : Transaction.t) : list Z :=
  map Output.Amount (Transaction.Outputs tx).

Definition outputsTotal (tx : Transaction.t) : Z := sumZ (outputAmounts tx).

(** The errors of the two overshoot checks of the builders, and the runs
    that do not end in one of them. *)
Definition isOvershoot (e : error) : Prop :=
  exists amount total,
    e = overshoot "buildUniversalMintTransaction" amount total \/
    e = overshoot "buildLegacyKerneNodeMintTransaction" amount total.

Definition neverOvershoots {A : Type} (r : run A) : Prop :=
  forall e, r = Panic e -> ~ isOvershoot e.

(** What [readGenesis] requires of one node: an address the codec reads
    back, the pledge as balance at least, and the view key derived from the
    spend key. *)
Definition genesisNodeValid (input : GenesisNode.t) : Prop :=
  let address := GenesisNode.Address input in
  let seed := NewHash (Address.PublicSpendKey address) in
  (exists a, NewAddressFromString (AddressString address) = Ok a) /\
  NewInteger PledgeAmount <= GenesisNode.Balance input /\
  Public (NewKeyFromSeed (seed +:+ seed)) = Address.PublicViewKey address.

(** What [pledgeAmount] returns after [years] full years: the liquidity
    grown by what has left the pool, over [MintNodeMaximum]. *)
Definition pledgeAfter (years : nat) : Z :=
  (MintLiquidity + (MintPool - poolAfter years MintPool)) `div` 50.

(** The statistics of the first loop: nothing counted yet, one work
    counted, or at least two with the least and the largest among them. *)
Definition statsShape (st : WorkStats) : Prop :=
  (valid st = 0 /\ minW st = 0 /\ maxW st = 0 /\ totalW st = 0) \/
  (valid st = 1 /\ 0 < minW st /\ maxW st = minW st /\ totalW st = minW st) \/
  (2 <= valid st /\ 0 < minW st /\ minW st <= maxW st /\ minW st + maxW st <= totalW st).

(** The statistics of the first loop against the list [l] of the works
    counted so far: their number, their sum, and a least and a largest
    among them. *)
Definition statsCounted (st : WorkStats) (l : list Z) : Prop :=
  valid st = Z.of_nat (length l) /\ totalW st = sumZ l /\
  Forall (fun x => 0 < x) l /\
  (l = [] -> minW st = 0 /\ maxW st = 0) /\
  (l <> [] -> minW st ∈ l /\ maxW st ∈ l /\ Forall (fun x => minW st <= x <= maxW st) l).

(** * Properties *)

(** ** Amounts and the [run] monad *)

(** Case analysis on the first integer comparison of the goal. *)
Ltac zcase :=
  match goal with
  | |- context [?x <? ?y] => destruct (Z.ltb_spec x y)
  | |- context [?x <=? ?y] => destruct (Z.leb_spec x y)
  | |- context [?x =? ?y] => destruct (Z.eqb_spec x y)
  end.

Lemma bind_Ret {A B : Type} (a : A) (f : A -> run B) : (Ret a ≫= f) = f a.
Proof. reflexivity. Qed.

Lemma bind_Err {A B : Type} (e : error) (f : A -> run B) : (Err e ≫= f) = Err e.
Proof. reflexivity. Qed.

Lemma bind_Panic {A B : Type} (e : error) (f : A -> run B) : (Panic e ≫= f) = Panic e.
Proof. reflexivity. Qed.

Lemma repeat_run_S {S : Type} (body : S -> run S) n s :
  repeat_run body (Datatypes.S n) s = body s ≫= repeat_run body n.
Proof. reflexivity. Qed.

Lemma unit_pos : 0 < 10 ^ Z.of_nat Precision.
Proof. apply Z.pow_pos_nonneg; lia. Qed.

Lemma NewInteger_nonneg x : 0 <= x -> 0 <= NewInteger x.
Proof. intros Hx. unfold Integer.NewInteger. pose proof unit_pos. nia. Qed.

Lemma Div_pos x y : 0 < y -> Integer.Div x y = Ret (x `div` y).
Proof. intros Hy. unfold Integer.Div. zcase; [lia | done]. Qed.

Lemma Sub_le x y : y <= x -> Integer.Sub x y = Ret (x - y).
Proof. intros Hy. unfold Integer.Sub. zcase; [lia | done]. Qed.

(** One step of a run: the calls that cannot fail are replaced by their
    values and the binds over them are reduced. *)
Ltac run_step :=
  repeat first
    [ rewrite bind_Ret
    | rewrite Div_pos by lia
    | rewrite Sub_le by lia
    | progress cbv beta iota zeta ].

Lemma tenth_bounds pool : 0 <= pool -> 0 <= pool `div` 10 <= pool.
Proof.
  intros Hp. split; [apply Z.div_pos; lia |].
  apply Z.div_le_upper_bound; lia.
Qed.

Lemma poolAfter_bounds n pool : 0 <= pool -> 0 <= poolAfter n pool <= pool.
Proof.
  revert pool. induction n as [|n IH]; intros pool Hp; simpl; [lia |].
  pose proof (tenth_bounds pool Hp). specialize (IH (pool - pool `div` 10)). lia.
Qed.

Lemma poolAfter_succ n pool :
  poolAfter (S n) pool = poolAfter n pool - poolAfter n pool `div` 10.
Proof. revert pool. induction n as [|n IH]; intros pool; [done |]. simpl in *. apply IH. Qed.

Lemma Sign_pos x : (0 <? Integer.Sign x) = (0 <? x).
Proof. unfold Integer.Sign. destruct x; reflexivity. Qed.

Lemma Sign_zero x : (Integer.Sign x =? 0) = (x =? 0).
Proof. unfold Integer.Sign. destruct x; reflexivity. Qed.

Lemma Sign_nonpos x : (Integer.Sign x <=? 0) = (x <=? 0).
Proof. unfold Integer.Sign. destruct x; reflexivity. Qed.

Lemma Cmp_pos x y : (0 <? Integer.Cmp x y) = (y <? x).
Proof.
  unfold Integer.Cmp. destruct (Z.compare_spec x y); zcase; try lia; reflexivity.
Qed.

Lemma Cmp_neg x y : (Integer.Cmp x y <? 0) = (x <? y).
Proof.
  unfold Integer.Cmp. destruct (Z.compare_spec x y); zcase; try lia; reflexivity.
Qed.

Lemma Cmp_nonneg x y : (0 <=? Integer.Cmp x y) = (y <=? x).
Proof.
  unfold Integer.Cmp. destruct (Z.compare_spec x y); zcase; try lia; reflexivity.
Qed.

Lemma Cmp_nonpos x y : (Integer.Cmp x y <=? 0) = (x <=? y).
Proof.
  unfold Integer.Cmp. destruct (Z.compare_spec x y); zcase; try lia; reflexivity.
Qed.

(** ** Pool model *)

Lemma MintPool_nonneg : 0 <= MintPool.
Proof. apply NewInteger_nonneg. lia. Qed.

Lemma poolYearUniversal_step mint pool :
  0 <= pool ->
  poolYearUniversal (mint, pool) = Ret (mint + pool `div` 10, pool - pool `div` 10).
Proof.
  intros Hp. pose proof (tenth_bounds pool Hp).
  unfold poolYearUniversal, MintYearShares. run_step. reflexivity.
Qed.

Lemma poolYearLegacy_step mint pool :
  0 <= pool ->
  poolYearLegacy (mint, pool)
  = Ret (mint + (pool `div` 10) `div` 10 * 9, pool - pool `div` 10).
Proof.
  intros Hp. pose proof (tenth_bounds pool Hp).
  unfold poolYearLegacy, MintYearShares. run_step. reflexivity.
Qed.

Lemma repeat_poolYearUniversal n mint pool :
  0 <= pool ->
  repeat_run poolYearUniversal n (mint, pool)
  = Ret (mint + (pool - poolAfter n pool), poolAfter n pool).
Proof.
  revert mint pool. induction n as [|n IH]; intros mint pool Hp.
  - simpl. do 2 f_equal. lia.
  - pose proof (tenth_bounds pool Hp) as Ht.
    rewrite repeat_run_S, poolYearUniversal_step, bind_Ret by lia.
    rewrite IH by lia. simpl poolAfter. do 2 f_equal. lia.
Qed.

Lemma legacyMinted_bounds n pool :
  0 <= pool -> 0 <= legacyMinted n pool <= pool - poolAfter n pool.
Proof.
  revert pool. induction n as [|n IH]; intros pool Hp; simpl; [lia |].
  pose proof (tenth_bounds pool Hp) as Ht.
  pose proof (tenth_bounds (pool `div` 10) (proj1 Ht)) as Hs.
  assert (0 <= (pool `div` 10) `div` 10 * 9 <= pool `div` 10).
  { split; [lia |]. pose proof (Z.mul_div_le (pool `div` 10) 10). lia. }
  specialize (IH (pool - pool `div` 10)). lia.
Qed.

Lemma repeat_poolYearLegacy n mint pool :
  0 <= pool ->
  repeat_run poolYearLegacy n (mint, pool)
  = Ret (mint + legacyMinted n pool, poolAfter n pool).
Proof.
  revert mint pool. induction n as [|n IH]; intros mint pool Hp.
  - simpl. do 2 f_equal. lia.
  - pose proof (tenth_bounds pool Hp) as Ht.
    rewrite repeat_run_S, poolYearLegacy_step, bind_Ret by lia.
    rewrite IH by lia. simpl legacyMinted. simpl poolAfter. do 2 f_equal. lia.
Qed.

Lemma day_share_bounds pool count :
  0 <= pool -> 0 <= count <= 365 ->
  0 <= (pool `div` 10) `div` 365 * count <= pool `div` 10.
Proof.
  intros Hp Hc. pose proof (tenth_bounds pool Hp) as Ht.
  assert (0 <= (pool `div` 10) `div` 365) by (apply Z.div_pos; lia).
  pose proof (Z.mul_div_le (pool `div` 10) 365). nia.
Qed.

Lemma legacy_day_share_bounds pool count :
  0 <= pool -> 0 <= count <= 365 ->
  0 <= ((pool `div` 10) `div` 365) `div` 10 * 9 * count <= (pool `div` 10) `div` 10 * 9.
Proof.
  intros Hp Hc. pose proof (tenth_bounds pool Hp) as Ht.
  set (year := pool `div` 10) in *.
  assert (0 <= year `div` 365) as Hd by (apply Z.div_pos; lia).
  assert (0 <= (year `div` 365) `div` 10) as Hs by (apply Z.div_pos; lia).
  assert ((year `div` 365) `div` 10 * 365 <= year `div` 10).
  { apply Z.div_le_lower_bound; [lia |].
    pose proof (Z.mul_div_le (year `div` 365) 10).
    pose proof (Z.mul_div_le year 365). lia. }
  nia.
Qed.

Lemma poolSizeUniversal_closed batch :
  0 <= batch -> poolSizeUniversal batch = Ret (universalPool batch).
Proof.
  intros Hb. unfold poolSizeUniversal, universalPool, for_lt, MintYearBatches, MintYearShares.
  rewrite Z.quot_div_nonneg, Z.rem_mod_nonneg by lia.
  pose proof MintPool_nonneg as HP.
  rewrite repeat_poolYearUniversal by done.
  set (pool := poolAfter _ _).
  pose proof (poolAfter_bounds (Z.to_nat (batch `div` 365)) MintPool HP) as Hpool.
  fold pool in Hpool. clearbody pool.
  pose proof (Z.mod_pos_bound batch 365 ltac:(lia)) as Hm.
  pose proof (day_share_bounds pool (batch `mod` 365) ltac:(lia) ltac:(lia)) as Hd.
  pose proof (tenth_bounds pool ltac:(lia)) as Ht.
  assert (NewInteger 0 = 0) as -> by (unfold Integer.NewInteger; lia).
  run_step. rewrite !Sign_pos. unfold Integer.Add, Integer.Mul, mret, run_mret.
  generalize dependent (batch `mod` 365). intros count Hm Hd.
  generalize dependent ((pool `div` 10) `div` 365). intros day Hd.
  destruct (Z.ltb_spec 0 count) as [Hc|Hc];
    [| assert (count = 0) as -> by lia; rewrite Z.mul_0_r ];
    zcase; try rewrite Sub_le by lia; f_equal; lia.
Qed.

Lemma poolSizeLegacy_closed batch :
  0 <= batch -> poolSizeLegacy batch = Ret (legacyPool batch).
Proof.
  intros Hb. unfold poolSizeLegacy, legacyPool, for_lt, MintYearBatches, MintYearShares.
  rewrite Z.quot_div_nonneg, Z.rem_mod_nonneg by lia.
  pose proof MintPool_nonneg as HP.
  rewrite repeat_poolYearLegacy by done.
  set (years := Z.to_nat _). set (pool := poolAfter _ _).
  pose proof (poolAfter_bounds years MintPool HP) as Hpool. fold pool in Hpool.
  pose proof (legacyMinted_bounds years MintPool HP) as Hl. fold pool in Hl.
  clearbody pool years.
  pose proof (Z.mod_pos_bound batch 365 ltac:(lia)) as Hm.
  pose proof (legacy_day_share_bounds pool (batch `mod` 365) ltac:(lia) ltac:(lia)) as Hd.
  pose proof (tenth_bounds pool ltac:(lia)) as Ht.
  assert ((pool `div` 10) `div` 10 * 9 <= pool `div` 10).
  { pose proof (Z.mul_div_le (pool `div` 10) 10). lia. }
  assert (NewInteger 0 = 0) as -> by (unfold Integer.NewInteger; lia).
  run_step. unfold Integer.Add, Integer.Mul, mret, run_mret.
  generalize dependent (batch `mod` 365). intros count Hm Hd.
  generalize dependent (((pool `div` 10) `div` 365) `div` 10). intros share Hd.
  destruct (Z.ltb_spec 0 count) as [Hc|Hc];
    [| assert (count = 0) as -> by lia; rewrite Z.mul_0_r ];
    run_step; rewrite Sign_pos; zcase; try rewrite Sub_le by lia; f_equal; lia.
Qed.

Lemma next_batch_same_year b :
  0 <= b -> b `mod` 365 < 364 ->
  (b + 1) `div` 365 = b `div` 365 /\ (b + 1) `mod` 365 = b `mod` 365 + 1.
Proof.
  intros Hb Hr. pose proof (Z.div_mod b 365 ltac:(lia)) as Hdm.
  pose proof (Z.mod_pos_bound b 365 ltac:(lia)).
  split.
  - symmetry. apply (Z.div_unique_pos _ _ _ (b `mod` 365 + 1)); lia.
  - symmetry. apply (Z.mod_unique_pos _ _ (b `div` 365)); lia.
Qed.

Lemma next_batch_new_year b :
  0 <= b -> b `mod` 365 = 364 ->
  (b + 1) `div` 365 = b `div` 365 + 1 /\ (b + 1) `mod` 365 = 0.
Proof.
  intros Hb Hr. pose proof (Z.div_mod b 365 ltac:(lia)) as Hdm.
  split.
  - symmetry. apply (Z.div_unique_pos _ _ _ 0); lia.
  - symmetry. apply (Z.mod_unique_pos _ _ (b `div` 365 + 1)); lia.
Qed.

Lemma universalPool_step b : 0 <= b -> universalPool (b + 1) <= universalPool b.
Proof.
  intros Hb. unfold universalPool.
  pose proof (Z.mod_pos_bound b 365 ltac:(lia)) as Hm.
  pose proof (Z.div_pos b 365 Hb ltac:(lia)) as Hq.
  pose proof (poolAfter_bounds (Z.to_nat (b `div` 365)) MintPool MintPool_nonneg) as Hpool.
  destruct (decide (b `mod` 365 < 364)) as [Hr|Hr].
  - destruct (next_batch_same_year b Hb Hr) as [-> ->].
    pose proof (day_share_bounds _ 1 (proj1 Hpool) ltac:(lia)). cbv zeta. lia.
  - destruct (next_batch_new_year b Hb ltac:(lia)) as [-> ->].
    rewrite Z2Nat.inj_add, Nat.add_1_r, poolAfter_succ by lia. cbv zeta.
    pose proof (day_share_bounds _ (b `mod` 365) (proj1 Hpool) ltac:(lia)).
    pose proof (poolAfter_bounds 1 _ (proj1 Hpool)). simpl in *. lia.
Qed.

Lemma universalPool_le b : 0 <= b -> universalPool b <= MintPool.
Proof.
  intros Hb. unfold universalPool.
  pose proof (Z.mod_pos_bound b 365 ltac:(lia)) as Hm.
  pose proof (poolAfter_bounds (Z.to_nat (b `div` 365)) MintPool MintPool_nonneg) as Hpool.
  pose proof (day_share_bounds _ (b `mod` 365) (proj1 Hpool) ltac:(lia)). cbv zeta. lia.
Qed.

Lemma legacyMinted_succ n pool :
  legacyMinted (S n) pool
  = legacyMinted n pool + (poolAfter n pool `div` 10) `div` 10 * 9.
Proof.
  revert pool. induction n as [|n IH]; intros pool; [simpl; lia |].
  change (legacyMinted (S (S n)) pool)
    with ((pool `div` 10) `div` 10 * 9 + legacyMinted (S n) (pool - pool `div` 10)).
  rewrite IH. simpl. lia.
Qed.

Lemma legacyPool_step b : 0 <= b -> legacyPool (b + 1) <= legacyPool b.
Proof.
  intros Hb. unfold legacyPool.
  pose proof (Z.mod_pos_bound b 365 ltac:(lia)) as Hm.
  pose proof (Z.div_pos b 365 Hb ltac:(lia)) as Hq.
  pose proof (poolAfter_bounds (Z.to_nat (b `div` 365)) MintPool MintPool_nonneg) as Hpool.
  destruct (decide (b `mod` 365 < 364)) as [Hr|Hr].
  - destruct (next_batch_same_year b Hb Hr) as [-> ->].
    pose proof (legacy_day_share_bounds _ 1 (proj1 Hpool) ltac:(lia)). cbv zeta. lia.
  - destruct (next_batch_new_year b Hb ltac:(lia)) as [-> ->].
    rewrite Z2Nat.inj_add, Nat.add_1_r, legacyMinted_succ by lia. cbv zeta.
    pose proof (legacy_day_share_bounds _ (b `mod` 365) (proj1 Hpool) ltac:(lia)). lia.
Qed.

Lemma legacyPool_le b : 0 <= b -> legacyPool b <= MintPool.
Proof.
  intros Hb. unfold legacyPool.
  pose proof (Z.mod_pos_bound b 365 ltac:(lia)) as Hm.
  pose proof (poolAfter_bounds (Z.to_nat (b `div` 365)) MintPool MintPool_nonneg) as Hpool.
  pose proof (legacyMinted_bounds (Z.to_nat (b `div` 365)) MintPool MintPool_nonneg).
  pose proof (legacy_day_share_bounds _ (b `mod` 365) (proj1 Hpool) ltac:(lia)). cbv zeta. lia.
Qed.

(** C6: for every batch [b >= 0] both pool functions return a value, the
    value at [b + 1] is at most the value at [b], and neither exceeds
    [MintPool]. *)
Theorem pool_size_monotone (b : Z) :
  0 <= b ->
  exists u u' l l' : Z,
    poolSizeUniversal b = Ret u /\ poolSizeUniversal (b + 1) = Ret u' /\
    poolSizeLegacy b = Ret l /\ poolSizeLegacy (b + 1) = Ret l' /\
    u' <= u /\ l' <= l /\ u <= MintPool /\ l <= MintPool.
Proof.
  intros Hb.
  exists (universalPool b), (universalPool (b + 1)), (legacyPool b), (legacyPool (b + 1)).
  rewrite !poolSizeUniversal_closed, !poolSizeLegacy_closed by lia.
  repeat split; auto using universalPool_step, universalPool_le, legacyPool_step, legacyPool_le.
Qed.

Lemma NewInteger_div_exact x y : y <> 0 -> NewInteger (x * y) `div` y = NewInteger x.
Proof.
  intros Hy. unfold Integer.NewInteger.
  replace (x * y * 10 ^ Z.of_nat Precision) with (x * 10 ^ Z.of_nat Precision * y) by lia.
  apply Z.div_mul, Hy.
Qed.

Lemma NewInteger_sub x y : NewInteger x - NewInteger y = NewInteger (x - y).
Proof. unfold Integer.NewInteger. lia. Qed.

Lemma unit_one_iff : 10 ^ Z.of_nat Precision = 1 <-> Precision = 0%nat.
Proof.
  split; [| intros ->; reflexivity].
  destruct Precision as [|p]; [done |]. intros Hu.
  rewrite Nat2Z.inj_succ, Z.pow_succ_r in Hu by lia.
  pose proof (Z.pow_pos_nonneg 10 (Z.of_nat p) ltac:(lia) ltac:(lia)). lia.
Qed.

(** C7, as amended: at every precision the universal pool is 500 000 at
    batch 0, 450 000 at batch 365 and 405 000 at batch 730; at batch 1 it is
    500 000 less the floor, taken at the precision of an amount, of
    50 000 / 365, and that is 499 864 exactly when an amount has no
    fractional digit. *)
Theorem pool_size_universal_values :
  poolSizeUniversal 0 = Ret (NewInteger 500000) /\
  poolSizeUniversal 365 = Ret (NewInteger 450000) /\
  poolSizeUniversal 730 = Ret (NewInteger 405000) /\
  poolSizeUniversal 1 = Ret (NewInteger 500000 - NewInteger 50000 `div` 365) /\
  (poolSizeUniversal 1 = Ret (NewInteger 499864) <-> Precision = 0%nat).
Proof.
  assert (MintPool `div` 10 = NewInteger 50000) as Hyear.
  { unfold MintPool. apply (NewInteger_div_exact 50000 10). lia. }
  assert (poolAfter 1 MintPool = NewInteger 450000) as Hone.
  { simpl. rewrite Hyear. unfold MintPool. apply NewInteger_sub. }
  assert (poolAfter 2 MintPool = NewInteger 405000) as Htwo.
  { rewrite poolAfter_succ, Hone.
    replace (NewInteger 450000 `div` 10) with (NewInteger 45000)
      by (symmetry; apply (NewInteger_div_exact 45000 10); lia).
    apply NewInteger_sub. }
  rewrite !poolSizeUniversal_closed by lia. unfold universalPool.
  change (0 `div` 365) with 0. change (0 `mod` 365) with 0.
  change (1 `div` 365) with 0. change (1 `mod` 365) with 1.
  change (365 `div` 365) with 1. change (365 `mod` 365) with 0.
  change (730 `div` 365) with 2. change (730 `mod` 365) with 0.
  change (Z.to_nat 0) with 0%nat. change (Z.to_nat 1) with 1%nat.
  change (Z.to_nat 2) with 2%nat. cbv zeta.
  rewrite Hone, Htwo. change (poolAfter 0 MintPool) with MintPool. rewrite Hyear.
  rewrite !Z.mul_0_r, !Z.sub_0_r, Z.mul_1_r.
  repeat split; try reflexivity.
  - intros [= Heq]. apply unit_one_iff.
    unfold MintPool, Integer.NewInteger in Heq.
    pose proof unit_pos as Hu. set (u := 10 ^ Z.of_nat Precision) in *.
    assert ((50000 * u) `div` 365 = 136 * u) as Hd by lia.
    pose proof (Z.mul_div_le (50000 * u) 365 ltac:(lia)).
    pose proof (Z.mul_succ_div_gt (50000 * u) 365 ltac:(lia)). lia.
  - intros Hp. unfold MintPool, Integer.NewInteger. rewrite Hp. reflexivity.
Qed.

(** ** Pledge amount *)

Lemma int_small x : - 2 ^ 63 <= x < 2 ^ 63 -> int x = x.
Proof. intros Hx. unfold int. rewrite Z.mod_small; lia. Qed.

(** C10: for a timestamp strictly below the epoch, [PledgeAmount] is
    [pledgeAmount(0)], which is [MintLiquidity / MintNodeMaximum], the
    amount 10 000. *)
Theorem pledge_amount_before_epoch (node : Node.t) (ts : Z) :
  ts < Node.Epoch node ->
  Node_PledgeAmount node ts = pledgeAmount 0 /\
  pledgeAmount 0 = Integer.Div MintLiquidity MintNodeMaximum /\
  pledgeAmount 0 = Ret (NewInteger 10000).
Proof.
  intros Hts. unfold Node_PledgeAmount.
  destruct (Z.ltb_spec ts (Node.Epoch node)); [| lia].
  assert (pledgeAmount 0 = Integer.Div MintLiquidity MintNodeMaximum) as Hzero by reflexivity.
  split; [done |]. split; [done |]. rewrite Hzero. unfold MintNodeMaximum, MintLiquidity.
  rewrite Div_pos by lia. f_equal. apply (NewInteger_div_exact 10000 50). lia.
Qed.

(** ** Mint-possibility gates *)

Lemma gateYear_step pool : 0 <= pool -> gateYear pool = Ret (pool - pool `div` 10).
Proof.
  intros Hp. pose proof (tenth_bounds pool Hp).
  unfold gateYear, MintYearShares. run_step. reflexivity.
Qed.

Lemma repeat_gateYear n pool :
  0 <= pool -> repeat_run gateYear n pool = Ret (poolAfter n pool).
Proof.
  revert pool. induction n as [|n IH]; intros pool Hp; [done |].
  pose proof (tenth_bounds pool Hp) as Ht.
  rewrite repeat_run_S, gateYear_step, bind_Ret by done. apply IH. lia.
Qed.

(** The machine arithmetic of the gates on a timestamp after the epoch. *)
Lemma gate_hours epoch timestamp :
  0 <= epoch -> epoch < timestamp < 2 ^ 64 ->
  let hours := (timestamp - epoch) `div` 3600000000000 in
  int (uint64 (timestamp - epoch) `div` 3600000000000) = hours /\
  0 <= hours < 2 ^ 63 /\
  hours `quot` 24 = hours `div` 24 /\ hours `rem` 24 = hours `mod` 24 /\
  0 <= hours `div` 24 < 2 ^ 63.
Proof.
  intros He Ht hours. unfold uint64.
  rewrite (Z.mod_small (timestamp - epoch)) by lia. fold hours.
  assert (0 <= hours < 2 ^ 63) as Hh.
  { subst hours. split; [apply Z.div_pos; lia |].
    apply Z.div_lt_upper_bound; lia. }
  assert (0 <= hours `div` 24 < 2 ^ 63).
  { split; [apply Z.div_pos; lia |]. apply Z.div_lt_upper_bound; lia. }
  rewrite int_small, Z.quot_div_nonneg, Z.rem_mod_nonneg by lia. done.
Qed.

Lemma gate_pool batch :
  0 <= batch ->
  for_lt (batch `quot` MintYearBatches) gateYear MintPool
  = Ret (poolAfter (Z.to_nat (batch `div` 365)) MintPool).
Proof.
  intros Hb. unfold for_lt, MintYearBatches. rewrite Z.quot_div_nonneg by lia.
  apply repeat_gateYear, MintPool_nonneg.
Qed.

Lemma gateDistribution_table node validateOnly batch perBatch dist :
  Store.ReadLastMintDistribution (Node.persistStore node) MaxUint64 = Ok dist ->
  0 <= MintDistribution.Batch dist < 2 ^ 63 -> 0 <= batch < 2 ^ 63 ->
  gateDistribution node validateOnly batch perBatch
  = Ret (gateTable batch perBatch dist validateOnly).
Proof.
  intros Hread Hd Hb. unfold gateDistribution, gateTable, noMint. rewrite Hread.
  rewrite (int_small (MintDistribution.Batch dist)) by lia.
  destruct (Z.ltb_spec batch (MintDistribution.Batch dist)); [done |].
  destruct (Z.eqb_spec batch (MintDistribution.Batch dist)); [by destruct validateOnly |].
  rewrite int_small by lia. reflexivity.
Qed.


(** C5: both gates answer no mint when the timestamp is not after the
    epoch, when less than one batch has elapsed, or when the hour of the day
    is outside the window; the window of the legacy gate is [6, 18] on
    mainnet before batch 72 and the configured one otherwise, that of the
    universal gate is the configured one. *)
Theorem gates_no_mint_outside_window (node : Node.t) (timestamp : Z) (validateOnly : bool) :
  0 <= Node.Epoch node -> 0 <= timestamp < 2 ^ 64 ->
  let hours := (timestamp - Node.Epoch node) `div` 3600000000000 in
  let batch := hours `div` 24 in
  let fork := Node.isMainnet node && (batch <? 72) in
  let kmb := if fork then 6 else KernelMintTimeBegin in
  let kme := if fork then 18 else KernelMintTimeEnd in
  (timestamp <= Node.Epoch node \/ batch < 1 \/
   hours `mod` 24 < KernelMintTimeBegin \/ KernelMintTimeEnd < hours `mod` 24 ->
   checkUniversalMintPossibility node timestamp validateOnly = Ret (0, Zero)) /\
  (timestamp <= Node.Epoch node \/ batch < 1 \/ hours `mod` 24 < kmb \/ kme < hours `mod` 24 ->
   checkLegacyMintPossibility node timestamp validateOnly = Ret (0, Zero)).
Proof.
  intros He Ht hours batch fork kmb kme.
  unfold checkUniversalMintPossibility, checkLegacyMintPossibility, noMint.
  destruct (Z.leb_spec timestamp (Node.Epoch node)) as [Hle|Hlt]; [done |].
  destruct (gate_hours (Node.Epoch node) timestamp He ltac:(lia))
    as (-> & Hh & -> & -> & Hb).
  fold hours batch. cbv zeta.
  destruct (Z.ltb_spec batch 1) as [Hone|Hone]; [done |].
  unfold MainnetMintPeriodForkBatch, MainnetMintPeriodForkTimeBegin,
    MainnetMintPeriodForkTimeEnd.
  fold fork kmb kme. split.
  - intros [?|[?|[?|?]]]; try lia.
    + destruct (Z.ltb_spec (hours `mod` 24) KernelMintTimeBegin); [done | lia].
    + destruct (Z.ltb_spec KernelMintTimeEnd (hours `mod` 24)); [| lia].
      by rewrite orb_true_r.
  - intros [?|[?|[?|?]]]; try lia.
    + destruct (Z.ltb_spec (hours `mod` 24) kmb); [done | lia].
    + destruct (Z.ltb_spec kme (hours `mod` 24)); [| lia].
      by rewrite orb_true_r.
Qed.


(** ** Work distributor *)

Lemma mapM_Ret {A B : Type} (g : A -> run B) (f : A -> B) (l : list A) :
  (forall x, g x = Ret (f x)) -> mapM g l = Ret (map f l).
Proof.
  intros Hg. induction l as [|x l IH]; [done |].
  simpl. rewrite Hg, IH. reflexivity.
Qed.

Lemma foldl_Add a l : foldl Integer.Add a l = a + sumZ l.
Proof.
  revert a. induction l as [|x l IH]; intros a; simpl; [lia |].
  rewrite IH. unfold Integer.Add. lia.
Qed.

Lemma rawWork_value w : rawWork w = Ret (rawWorkOf w).
Proof.
  unfold rawWork, rawWorkOf. run_step. rewrite Sign_pos. unfold Integer.Add, Integer.Mul.
  f_equal. zcase; [done |].
  assert (NewInteger (Z.of_N w.2) = 0) as ->; [| lia].
  pose proof (NewInteger_nonneg (Z.of_N w.2) ltac:(lia)). lia.
Qed.

Lemma rawWorkOf_nonneg w : 0 <= rawWorkOf w.
Proof.
  unfold rawWorkOf.
  pose proof (NewInteger_nonneg (Z.of_N w.1) ltac:(lia)).
  pose proof (NewInteger_nonneg (Z.of_N w.2) ltac:(lia)).
  assert (0 <= (NewInteger (Z.of_N w.1) * 120) `div` 100) by (apply Z.div_pos; lia). lia.
Qed.

Lemma clampWork_clamp avg x :
  clampWork avg (Integer.Mul avg 7) (avg `div` 7) x = Ret (clamp avg x).
Proof.
  unfold clampWork, clamp, Integer.Mul, Integer.Add.
  rewrite !Cmp_nonneg, Cmp_nonpos. replace (avg * 7) with (7 * avg) by lia.
  repeat zcase; run_step; unfold mret, run_mret; f_equal; lia.
Qed.


Lemma Sub_Ret x y z : Integer.Sub x y = Ret z -> y <= x /\ z = x - y.
Proof. unfold Integer.Sub. zcase; [done |]. intros [= <-]. lia. Qed.

Lemma Div_Ret x y z : Integer.Div x y = Ret z -> 0 < y /\ z = x `div` y.
Proof. unfold Integer.Div. zcase; [done |]. intros [= <-]. lia. Qed.

Lemma workStats_valid_nil raw : 0 < valid (workStats raw) -> raw <> [].
Proof. intros Hv ->. simpl in Hv. lia. Qed.

Lemma mapM_share total base (l : list CNodeWork.t) :
  total <> 0 ->
  mapM (fun m => rat ← Integer.Ration (CNodeWork.Work m) total;
                 mret (setWork m (Integer.Product rat base))) l
  = Ret (map (fun m => setWork m ((CNodeWork.Work m * base) `div` total)) l).
Proof.
  intros Ht. apply mapM_Ret. intros m. unfold Integer.Ration.
  destruct (Z.eqb_spec total 0); [done |]. reflexivity.
Qed.

Lemma mapM_share_zero base (l : list CNodeWork.t) mints :
  mapM (fun m => rat ← Integer.Ration (CNodeWork.Work m) 0;
                 mret (setWork m (Integer.Product rat base))) l = Ret mints ->
  l = [].
Proof. destruct l as [|m l]; [done |]. simpl. discriminate. Qed.

(** What the distributor returns on a day after the epoch day. *)
Lemma distribute_works node accepted base timestamp mints :
  let epoch := Node.Epoch node `div` dayNanos in
  let day := timestamp `div` dayNanos in
  distributeKernelMintByWorks node accepted base timestamp = Ret mints ->
  uint64 (day - epoch) <> 0 ->
  exists works,
    Store.ListNodeWorks (Node.persistStore node) (map CNode.IdForNetwork accepted)
      (uint32 (uint32 day - 1)) = Ok works /\
    let raw := rawWorks works accepted in
    let st := workStats raw in
    let avg := averageWork st in
    let total := sumZ (map (clamp avg) raw) in
    int (Node.ConsensusThreshold node timestamp false) <= valid st /\
    2 < valid st /\ minW st <= totalW st /\ maxW st <= totalW st - minW st /\
    avg <> 0 /\ total <> 0 /\
    mints = map (fun n =>
                   {| CNodeWork.CNode := n;
                      CNodeWork.Work :=
                        workShare avg total base
                          (rawWorkOf (default (0%N, 0%N) (works !! CNode.IdForNetwork n))) |})
              accepted.
Proof.
  intros epoch day Hrun Hday. unfold distributeKernelMintByWorks in Hrun.
  fold epoch day in Hrun.
  destruct (Z.ltb_spec day epoch); [done |].
  destruct (Z.eqb_spec (uint64 (day - epoch)) 0); [done |].
  destruct (validateWorksAndSpacesAggregator _ _ _ _); [| done..].
  destruct (Store.ListNodeWorks _ _ _) as [works|] eqn:Hworks; [| done].
  exists works. split; [done |]. simpl call in Hrun. rewrite bind_Ret in Hrun.
  destruct (ListRoundSpaces _ _ _); [| done..]. rewrite bind_Ret in Hrun.
  rewrite (mapM_Ret _ (fun m => setWork m (rawWorkOf (default (0%N, 0%N)
             (works !! CNode.IdForNetwork (CNodeWork.CNode m)))))) in Hrun
    by (intros m; rewrite rawWork_value; reflexivity).
  rewrite bind_Ret in Hrun. rewrite !map_map in Hrun. simpl in Hrun.
  change (map (fun x => rawWorkOf _) accepted) with (rawWorks works accepted) in Hrun.
  fold (workStats (rawWorks works accepted)) in Hrun.
  intros raw st avg total. fold raw in Hrun. fold st in Hrun.
  destruct (Z.ltb_spec (valid st) (int (Node.ConsensusThreshold node timestamp false)));
    [done |].
  destruct (Integer.Sub (totalW st) (minW st)) as [rest| |] eqn:Hmin; [| done..].
  apply Sub_Ret in Hmin as [Hmin ->]. rewrite bind_Ret in Hrun.
  destruct (Integer.Sub _ (maxW st)) as [rest| |] eqn:Hmax; [| done..].
  apply Sub_Ret in Hmax as [Hmax ->]. rewrite bind_Ret in Hrun.
  destruct (Integer.Div _ (valid st - 2)) as [avg'| |] eqn:Havg; [| done..].
  apply Div_Ret in Havg as [Hvalid Havg]. fold (averageWork st) in Havg. fold avg in Havg.
  subst avg'. rewrite bind_Ret in Hrun. rewrite Sign_zero in Hrun.
  destruct (Z.eqb_spec avg 0) as [|Hnz]; [done |].
  rewrite (mapM_Ret _ (fun m => setWork m (clamp avg (CNodeWork.Work m)))) in Hrun
    by (intros m; rewrite clampWork_clamp; reflexivity).
  rewrite bind_Ret, !map_map in Hrun. simpl in Hrun.
  rewrite foldl_Add in Hrun.
  assert (NewInteger 0 = 0) as Hzero by (unfold Integer.NewInteger; lia).
  rewrite Hzero, Z.add_0_l in Hrun.
  change (map (fun x => clamp avg (rawWorkOf _)) accepted)
    with (map (fun n => clamp avg (rawWorkOf (default (0%N, 0%N)
                                     (works !! CNode.IdForNetwork n)))) accepted) in Hrun.
  assert (total = sumZ (map (fun n => clamp avg (rawWorkOf (default (0%N, 0%N)
                                     (works !! CNode.IdForNetwork n)))) accepted)) as Htotal.
  { subst total raw. unfold rawWorks. by rewrite map_map. }
  rewrite <- Htotal in Hrun.
  assert (total <> 0) as Hnt.
  { intros Hz. rewrite Hz in Hrun. apply mapM_share_zero in Hrun.
    apply (workStats_valid_nil raw); [fold st; lia |].
    subst raw. unfold rawWorks. by destruct accepted. }
  rewrite mapM_share in Hrun by done. injection Hrun as <-.
  repeat split; try done; try lia.
  rewrite map_map. reflexivity.
Qed.

Lemma clamp_nonneg avg x : 0 <= avg -> 0 <= x -> 0 <= clamp avg x.
Proof.
  intros Ha Hx. unfold clamp.
  assert (0 <= x `div` 6) by (apply Z.div_pos; lia).
  assert (0 <= (avg * 5) `div` 6) by (apply Z.div_pos; lia).
  assert (0 <= avg `div` 7) by (apply Z.div_pos; lia).
  repeat zcase; lia.
Qed.

Lemma sumZ_nonneg l : Forall (fun x => 0 <= x) l -> 0 <= sumZ l.
Proof. induction 1; simpl; lia. Qed.

Lemma sumZ_const {A : Type} (w : Z) (l : list A) :
  sumZ (map (fun _ => w) l) = Z.of_nat (length l) * w.
Proof. induction l as [|x l IH]; simpl in *; lia. Qed.

(** Floored shares of [base] never add up to more than [base]. *)
Lemma sumZ_shares base total l :
  0 <= base -> 0 < total -> Forall (fun c => 0 <= c) l ->
  sumZ (map (fun c => (c * base) `div` total) l) <= (sumZ l * base) `div` total.
Proof.
  intros Hb Ht Hl. induction Hl as [|c l Hc Hl IH]; simpl.
  - rewrite Z.div_0_l by lia. lia.
  - apply Z.div_le_lower_bound; [lia |].
    pose proof (Z.mul_div_le (c * base) total Ht).
    pose proof (Z.mul_div_le (sumZ l * base) total Ht). nia.
Qed.

Lemma averageWork_nonneg st :
  2 < valid st -> minW st <= totalW st -> maxW st <= totalW st - minW st ->
  0 <= averageWork st.
Proof. intros Hv Hmin Hmax. unfold averageWork. apply Z.div_pos; lia. Qed.

(** The shares the distributor returns never exceed the amount to split. *)
Lemma distribute_sum_le node accepted base timestamp mints :
  0 <= base ->
  distributeKernelMintByWorks node accepted base timestamp = Ret mints ->
  sumZ (map CNodeWork.Work mints) <= base.
Proof.
  intros Hbase Hrun.
  destruct (decide (uint64 (timestamp `div` dayNanos - Node.Epoch node `div` dayNanos) = 0))
    as [Hday|Hday].
  - unfold distributeKernelMintByWorks in Hrun. rewrite Hday in Hrun.
    destruct (Z.ltb_spec (timestamp `div` dayNanos) (Node.Epoch node `div` dayNanos));
      [done |].
    change (0 =? 0) with true in Hrun. cbv iota in Hrun.
    destruct (Integer.Div base _) as [work| |] eqn:Hwork; [| done..].
    apply Div_Ret in Hwork as [Hn ->]. injection Hrun as <-.
    rewrite !map_map. simpl. rewrite sumZ_const.
    rewrite !length_map in *. apply Z.mul_div_le. lia.
  - destruct (distribute_works node accepted base timestamp mints Hrun Hday)
      as (works & _ & Hv & Hvalid & Hmin & Hmax & Havg & Htotal & ->).
    cbv zeta in *. rewrite map_map. simpl.
    set (raw := rawWorks works accepted) in *.
    set (avg := averageWork (workStats raw)) in *.
    set (total := sumZ (map (clamp avg) raw)) in *.
    assert (0 <= avg) as Hnn by (by apply averageWork_nonneg).
    assert (Forall (fun c => 0 <= c) (map (clamp avg) raw)) as Hcl.
    { apply Forall_map, Forall_forall. intros x Hx. apply clamp_nonneg; [done |].
      subst raw. unfold rawWorks in Hx. apply list_elem_of_fmap in Hx as (n & -> & _).
      apply rawWorkOf_nonneg. }
    pose proof (sumZ_nonneg _ Hcl) as Hsum. fold total in Hsum.
    pose proof (sumZ_shares base total _ Hbase ltac:(lia) Hcl) as Hle.
    fold total in Hle. rewrite (Z.mul_comm total base), Z.div_mul in Hle by done.
    rewrite map_map in Hle. subst raw. unfold rawWorks in Hle. rewrite map_map in Hle.
    exact Hle.
Qed.

(** No share is negative, so the running total of the shares stays within
    the amount to split at every turn of a loop that adds them up. *)
Lemma distribute_nonneg node accepted base timestamp mints :
  0 <= base ->
  distributeKernelMintByWorks node accepted base timestamp = Ret mints ->
  Forall (fun work => 0 <= work) (map CNodeWork.Work mints).
Proof.
  intros Hbase Hrun.
  destruct (decide (uint64 (timestamp `div` dayNanos - Node.Epoch node `div` dayNanos) = 0))
    as [Hday|Hday].
  - unfold distributeKernelMintByWorks in Hrun. rewrite Hday in Hrun.
    destruct (Z.ltb_spec (timestamp `div` dayNanos) (Node.Epoch node `div` dayNanos));
      [done |].
    change (0 =? 0) with true in Hrun. cbv iota in Hrun.
    destruct (Integer.Div base _) as [work| |] eqn:Hwork; [| done..].
    apply Div_Ret in Hwork as [Hn ->]. injection Hrun as <-.
    rewrite !map_map. simpl. apply Forall_map, Forall_forall. intros n _.
    apply Z.div_pos; lia.
  - destruct (distribute_works node accepted base timestamp mints Hrun Hday)
      as (works & _ & Hv & Hvalid & Hmin & Hmax & Havg & Htotal & ->).
    cbv zeta in *. rewrite map_map. simpl.
    set (raw := rawWorks works accepted) in *.
    set (avg := averageWork (workStats raw)) in *.
    set (total := sumZ (map (clamp avg) raw)) in *.
    assert (0 <= avg) as Hnn by (by apply averageWork_nonneg).
    assert (Forall (fun c => 0 <= c) (map (clamp avg) raw)) as Hcl.
    { apply Forall_map, Forall_forall. intros x Hx. apply clamp_nonneg; [done |].
      subst raw. unfold rawWorks in Hx. apply list_elem_of_fmap in Hx as (n & -> & _).
      apply rawWorkOf_nonneg. }
    pose proof (sumZ_nonneg _ Hcl) as Hsum. fold total in Hsum.
    apply Forall_map, Forall_forall. intros n _. unfold workShare.
    apply Z.div_pos; [| lia].
    apply Z.mul_nonneg_nonneg; [| done]. apply clamp_nonneg; [done | apply rawWorkOf_nonneg].
Qed.

Lemma sumZ_take_le k l : Forall (fun x => 0 <= x) l -> sumZ (take k l) <= sumZ l.
Proof.
  intros Hl. revert k. induction Hl as [|x l Hx Hl IH]; intros [|k]; simpl; try lia.
  - pose proof (sumZ_nonneg l Hl). lia.
  - specialize (IH k). lia.
Qed.

Lemma distribute_running_total node accepted base timestamp mints k :
  0 <= base ->
  distributeKernelMintByWorks node accepted base timestamp = Ret mints ->
  sumZ (take k (map CNodeWork.Work mints)) <= base.
Proof.
  intros Hbase Hrun.
  pose proof (distribute_nonneg _ _ _ _ _ Hbase Hrun) as Hnn.
  pose proof (distribute_sum_le _ _ _ _ _ Hbase Hrun).
  pose proof (sumZ_take_le k _ Hnn). lia.
Qed.

(** ** Mint transaction builders *)

Section NeverOvershoots.

Context {A B : Type}.

Lemma calm_Ret (a : A) : neverOvershoots (Ret a).
Proof. intros e. discriminate. Qed.

Lemma calm_mret (a : A) : neverOvershoots (mret a).
Proof. intros e. discriminate. Qed.

Lemma calm_Err (e : error) : neverOvershoots (@Err A e).
Proof. intros e'. discriminate. Qed.

Lemma calm_call (r : result A) : neverOvershoots (call r).
Proof. intros e. destruct r; discriminate. Qed.

Lemma calm_bind (m : run A) (f : A -> run B) :
  neverOvershoots m -> (forall a, m = Ret a -> neverOvershoots (f a)) ->
  neverOvershoots (m ≫= f).
Proof.
  intros Hm Hf e. destruct m as [a|e'|e']; simpl; [by apply Hf | done |].
  intros [= ->]. by apply Hm.
Qed.

Lemma calm_Panic format args :
  format <> "buildUniversalMintTransaction %s %s" ->
  format <> "buildLegacyKerneNodeMintTransaction %s %s" ->
  neverOvershoots (@Panic A (Errorf format args)).
Proof.
  intros Hu Hl e [= <-] (amount & total & [Heq|Heq]); injection Heq as -> _; done.
Qed.

Lemma calm_External origin : neverOvershoots (@Panic A (External origin)).
Proof. intros e [= <-] (amount & total & [Heq|Heq]); discriminate Heq. Qed.

End NeverOvershoots.

Lemma calm_Sub x y : neverOvershoots (Integer.Sub x y).
Proof. unfold Integer.Sub. zcase; [by apply calm_Panic | apply calm_Ret]. Qed.

Lemma calm_Div x y : neverOvershoots (Integer.Div x y).
Proof. unfold Integer.Div. zcase; [by apply calm_Panic | apply calm_Ret]. Qed.

Lemma calm_Ration x y : neverOvershoots (Integer.Ration x y).
Proof. unfold Integer.Ration. zcase; [by apply calm_Panic | apply calm_Ret]. Qed.

Lemma calm_repeat_run {S : Type} (body : S -> run S) n s :
  (forall s, neverOvershoots (body s)) -> neverOvershoots (repeat_run body n s).
Proof.
  intros Hbody. revert s. induction n as [|n IH]; intros s; [apply calm_Ret |].
  rewrite repeat_run_S. apply calm_bind; auto.
Qed.

Lemma calm_mapM {A B : Type} (g : A -> run B) l :
  (forall x, neverOvershoots (g x)) -> neverOvershoots (mapM g l).
Proof.
  intros Hg. induction l as [|x l IH]; [apply calm_Ret |].
  simpl. apply calm_bind; [done |]. intros y _.
  apply calm_bind; [done |]. intros k _. apply calm_Ret.
Qed.

Create HintDb calm.

(** Discharges [neverOvershoots] along the structure of a run. *)
Ltac calm :=
  repeat first
    [ solve [auto 1 with calm nocore]
    | apply calm_Ret | apply calm_mret | apply calm_Err | apply calm_call
    | apply calm_Sub | apply calm_Div | apply calm_Ration | apply calm_External
    | by apply calm_Panic
    | apply calm_repeat_run; intros ?
    | apply calm_mapM; intros ?
    | apply calm_bind; [| intros ? _]
    | match goal with
      | |- neverOvershoots (if ?b then _ else _) => destruct b
      | |- neverOvershoots (let '(_, _) := ?x in _) => destruct x
      | |- neverOvershoots (match ?x with Ok _ => _ | Failed _ => _ end) => destruct x
      | |- neverOvershoots (match ?x with [] => _ | _ :: _ => _ end) => destruct x
      end ].

Lemma calm_poolSizeUniversal batch : neverOvershoots (poolSizeUniversal batch).
Proof. unfold poolSizeUniversal, for_lt, poolYearUniversal. calm. Qed.

Lemma calm_poolSizeLegacy batch : neverOvershoots (poolSizeLegacy batch).
Proof. unfold poolSizeLegacy, for_lt, poolYearLegacy. calm. Qed.

#[local] Hint Resolve calm_poolSizeUniversal calm_poolSizeLegacy : calm.

Lemma calm_checkUniversal node timestamp validateOnly :
  neverOvershoots (checkUniversalMintPossibility node timestamp validateOnly).
Proof.
  unfold checkUniversalMintPossibility, gateDistribution, noMint, for_lt, gateYear. calm.
Qed.

Lemma calm_checkLegacy node timestamp validateOnly :
  neverOvershoots (checkLegacyMintPossibility node timestamp validateOnly).
Proof.
  unfold checkLegacyMintPossibility, gateDistribution, noMint, for_lt, gateYear. calm.
Qed.

Lemma calm_ListRoundSpaces node cids day : neverOvershoots (ListRoundSpaces node cids day).
Proof.
  unfold ListRoundSpaces.
  assert (neverOvershoots (mret ∅ : run (gmap string (list RoundSpace.t)))) as Hacc by calm.
  revert Hacc. generalize (mret ∅ : run (gmap string (list RoundSpace.t))).
  induction cids as [|id cids IH]; intros acc Hacc; [done |].
  simpl. apply IH. calm.
Qed.

Lemma calm_validate node cids thr day :
  neverOvershoots (validateWorksAndSpacesAggregator node cids thr day).
Proof. unfold validateWorksAndSpacesAggregator. calm. Qed.

Lemma calm_rawWork w : neverOvershoots (rawWork w).
Proof. unfold rawWork. calm. Qed.

Lemma calm_clampWork avg upper lower work : neverOvershoots (clampWork avg upper lower work).
Proof. unfold clampWork. calm. Qed.

#[local] Hint Resolve calm_ListRoundSpaces calm_validate calm_rawWork calm_clampWork : calm.

Lemma calm_distribute node accepted base timestamp :
  neverOvershoots (distributeKernelMintByWorks node accepted base timestamp).
Proof.
  unfold distributeKernelMintByWorks.
  pose proof (calm_validate node (map CNode.IdForNetwork accepted)
                (int (Node.ConsensusThreshold node timestamp false))
                (timestamp `div` dayNanos)) as Hvalidate.
  destruct (validateWorksAndSpacesAggregator _ _ _ _) as [[]|e|e].
  - calm.
  - calm.
  - calm. intros e' [= <-]. by apply Hvalidate.
Qed.

Lemma calm_firstMint tx : neverOvershoots (firstMint tx).
Proof.
  unfold firstMint. destruct (Transaction.Inputs tx) as [|[? ? [m|]] ?]; calm.
Qed.

#[local] Hint Resolve calm_firstMint calm_distribute : calm.

Lemma calm_tryToSlash node batch tx : neverOvershoots (tryToSlashLegacyLightPool node batch tx).
Proof. unfold tryToSlashLegacyLightPool. calm. Qed.

#[local] Hint Resolve calm_tryToSlash calm_checkUniversal calm_checkLegacy : calm.

Lemma sumZ_app l k : sumZ (l ++ k) = sumZ l + sumZ k.
Proof. induction l as [|x l IH]; simpl; lia. Qed.

Lemma outputAmounts_AddScriptOutput tx accounts script amount seed :
  outputAmounts (AddScriptOutput tx accounts script amount seed) = outputAmounts tx ++ [amount].
Proof. unfold outputAmounts. simpl. by rewrite map_app. Qed.

Lemma firstMint_AddScriptOutput tx accounts script amount seed :
  firstMint (AddScriptOutput tx accounts script amount seed) = firstMint tx.
Proof. reflexivity. Qed.

Lemma foldl_addWorkOutput batch script mints tx total :
  exists tx',
    foldl (addWorkOutput batch script) (tx, total) mints
    = (tx', total + sumZ (map CNodeWork.Work mints)) /\
    firstMint tx' = firstMint tx /\
    outputAmounts tx' = outputAmounts tx ++ map CNodeWork.Work mints.
Proof.
  revert tx total. induction mints as [|m mints IH]; intros tx total.
  - exists tx. simpl. rewrite app_nil_r. repeat split; f_equal; lia.
  - change (foldl (addWorkOutput batch script) (tx, total) (m :: mints))
      with (foldl (addWorkOutput batch script)
              (AddScriptOutput tx [CNode.Payee (CNodeWork.CNode m)] script (CNodeWork.Work m)
                 (mintSeed (CNode.Signer (CNodeWork.CNode m))
                    ("MINTKERNELNODE" +:+ pretty batch)),
               Integer.Add total (CNodeWork.Work m)) mints).
    destruct (IH (AddScriptOutput tx [CNode.Payee (CNodeWork.CNode m)] script (CNodeWork.Work m)
                    (mintSeed (CNode.Signer (CNodeWork.CNode m))
                       ("MINTKERNELNODE" +:+ pretty batch)))
                (Integer.Add total (CNodeWork.Work m))) as (tx' & -> & Hmint & Htotal).
    exists tx'. rewrite Hmint, Htotal, firstMint_AddScriptOutput, outputAmounts_AddScriptOutput.
    unfold Integer.Add. simpl. rewrite <- app_assoc. repeat split. f_equal; lia.
Qed.

Lemma tryToSlash_Ret node batch tx tx' mint :
  tryToSlashLegacyLightPool node batch tx = Ret tx' -> firstMint tx = Ret mint ->
  outputAmounts tx' = outputAmounts tx /\
  exists mint', firstMint tx' = Ret mint' /\ MintData.Amount mint <= MintData.Amount mint'.
Proof.
  unfold tryToSlashLegacyLightPool. intros Hrun Hmint.
  destruct (negb _ || _).
  { injection Hrun as <-. split; [done |]. exists mint. split; [done | lia]. }
  rewrite Hmint, bind_Ret in Hrun.
  destruct (Store.ReadMintDistributions _ _ _) as [|last ?]; [done |].
  destruct (negb _); [done |].
  destruct (String.eqb _ _).
  { injection Hrun as <-. split; [done |]. exists mint. split; [done | lia]. }
  destruct (poolSizeLegacy _) as [legacy| |]; [| done..]. rewrite bind_Ret in Hrun.
  destruct (poolSizeUniversal _) as [universal| |]; [| done..]. rewrite bind_Ret in Hrun.
  destruct (Integer.Sub legacy universal) as [slash| |] eqn:Hslash; [| done..].
  apply Sub_Ret in Hslash as [Hle ->]. injection Hrun as <-.
  split; [by unfold outputAmounts, setMintAmount; destruct (Transaction.Inputs tx) |].
  unfold firstMint, setMintAmount in *.
  destruct (Transaction.Inputs tx) as [|[h i [m|]] rest]; [done | | done].
  injection Hmint as ->. eexists. split; [reflexivity |]. unfold Integer.Add. simpl. lia.
Qed.

Lemma NewInteger_zero : NewInteger 0 = 0.
Proof. unfold Integer.NewInteger. lia. Qed.

Lemma half_bounds amount k :
  0 <= amount -> 0 <= k <= 10 -> 0 <= amount `div` 10 * k <= amount.
Proof.
  intros Ha Hk. assert (0 <= amount `div` 10) by (apply Z.div_pos; lia).
  pose proof (Z.mul_div_le amount 10 ltac:(lia)). nia.
Qed.

(** The universal builder: the overshoot checks do not fire, and a built
    transaction pays out the amount of its mint input. *)
Lemma buildUniversal_sound node custodianRequest timestamp validateOnly :
  neverOvershoots (buildUniversalMintTransaction node custodianRequest timestamp validateOnly) /\
  forall ver,
    buildUniversalMintTransaction node custodianRequest timestamp validateOnly = Ret (Some ver) ->
    exists batch amount mints mint,
      checkUniversalMintPossibility node timestamp validateOnly = Ret (batch, amount) /\
      distributeKernelMintByWorks node (Node.NodesListWithoutState node timestamp true)
        (Integer.Mul (amount `div` 10) 5) timestamp = Ret mints /\
      sumZ (map CNodeWork.Work mints) <= Integer.Mul (amount `div` 10) 5 /\
      firstMint (VersionedTransaction.Transaction ver) = Ret mint /\
      amount <= MintData.Amount mint /\
      outputAmounts (VersionedTransaction.Transaction ver)
      = map CNodeWork.Work mints ++
        [Integer.Mul (amount `div` 10) 4;
         MintData.Amount mint
         - (sumZ (map CNodeWork.Work mints) + Integer.Mul (amount `div` 10) 4)] /\
      outputsTotal (VersionedTransaction.Transaction ver) = MintData.Amount mint.
Proof.
  unfold buildUniversalMintTransaction.
  generalize (NewAddressFromSeed (zeroBytes 64)). intros light.
  pose proof (calm_checkUniversal node timestamp validateOnly) as Hgate.
  destruct (checkUniversalMintPossibility _ _ _) as [[batch amount]|e|e] eqn:Egate;
    [| split; [calm | done] | split; [intros e' [= <-]; by apply Hgate | done] ].
  rewrite bind_Ret. cbv beta iota. rewrite Sign_nonpos.
  destruct (Z.leb_spec amount 0) as [|Hamount]; [split; [calm | done] |].
  destruct (Z.leb_spec batch 0) as [|Hbatch]; [split; [calm | done] |].
  cbn [orb]. rewrite Div_pos, bind_Ret by lia.
  pose proof (calm_distribute node (Node.NodesListWithoutState node timestamp true)
                (Integer.Mul (amount `div` 10) 5) timestamp) as Hcalm.
  pose proof (half_bounds amount 5 ltac:(lia) ltac:(lia)) as Hkernel.
  pose proof (half_bounds amount 9 ltac:(lia) ltac:(lia)) as Hsafe.
  destruct (distributeKernelMintByWorks _ _ _ _) as [mints|e|e] eqn:Edist;
    [| split; [calm | done] | split; [intros e' [= <-]; by apply Hcalm | done] ].
  pose proof (distribute_sum_le _ _ _ _ _ (proj1 Hkernel) Edist) as Hsum.
  unfold Integer.Mul in Hsum.
  destruct (foldl_addWorkOutput batch (NewThresholdScript 1) mints
              (AddUniversalMintInput (NewTransaction XINAssetId) (uint64 batch) amount)
              (NewInteger 0)) as (tx & -> & Hmint & Htotal).
  rewrite NewInteger_zero, Z.add_0_l, Cmp_pos.
  destruct (Z.ltb_spec amount (sumZ (map CNodeWork.Work mints))); [lia |].
  rewrite !bind_Ret.
  destruct (Store.ReadDomains _) as [|domain ?]; [split; [calm | done] |].
  rewrite Cmp_pos. unfold Integer.Add, Integer.Mul.
  destruct (Z.ltb_spec amount (sumZ (map CNodeWork.Work mints) + amount `div` 10 * 4));
    [lia |].
  split; [calm |]. intros ver Hrun.
  set (custodian := match custodianRequest with
                    | Some request => CustodianUpdateRequest.Custodian request
                    | None => Domain.Account domain
                    end) in *.
  destruct (tryToSlashLegacyLightPool _ _ _) as [tx'| |] eqn:Eslash; [| done..].
  rewrite bind_Ret in Hrun.
  apply (tryToSlash_Ret _ _ _ _ {| MintData.Group := "UNIVERSAL"; MintData.Batch := uint64 batch;
                                   MintData.Amount := amount |}) in Eslash
    as (Houts & mint & Hmint' & Hle); [| by rewrite firstMint_AddScriptOutput, Hmint].
  rewrite Hmint', bind_Ret in Hrun.
  destruct (Integer.Sub _ _) as [rest| |] eqn:Elight; [| done..].
  apply Sub_Ret in Elight as [_ ->]. injection Hrun as <-.
  exists batch, amount, mints, mint. simpl in Hle.
  assert (outputAmounts (AddScriptOutput tx' [light] (NewThresholdScript Operator64)
            (MintData.Amount mint - (sumZ (map CNodeWork.Work mints) + amount `div` 10 * 4))
            (mintSeed light ("MINTLIGHTACCOUNT" +:+ pretty batch)))
          = map CNodeWork.Work mints ++
            [amount `div` 10 * 4;
             MintData.Amount mint - (sumZ (map CNodeWork.Work mints) + amount `div` 10 * 4)])
    as Hamounts.
  { rewrite outputAmounts_AddScriptOutput, Houts, outputAmounts_AddScriptOutput, Htotal.
    unfold outputAmounts at 1. simpl. by rewrite <- app_assoc. }
  unfold Integer.Mul.
  split; [done |]. split; [done |]. split; [done |]. split; [exact Hmint' |].
  split; [lia |]. split; [exact Hamounts |].
  unfold outputsTotal, AsVersioned. cbn [VersionedTransaction.Transaction].
  rewrite Hamounts, sumZ_app. simpl. lia.
Qed.

(** The legacy builder where it assembles the transaction itself, that is
    with no pinned transaction for the batch and past the V2 fork: the
    overshoot check does not fire, and a built transaction pays out the
    amount of its mint input, the remainder in the last output when it is
    positive. *)
Lemma buildLegacy_sound node timestamp validateOnly batch amount :
  checkLegacyMintPossibility node timestamp validateOnly = Ret (batch, amount) ->
  TransactionMintWorkHacks batch = EmptyString \/ Node.isMainnet node = false ->
  Node.isMainnet node = false \/ MainnetMintTransactionV2ForkBatch <= batch ->
  neverOvershoots (buildLegacyKerneNodeMintTransaction node timestamp validateOnly) /\
  forall ver,
    buildLegacyKerneNodeMintTransaction node timestamp validateOnly = Ret (Some ver) ->
    exists mints mint,
      distributeKernelMintByWorks node (Node.NodesListWithoutState node timestamp true)
        amount timestamp = Ret mints /\
      sumZ (map CNodeWork.Work mints) <= amount /\
      firstMint (VersionedTransaction.Transaction ver) = Ret mint /\
      MintData.Amount mint = amount /\
      outputAmounts (VersionedTransaction.Transaction ver)
      = map CNodeWork.Work mints ++
        (if 0 <? amount - sumZ (map CNodeWork.Work mints)
         then [amount - sumZ (map CNodeWork.Work mints)] else []) /\
      outputsTotal (VersionedTransaction.Transaction ver) = amount.
Proof.
  intros Egate Hhack Hfork. unfold buildLegacyKerneNodeMintTransaction.
  generalize (NewAddressFromSeed (zeroBytes 64)). intros diff.
  rewrite Egate, bind_Ret. cbv beta iota. rewrite Sign_nonpos.
  destruct (Z.leb_spec amount 0) as [|Hamount]; [split; [calm | done] |].
  destruct (Z.leb_spec batch 0) as [|Hbatch]; [split; [calm | done] |].
  cbn [orb].
  assert (negb (String.eqb (TransactionMintWorkHacks batch) EmptyString)
          && Node.isMainnet node = false) as ->.
  { destruct Hhack as [-> | ->]; [done | apply andb_false_r]. }
  assert (Node.isMainnet node && (batch <? MainnetMintTransactionV2ForkBatch) = false) as ->.
  { destruct Hfork as [-> | ?]; [done |]. destruct (Z.ltb_spec batch
      MainnetMintTransactionV2ForkBatch); [lia | apply andb_false_r]. }
  pose proof (calm_distribute node (Node.NodesListWithoutState node timestamp true)
                amount timestamp) as Hcalm.
  destruct (distributeKernelMintByWorks _ _ _ _) as [mints|e|e] eqn:Edist;
    [| split; [calm | done] | split; [intros e' [= <-]; by apply Hcalm | done] ].
  assert (0 <= amount) as Hnn by lia.
  pose proof (distribute_sum_le _ _ _ _ _ Hnn Edist) as Hsum.
  destruct (foldl_addWorkOutput batch (NewThresholdScript 1) mints
              (AddKernelNodeMintInputLegacy (NewTransaction XINAssetId) (uint64 batch) amount)
              (NewInteger 0)) as (tx & -> & Hmint & Htotal).
  rewrite NewInteger_zero, Z.add_0_l, Cmp_pos.
  destruct (Z.ltb_spec amount (sumZ (map CNodeWork.Work mints))); [lia |].
  rewrite Sub_le, bind_Ret, Sign_pos by lia.
  split; [calm |]. intros ver Hrun. exists mints. eexists.
  split; [done |]. split; [done |].
  destruct (Z.ltb_spec 0 (amount - sumZ (map CNodeWork.Work mints)));
    injection Hrun as <-; simpl VersionedTransaction.Transaction; unfold outputsTotal;
    rewrite ?firstMint_AddScriptOutput, ?outputAmounts_AddScriptOutput, Hmint, Htotal;
    (split; [reflexivity |]); (split; [reflexivity |]);
    unfold outputAmounts at 1 2; simpl; rewrite ?app_nil_r, ?sumZ_app; simpl;
    (split; [reflexivity | lia]).
Qed.

(** ** Nodes without work *)

Lemma countWork_zero st : countWork st 0 = st.
Proof. reflexivity. Qed.

Lemma countWork_pos st x :
  0 < x ->
  countWork st x
  = {| valid := valid st + 1;
       minW := if minW st =? 0 then x else if x <? minW st then x else minW st;
       maxW := if maxW st <? x then x else maxW st;
       totalW := totalW st + x |}.
Proof.
  intros Hx. unfold countWork. rewrite !Sign_zero, Cmp_neg, Cmp_pos.
  destruct (Z.eqb_spec x 0); [lia | reflexivity].
Qed.

Lemma foldl_countWork_filter st raw :
  foldl countWork st raw = foldl countWork st (filter (fun x => x <> 0) raw).
Proof.
  revert st. induction raw as [|x raw IH]; intros st; [done |].
  rewrite filter_cons. destruct (decide (x <> 0)) as [Hx|Hx]; simpl.
  - apply IH.
  - assert (x = 0) as -> by lia. rewrite countWork_zero. apply IH.
Qed.

Lemma clamp_zero avg : 0 < avg -> clamp avg 0 = avg `div` 7.
Proof.
  intros Havg. unfold clamp. assert (0 <= avg `div` 7) by (apply Z.div_pos; lia).
  repeat zcase; lia.
Qed.

Lemma NewInteger_ltb x y : (NewInteger x <? NewInteger y) = (x <? y).
Proof.
  unfold Integer.NewInteger. pose proof unit_pos.
  destruct (Z.ltb_spec x y), (Z.ltb_spec (x * 10 ^ Z.of_nat Precision)
                                (y * 10 ^ Z.of_nat Precision)); try done; nia.
Qed.

Lemma NewInteger_eqb x y : (NewInteger x =? NewInteger y) = (x =? y).
Proof.
  unfold Integer.NewInteger. pose proof unit_pos.
  destruct (Z.eqb_spec x y), (Z.eqb_spec (x * 10 ^ Z.of_nat Precision)
                                (y * 10 ^ Z.of_nat Precision)); try done; nia.
Qed.

Lemma NewInteger_leb x y : (NewInteger x <=? NewInteger y) = (x <=? y).
Proof.
  unfold Integer.NewInteger. pose proof unit_pos.
  destruct (Z.leb_spec x y), (Z.leb_spec (x * 10 ^ Z.of_nat Precision)
                                (y * 10 ^ Z.of_nat Precision)); try done; nia.
Qed.

Lemma NewInteger_add x y : NewInteger x + NewInteger y = NewInteger (x + y).
Proof. unfold Integer.NewInteger. lia. Qed.

Lemma NewInteger_mul x k : k * NewInteger x = NewInteger (k * x).
Proof. unfold Integer.NewInteger. lia. Qed.

Lemma NewInteger_pos x : 0 < x -> 0 < NewInteger x.
Proof. intros Hx. unfold Integer.NewInteger. pose proof unit_pos. nia. Qed.

Lemma NewInteger_eqb_zero x : (NewInteger x =? 0) = (x =? 0).
Proof. rewrite <- NewInteger_zero at 1. apply NewInteger_eqb. Qed.

Lemma NewInteger_ltb_zero x : (0 <? NewInteger x) = (0 <? x).
Proof. rewrite <- NewInteger_zero at 1. apply NewInteger_ltb. Qed.

Lemma countWork_step v mn mx t x :
  0 < x ->
  countWork {| valid := v; minW := mn; maxW := mx; totalW := t |} x
  = {| valid := v + 1;
       minW := if mn =? 0 then x else if x <? mn then x else mn;
       maxW := if mx <? x then x else mx;
       totalW := t + x |}.
Proof. intros Hx. by rewrite countWork_pos. Qed.

Opaque Integer.NewInteger.

(** The works of the scenario, in whole units. *)
Lemma scenario_stats :
  workStats (map (fun x => NewInteger x) [0; 100; 100; 100; 100; 100; 1000])
  = {| valid := 6; minW := NewInteger 100; maxW := NewInteger 1000;
       totalW := NewInteger 1500 |}.
Proof.
  unfold workStats. cbn [map foldl]. rewrite NewInteger_zero, countWork_zero.
  repeat (rewrite countWork_step by (apply NewInteger_pos; lia);
          rewrite ?NewInteger_eqb_zero, ?NewInteger_ltb_zero, ?NewInteger_ltb,
            ?Z.add_0_l, ?NewInteger_add; simpl).
  reflexivity.
Qed.

Lemma scenario_average :
  averageWork {| valid := 6; minW := NewInteger 100; maxW := NewInteger 1000;
                 totalW := NewInteger 1500 |} = NewInteger 100.
Proof.
  unfold averageWork. cbn [valid minW maxW totalW]. rewrite !NewInteger_sub.
  apply (NewInteger_div_exact 100 4). lia.
Qed.

Lemma scenario_clamp :
  map (clamp (NewInteger 100)) (map (fun x => NewInteger x) [0; 100; 100; 100; 100; 100; 1000])
  = NewInteger 100 `div` 7
    :: replicate 5 (NewInteger 100 `div` 6 + NewInteger 500 `div` 6) ++ [NewInteger 200].
Proof.
  cbn [map replicate app]. rewrite NewInteger_zero.
  rewrite clamp_zero by (apply NewInteger_pos; lia).
  assert (clamp (NewInteger 100) (NewInteger 100)
          = NewInteger 100 `div` 6 + NewInteger 500 `div` 6) as ->.
  { unfold clamp. rewrite (Z.mul_comm (NewInteger 100) 5), !NewInteger_mul, !NewInteger_leb.
    reflexivity. }
  assert (clamp (NewInteger 100) (NewInteger 1000) = NewInteger 200) as ->.
  { unfold clamp. rewrite !NewInteger_mul, !NewInteger_leb. reflexivity. }
  reflexivity.
Qed.

Transparent Integer.NewInteger.

(** C3, as amended: on a day after the epoch day every accepted node is in
    the list the distributor returns, the nodes without raw work are left
    out of the statistics, and the clamp raises each of them to [avg / 7],
    so that its share is that of [avg / 7] in the clamped total.  For the
    raw works 0, 100 (five times) and 1000 the average is 100, the 1000 is
    clamped to 200, the 0 becomes [100 / 7], each 100 becomes
    [100 / 6 + 500 / 6], and the shares are taken over the sum of these. *)
Theorem zero_work_raised_to_lower_bound :
  (forall node accepted base timestamp mints,
     uint64 (timestamp `div` dayNanos - Node.Epoch node `div` dayNanos) <> 0 ->
     distributeKernelMintByWorks node accepted base timestamp = Ret mints ->
     exists works,
       Store.ListNodeWorks (Node.persistStore node) (map CNode.IdForNetwork accepted)
         (uint32 (uint32 (timestamp `div` dayNanos) - 1)) = Ok works /\
       let raw := rawWorks works accepted in
       let avg := averageWork (workStats raw) in
       let total := sumZ (map (clamp avg) raw) in
       map CNodeWork.CNode mints = accepted /\
       workStats raw = workStats (filter (fun x => x <> 0) raw) /\
       0 < avg /\
       clampWork avg (Integer.Mul avg 7) (avg `div` 7) 0 = Ret (avg `div` 7) /\
       forall i n,
         accepted !! i = Some n ->
         rawWorkOf (default (0%N, 0%N) (works !! CNode.IdForNetwork n)) = 0 ->
         CNodeWork.Work <$> mints !! i = Some ((avg `div` 7 * base) `div` total)) /\
  (let raw := map (fun x => NewInteger x) [0; 100; 100; 100; 100; 100; 1000] in
   let avg := averageWork (workStats raw) in
   workStats raw = {| valid := 6; minW := NewInteger 100; maxW := NewInteger 1000;
                      totalW := NewInteger 1500 |} /\
   avg = NewInteger 100 /\
   map (clamp avg) raw
   = NewInteger 100 `div` 7
     :: replicate 5 (NewInteger 100 `div` 6 + NewInteger 500 `div` 6) ++ [NewInteger 200] /\
   0 < NewInteger 100 `div` 7 /\
   NewInteger 700 < sumZ (map (clamp avg) raw)).
Proof.
  split.
  - intros node accepted base timestamp mints Hday Hrun.
    destruct (distribute_works node accepted base timestamp mints Hrun Hday)
      as (works & Hworks & Hthr & Hvalid & Hmin & Hmax & Havg & Htotal & ->).
    exists works. split; [done |]. cbv zeta in *.
    set (raw := rawWorks works accepted) in *.
    set (avg := averageWork (workStats raw)) in *.
    assert (0 < avg) as Hpos.
    { pose proof (averageWork_nonneg (workStats raw) Hvalid Hmin Hmax). fold avg in H. lia. }
    split; [| split; [| split; [| split]]].
    + rewrite map_map. simpl. apply map_id.
    + apply foldl_countWork_filter.
    + done.
    + rewrite clampWork_clamp. f_equal. by apply clamp_zero.
    + intros i n Hi Hzero. rewrite list_lookup_fmap, Hi. simpl.
      rewrite Hzero. unfold workShare. by rewrite clamp_zero.
  - cbv zeta. rewrite scenario_stats, scenario_average, scenario_clamp.
    pose proof unit_pos as Hu.
    assert (14 * 10 ^ Z.of_nat Precision <= NewInteger 100 `div` 7) as Hlow.
    { apply Z.div_le_lower_bound; [lia |]. unfold Integer.NewInteger. lia. }
    assert (100 * 10 ^ Z.of_nat Precision - 1
            <= NewInteger 100 `div` 6 + NewInteger 500 `div` 6) as Hmid.
    { unfold Integer.NewInteger.
      pose proof (Z.div_mod (100 * 10 ^ Z.of_nat Precision) 6 ltac:(lia)).
      pose proof (Z.mod_pos_bound (100 * 10 ^ Z.of_nat Precision) 6 ltac:(lia)).
      pose proof (Z.div_mod (500 * 10 ^ Z.of_nat Precision) 6 ltac:(lia)).
      pose proof (Z.mod_pos_bound (500 * 10 ^ Z.of_nat Precision) 6 ltac:(lia)).
      lia. }
    repeat split; try lia.
    cbn [replicate app sumZ foldr]. unfold Integer.NewInteger in *. lia.
Qed.

(** C4: the shares the distributor returns add up to at most the amount it
    splits, and so does every running total of them; neither builder ever
    ends in the panic of its overshoot check;
    and a transaction a builder returns pays out exactly the amount of its
    mint input.  In the universal builder that amount is the gate's amount
    or, after the slash of the legacy light pool, more, and the outputs are
    the shares, the safe four tenths and the rest as light output; in the
    legacy builder, where it assembles the transaction itself, the outputs
    are the shares and, when positive, the rest. *)
Theorem mint_builders_conserve (node : Node.t) (timestamp : Z) (validateOnly : bool) :
  (forall accepted base mints,
     0 <= base ->
     distributeKernelMintByWorks node accepted base timestamp = Ret mints ->
     sumZ (map CNodeWork.Work mints) <= base /\
     forall k, sumZ (take k (map CNodeWork.Work mints)) <= base) /\
  (forall custodianRequest,
     neverOvershoots
       (buildUniversalMintTransaction node custodianRequest timestamp validateOnly) /\
     forall ver,
       buildUniversalMintTransaction node custodianRequest timestamp validateOnly
       = Ret (Some ver) ->
       exists batch amount mints mint,
         checkUniversalMintPossibility node timestamp validateOnly = Ret (batch, amount) /\
         distributeKernelMintByWorks node (Node.NodesListWithoutState node timestamp true)
           (Integer.Mul (amount `div` 10) 5) timestamp = Ret mints /\
         sumZ (map CNodeWork.Work mints) <= Integer.Mul (amount `div` 10) 5 /\
         firstMint (VersionedTransaction.Transaction ver) = Ret mint /\
         amount <= MintData.Amount mint /\
         outputAmounts (VersionedTransaction.Transaction ver)
         = map CNodeWork.Work mints ++
           [Integer.Mul (amount `div` 10) 4;
            MintData.Amount mint
            - (sumZ (map CNodeWork.Work mints) + Integer.Mul (amount `div` 10) 4)] /\
         outputsTotal (VersionedTransaction.Transaction ver) = MintData.Amount mint) /\
  (forall batch amount,
     checkLegacyMintPossibility node timestamp validateOnly = Ret (batch, amount) ->
     TransactionMintWorkHacks batch = EmptyString \/ Node.isMainnet node = false ->
     Node.isMainnet node = false \/ MainnetMintTransactionV2ForkBatch <= batch ->
     neverOvershoots (buildLegacyKerneNodeMintTransaction node timestamp validateOnly) /\
     forall ver,
       buildLegacyKerneNodeMintTransaction node timestamp validateOnly = Ret (Some ver) ->
       exists mints mint,
         distributeKernelMintByWorks node (Node.NodesListWithoutState node timestamp true)
           amount timestamp = Ret mints /\
         sumZ (map CNodeWork.Work mints) <= amount /\
         firstMint (VersionedTransaction.Transaction ver) = Ret mint /\
         MintData.Amount mint = amount /\
         outputAmounts (VersionedTransaction.Transaction ver)
         = map CNodeWork.Work mints ++
           (if 0 <? amount - sumZ (map CNodeWork.Work mints)
            then [amount - sumZ (map CNodeWork.Work mints)] else []) /\
         outputsTotal (VersionedTransaction.Transaction ver) = amount).
Proof.
  split; [| split].
  - intros accepted base mints Hbase Hrun. split.
    + by apply (distribute_sum_le node accepted base timestamp).
    + intros k. by apply (distribute_running_total node accepted base timestamp).
  - intros custodianRequest. apply buildUniversal_sound.
  - intros batch amount. apply buildLegacy_sound.
Qed.

(** ** Genesis loader *)

Lemma checkGenesisNode_valid inputsFilter input :
  inputsFilter !! AddressString (GenesisNode.Address input) = None ->
  checkGenesisNode inputsFilter input = Ret tt <-> genesisNodeValid input.
Proof.
  intros Hfresh. unfold checkGenesisNode, genesisNodeValid. cbv zeta.
  rewrite Hfresh, Cmp_neg. simpl default.
  destruct (NewAddressFromString _) as [a|e]; simpl call.
  2: { split; [done |]. by intros [[a [=]] _]. }
  rewrite ?bind_Ret.
  destruct (Z.ltb_spec (GenesisNode.Balance input) (NewInteger PledgeAmount)).
  { split; [done |]. intros (_ & ? & _). lia. }
  destruct (String.eqb_spec
              (Public (NewKeyFromSeed
                 (NewHash (Address.PublicSpendKey (GenesisNode.Address input)) +:+
                  NewHash (Address.PublicSpendKey (GenesisNode.Address input)))))
              (Address.PublicViewKey (GenesisNode.Address input))) as [Heq|Hne]; simpl.
  - split; [| done]. intros _. split; [by exists a |]. split; [lia | done].
  - split; [done |]. by intros (_ & _ & ?).
Qed.

(** The loop of [readGenesis] checks each node on its own: the filter it
    consults stays empty, so a repeated address passes. *)
Lemma checkGenesisNodes_valid nodes :
  checkGenesisNodes ∅ nodes = Ret tt <-> Forall genesisNodeValid nodes.
Proof.
  induction nodes as [|input nodes IH]; simpl.
  - split; [by constructor | done].
  - rewrite Forall_cons, <- IH, <- (checkGenesisNode_valid ∅) by apply lookup_empty.
    destruct (checkGenesisNode ∅ input) as [[]| |]; simpl; [| by split; [| intros []] ..].
    rewrite ?bind_Ret. split; [done | by intros []].
Qed.

Lemma readGenesis_accepts path gns :
  readGenesis path = Ret gns <->
  exists f,
    ReadFile path = Ok f /\ jsonUnmarshal f = Ok gns /\
    Z.of_nat (length (Genesis.Nodes gns)) = MinimumNodeCount /\
    Forall genesisNodeValid (Genesis.Nodes gns).
Proof.
  unfold readGenesis. split.
  - destruct (ReadFile path) as [f|e]; simpl call; [| done]. rewrite ?bind_Ret.
    destruct (jsonUnmarshal f) as [gns'|e] eqn:Eparse; simpl call; [| done].
    rewrite ?bind_Ret.
    destruct (Z.eqb_spec (Z.of_nat (length (Genesis.Nodes gns'))) MinimumNodeCount);
      simpl negb; cbv iota; [| done].
    destruct (checkGenesisNodes ∅ (Genesis.Nodes gns')) as [[]| |] eqn:Echeck; [| done..].
    rewrite ?bind_Ret. intros [= <-]. exists f.
    repeat split; try done. by apply checkGenesisNodes_valid.
  - intros (f & Hf & Hparse & Hlen & Hvalid).
    rewrite Hf. simpl call. rewrite bind_Ret, Hparse. simpl call. rewrite bind_Ret.
    rewrite Hlen, Z.eqb_refl. simpl negb. cbv iota.
    apply checkGenesisNodes_valid in Hvalid. rewrite Hvalid. reflexivity.
Qed.

(** C8 fails on the code for duplicated addresses: seven copies of one valid
    node, a genesis in which every address is duplicated, are accepted. *)
Theorem readGenesis_accepts_duplicates (path f : string) (gns : Genesis.t)
    (input : GenesisNode.t) :
  ReadFile path = Ok f -> jsonUnmarshal f = Ok gns ->
  Genesis.Nodes gns = replicate 7 input -> genesisNodeValid input ->
  readGenesis path = Ret gns.
Proof.
  intros Hf Hparse Hnodes Hvalid. apply readGenesis_accepts. exists f.
  rewrite Hnodes. repeat split; try done.
  apply Forall_replicate, Hvalid.
Qed.

Lemma readGenesis_balances path gns :
  readGenesis path = Ret gns ->
  Forall (fun input => NewInteger PledgeAmount <= GenesisNode.Balance input) (Genesis.Nodes gns).
Proof.
  intros (f & _ & _ & _ & Hvalid)%readGenesis_accepts.
  eapply Forall_impl; [exact Hvalid |]. by intros input (_ & ? & _).
Qed.

Lemma genesisSnapshots_Ret gns networkId i seq nodes :
  Forall (fun input => NewInteger PledgeAmount <= GenesisNode.Balance input) nodes ->
  exists seq' snapshots,
    genesisSnapshots gns networkId i seq nodes = Ret (seq', snapshots) /\
    length snapshots = length nodes.
Proof.
  intros Hnodes. revert i seq.
  induction Hnodes as [|input nodes Hinput _ IH]; intros i seq.
  - by exists seq, [].
  - simpl. unfold genesisTransaction. rewrite Sub_le, !bind_Ret by done.
    cbv beta iota zeta. unfold TopoCounterNext.
    destruct (IH (i + 1) (uint64 (seq + 1))) as (seq' & snapshots & -> & Hlen).
    rewrite bind_Ret. eexists _, _. split; [reflexivity |]. simpl. by rewrite Hlen.
Qed.

(** C9: for a valid genesis whose hash is not the zero hash, and a state
    table that can be read, [LoadGenesis] goes by the record under
    ["network"]: with none it builds the snapshots, persists them and then
    writes the network id (stopping at the first store error); with the
    computed id it returns without error and leaves the store as it was;
    with another id it returns the error and leaves the store as it was.  A
    record that is present is never rewritten. *)
Theorem LoadGenesis_network_record (node : Node.t) (configDir : string) (gns : Genesis.t)
    (data : string) :
  readGenesis (configDir +:+ "/genesis.json") = Ret gns ->
  jsonMarshal gns = Ok data ->
  KVStore.getError (Node.store node) = None ->
  NewHash data <> zeroBytes 32 ->
  let networkId := NewHash data in
  let stored := KVStore.table (Node.store node) !! stateKeyNetwork in
  let node' := (LoadGenesis node configDir).1 in
  let result := (LoadGenesis node configDir).2 in
  (stored = None ->
   exists seq snapshots,
     genesisSnapshots gns networkId 0 (Node.TopoCounter node) (Genesis.Nodes gns)
     = Ret (seq, snapshots) /\
     length snapshots = length (Genesis.Nodes gns) /\
     match KVStore.loadError (Node.store node), KVStore.setError (Node.store node) with
     | None, None =>
         result = Ret tt /\
         KVStore.snapshots (Node.store node')
         = KVStore.snapshots (Node.store node) ++ snapshots /\
         KVStore.table (Node.store node')
         = <[stateKeyNetwork := networkId]> (KVStore.table (Node.store node))
     | None, Some e =>
         result = Err e /\
         KVStore.snapshots (Node.store node')
         = KVStore.snapshots (Node.store node) ++ snapshots /\
         KVStore.table (Node.store node') = KVStore.table (Node.store node)
     | Some e, _ => result = Err e /\ Node.store node' = Node.store node
     end) /\
  (stored = Some networkId -> result = Ret tt /\ Node.store node' = Node.store node) /\
  (forall id,
     stored = Some id -> id <> networkId ->
     result = Err (Errorf "invalid genesis for network %s" [VStr id]) /\
     Node.store node' = Node.store node) /\
  (forall id,
     stored = Some id -> KVStore.table (Node.store node') !! stateKeyNetwork = Some id).
Proof.
  intros Hread Hmarshal Hget Hzero networkId stored node' result.
  subst node' result. unfold LoadGenesis. rewrite Hread, Hmarshal.
  fold networkId. unfold KVStore.StateGet. cbn [Node.store withGenesis]. rewrite Hget.
  fold stored.
  destruct (genesisSnapshots_Ret gns networkId 0 (Node.TopoCounter node) (Genesis.Nodes gns)
              (readGenesis_balances _ _ Hread)) as (seq & snapshots & Hsnaps & Hlen).
  destruct stored as [id|] eqn:Estored.
  - destruct (String.eqb_spec id networkId) as [->|Hne].
    + split; [done |]. split; [done |]. split.
      * by intros id' [= <-] Hne.
      * by intros id' [= <-].
    + split; [done |]. split; [by intros [= ->] |]. split.
      * by intros id' [= <-] _.
      * by intros id' [= <-].
  - destruct (String.eqb_spec (zeroBytes 32) networkId) as [Heq|_]; [by symmetry in Heq |].
    split; [| by repeat split; intros; discriminate].
    intros _. exists seq, snapshots. split; [done |]. split; [done |].
    cbn [Node.TopoCounter withGenesis]. rewrite Hsnaps.
    unfold KVStore.SnapshotsLoadGenesis, KVStore.StateSet. cbn [Node.store withGenesis].
    destruct (KVStore.loadError (Node.store node)) as [e|]; [done |].
    cbn [KVStore.setError].
    destruct (KVStore.setError (Node.store node)) as [e|]; done.
Qed.

(** * Further properties *)

(** ** Pool sizes *)

Lemma poolAfter_pos n pool : 0 < pool -> 0 < poolAfter n pool.
Proof.
  revert pool. induction n as [|n IH]; intros pool Hp; simpl; [done |].
  apply IH. pose proof (Z.mul_div_le pool 10). lia.
Qed.

Lemma MintPool_pos : 0 < MintPool.
Proof. apply NewInteger_pos. lia. Qed.

Lemma universalPool_pos b : 0 <= b -> 0 < universalPool b.
Proof.
  intros Hb. unfold universalPool.
  pose proof (Z.mod_pos_bound b 365 ltac:(lia)) as Hm.
  pose proof (poolAfter_pos (Z.to_nat (b `div` 365)) MintPool MintPool_pos) as Hpool.
  set (pool := poolAfter _ _) in *. clearbody pool.
  pose proof (day_share_bounds pool (b `mod` 365) ltac:(lia) ltac:(lia)) as Hd.
  cbv zeta. pose proof (Z.mul_div_le pool 10). lia.
Qed.

Lemma universalPool_le_legacyPool b : 0 <= b -> universalPool b <= legacyPool b.
Proof.
  intros Hb. unfold universalPool, legacyPool.
  pose proof (Z.mod_pos_bound b 365 ltac:(lia)) as Hm.
  pose proof (poolAfter_bounds (Z.to_nat (b `div` 365)) MintPool MintPool_nonneg) as Hpool.
  pose proof (legacyMinted_bounds (Z.to_nat (b `div` 365)) MintPool MintPool_nonneg) as Hl.
  cbv zeta.
  set (pool := poolAfter _ _) in *. clearbody pool.
  assert (0 <= (pool `div` 10) `div` 365) as Hday.
  { apply Z.div_pos; [apply Z.div_pos |]; lia. }
  pose proof (Z.mul_div_le ((pool `div` 10) `div` 365) 10) as Hs.
  assert (0 <= ((pool `div` 10) `div` 365) `div` 10) by (apply Z.div_pos; lia).
  nia.
Qed.

Lemma poolSize_negative batch :
  batch <= 0 -> poolSizeUniversal batch = Ret MintPool /\ poolSizeLegacy batch = Ret MintPool.
Proof.
  intros Hb.
  assert (batch `quot` 365 <= 0) as Hq by (apply Z.quot_le_upper_bound; lia).
  assert (batch `rem` 365 <= 0) as Hr by (apply Z.rem_nonpos; lia).
  unfold poolSizeUniversal, poolSizeLegacy, for_lt, MintYearBatches, MintYearShares.
  replace (Z.to_nat (batch `quot` 365)) with 0%nat by lia.
  pose proof MintPool_nonneg. pose proof (tenth_bounds MintPool ltac:(done)).
  assert ((0 <? batch `rem` 365) = false) as -> by lia.
  assert (NewInteger 0 = 0) as -> by (unfold Integer.NewInteger; lia).
  simpl repeat_run. run_step. done.
Qed.

Lemma poolSize_bounds batch :
  exists u l : Z,
    poolSizeUniversal batch = Ret u /\ poolSizeLegacy batch = Ret l /\
    0 < u /\ u <= l /\ l <= MintPool.
Proof.
  destruct (Z.le_gt_cases batch 0) as [Hb|Hb].
  - destruct (poolSize_negative batch Hb) as [-> ->].
    exists MintPool, MintPool. pose proof MintPool_pos. repeat split; lia.
  - exists (universalPool batch), (legacyPool batch).
    rewrite poolSizeUniversal_closed, poolSizeLegacy_closed by lia.
    pose proof (universalPool_pos batch ltac:(lia)).
    pose proof (universalPool_le_legacyPool batch ltac:(lia)).
    pose proof (legacyPool_le batch ltac:(lia)).
    repeat split; lia.
Qed.

(** X1: for every batch, negative ones included, both pool functions return
    a value; the universal pool is positive and at most the legacy pool,
    which is at most [MintPool]; both are [MintPool] up to batch 0. *)
Theorem pool_sizes_ordered (batch : Z) :
  exists u l : Z,
    poolSizeUniversal batch = Ret u /\ poolSizeLegacy batch = Ret l /\
    0 < u /\ u <= l /\ l <= MintPool /\
    (batch <= 0 -> u = MintPool /\ l = MintPool).
Proof.
  destruct (poolSize_bounds batch) as (u & l & Hu & Hl & Hpos & Hul & Hle).
  exists u, l. do 5 (split; [done |]).
  intros Hb. destruct (poolSize_negative batch Hb) as [Hu' Hl']. split; congruence.
Qed.

(** X2: [PoolSize] hands on the error of the store and fails in no other
    way: for any stored distribution it returns the legacy pool of its batch
    when the group is [KERNELNODE] and the universal pool otherwise, a
    positive amount of at most [MintPool]. *)
Theorem PoolSize_answers (node : Node.t) :
  match Store.ReadLastMintDistribution (Node.persistStore node) MaxUint64 with
  | Failed e => Node_PoolSize node = Err e
  | Ok dist =>
      let batch := int (MintDistribution.Batch dist) in
      exists u l p : Z,
        poolSizeUniversal batch = Ret u /\ poolSizeLegacy batch = Ret l /\
        Node_PoolSize node = Ret p /\
        p = (if String.eqb (MintDistribution.Group dist) "KERNELNODE" then l else u) /\
        0 < u /\ u <= p /\ p <= l /\ l <= MintPool
  end.
Proof.
  unfold Node_PoolSize.
  destruct (Store.ReadLastMintDistribution _ _) as [dist|e]; [| done].
  cbv beta iota zeta. set (batch := int (MintDistribution.Batch dist)).
  destruct (poolSize_bounds batch) as (u & l & Hu & Hl & Hpos & Hul & Hle).
  exists u, l, (if String.eqb (MintDistribution.Group dist) "KERNELNODE" then l else u).
  simpl call. rewrite bind_Ret. fold batch.
  rewrite Hu, Hl. destruct (String.eqb _ _); repeat split; try done; lia.
Qed.


(** ** The gates in closed form *)

Lemma checkUniversal_inside node timestamp validateOnly dist :
  0 <= Node.Epoch node -> Node.Epoch node < timestamp < 2 ^ 64 ->
  Store.ReadLastMintDistribution (Node.persistStore node) MaxUint64 = Ok dist ->
  0 <= MintDistribution.Batch dist < 2 ^ 63 ->
  let hours := (timestamp - Node.Epoch node) `div` 3600000000000 in
  let batch := hours `div` 24 in
  1 <= batch ->
  KernelMintTimeBegin <= hours `mod` 24 <= KernelMintTimeEnd ->
  checkUniversalMintPossibility node timestamp validateOnly
  = Ret (gateTable batch (dailyShare batch) dist validateOnly).
Proof.
  intros He Ht Hread Hd hours batch Hone Hw.
  unfold checkUniversalMintPossibility, noMint.
  destruct (Z.leb_spec timestamp (Node.Epoch node)) as [Hle|Hlt]; [lia |].
  destruct (gate_hours (Node.Epoch node) timestamp He ltac:(lia))
    as (-> & Hh & -> & -> & Hb).
  fold hours batch. cbv zeta.
  destruct (Z.ltb_spec batch 1); [lia |].
  rewrite gate_pool by lia. fold batch in Hb.
  unfold MintYearShares, MintYearBatches.
  destruct (Z.ltb_spec (hours `mod` 24) KernelMintTimeBegin); [lia |].
  destruct (Z.ltb_spec KernelMintTimeEnd (hours `mod` 24)); [lia |].
  cbn [orb]. run_step. by rewrite (gateDistribution_table _ _ _ _ dist).
Qed.

Lemma checkLegacy_inside node timestamp validateOnly dist :
  0 <= Node.Epoch node -> Node.Epoch node < timestamp < 2 ^ 64 ->
  Store.ReadLastMintDistribution (Node.persistStore node) MaxUint64 = Ok dist ->
  0 <= MintDistribution.Batch dist < 2 ^ 63 ->
  let hours := (timestamp - Node.Epoch node) `div` 3600000000000 in
  let batch := hours `div` 24 in
  let fork := Node.isMainnet node && (batch <? 72) in
  let kmb := if fork then 6 else KernelMintTimeBegin in
  let kme := if fork then 18 else KernelMintTimeEnd in
  1 <= batch ->
  kmb <= hours `mod` 24 <= kme ->
  checkLegacyMintPossibility node timestamp validateOnly
  = Ret (gateTable batch (legacyFull batch) dist validateOnly).
Proof.
  intros He Ht Hread Hd hours batch fork kmb kme Hone Hw.
  unfold checkLegacyMintPossibility, noMint.
  destruct (Z.leb_spec timestamp (Node.Epoch node)) as [Hle|Hlt]; [lia |].
  destruct (gate_hours (Node.Epoch node) timestamp He ltac:(lia))
    as (-> & Hh & -> & -> & Hb).
  fold hours batch. cbv zeta.
  destruct (Z.ltb_spec batch 1); [lia |].
  unfold MainnetMintPeriodForkBatch, MainnetMintPeriodForkTimeBegin,
    MainnetMintPeriodForkTimeEnd.
  fold fork kmb kme.
  rewrite gate_pool by lia. fold batch in Hb.
  unfold MintYearShares, MintYearBatches.
  destruct (Z.ltb_spec (hours `mod` 24) kmb); [lia |].
  destruct (Z.ltb_spec kme (hours `mod` 24)); [lia |].
  cbn [orb]. run_step. by rewrite (gateDistribution_table _ _ _ _ dist).
Qed.

(** X3: when the last distribution and the batch of the timestamp lie in
    the same year of the pool, what a gate grants inside its window is what
    the pool of its kind loses between the two batches. *)
Theorem gate_amount_is_pool_drop (node : Node.t) (timestamp : Z) (validateOnly : bool)
    (dist : MintDistribution.t) :
  0 <= Node.Epoch node -> Node.Epoch node < timestamp < 2 ^ 64 ->
  Store.ReadLastMintDistribution (Node.persistStore node) MaxUint64 = Ok dist ->
  let hours := (timestamp - Node.Epoch node) `div` 3600000000000 in
  let batch := hours `div` 24 in
  let fork := Node.isMainnet node && (batch <? 72) in
  let kmb := if fork then 6 else KernelMintTimeBegin in
  let kme := if fork then 18 else KernelMintTimeEnd in
  0 <= MintDistribution.Batch dist < batch ->
  MintDistribution.Batch dist `div` 365 = batch `div` 365 ->
  (KernelMintTimeBegin <= hours `mod` 24 <= KernelMintTimeEnd ->
   exists amount before after : Z,
     checkUniversalMintPossibility node timestamp validateOnly = Ret (batch, amount) /\
     poolSizeUniversal (MintDistribution.Batch dist) = Ret before /\
     poolSizeUniversal batch = Ret after /\
     amount = before - after) /\
  (kmb <= hours `mod` 24 <= kme ->
   exists amount before after : Z,
     checkLegacyMintPossibility node timestamp validateOnly = Ret (batch, amount) /\
     poolSizeLegacy (MintDistribution.Batch dist) = Ret before /\
     poolSizeLegacy batch = Ret after /\
     amount = before - after).
Proof.
  intros He Ht Hread hours batch fork kmb kme Hd Hyear.
  destruct (gate_hours (Node.Epoch node) timestamp He ltac:(lia))
    as (_ & _ & _ & _ & Hb).
  fold hours batch in Hb.
  pose proof (checkUniversal_inside node timestamp validateOnly dist He Ht Hread
                ltac:(lia) ltac:(fold hours batch; lia)) as Hgu.
  pose proof (checkLegacy_inside node timestamp validateOnly dist He Ht Hread
                ltac:(lia) ltac:(fold hours batch; lia)) as Hgl.
  fold hours batch fork kmb kme in Hgu, Hgl.
  set (last := MintDistribution.Batch dist) in *.
  assert (batch - last = batch `mod` 365 - last `mod` 365) as Hdiff.
  { pose proof (Z.div_mod batch 365 ltac:(lia)). pose proof (Z.div_mod last 365 ltac:(lia)).
    lia. }
  assert (gateTable batch (dailyShare batch) dist validateOnly
          = (batch, dailyShare batch * (batch - last))
          /\ gateTable batch (legacyFull batch) dist validateOnly
             = (batch, legacyFull batch * (batch - last))) as [Hu Hl].
  { unfold gateTable. fold last.
    destruct (Z.ltb_spec batch last); [lia |].
    destruct (Z.eqb_spec batch last); [lia | done]. }
  split; intros Hw.
  - exists (dailyShare batch * (batch - last)), (universalPool last), (universalPool batch).
    rewrite Hgu, Hu by done.
    rewrite !poolSizeUniversal_closed by lia.
    do 3 (split; [done |]).
    unfold universalPool, dailyShare. rewrite Hyear, Hdiff. cbv zeta. lia.
  - exists (legacyFull batch * (batch - last)), (legacyPool last), (legacyPool batch).
    rewrite Hgl, Hl by done.
    rewrite !poolSizeLegacy_closed by lia.
    do 3 (split; [done |]).
    unfold legacyPool, legacyFull, dailyShare. rewrite Hyear, Hdiff. cbv zeta. lia.
Qed.


(** ** Pledge amount after the epoch *)

Lemma pledgeYear_step liquidity pool :
  0 <= pool ->
  pledgeYear (liquidity, pool) = Ret (liquidity + pool `div` 10, pool - pool `div` 10).
Proof.
  intros Hp. pose proof (tenth_bounds pool Hp).
  unfold pledgeYear, MintYearShares. run_step. reflexivity.
Qed.

Lemma repeat_pledgeYear n liquidity pool :
  0 <= pool ->
  repeat_run pledgeYear n (liquidity, pool)
  = Ret (liquidity + (pool - poolAfter n pool), poolAfter n pool).
Proof.
  revert liquidity pool. induction n as [|n IH]; intros liquidity pool Hp.
  - simpl. do 2 f_equal. lia.
  - pose proof (tenth_bounds pool Hp) as Ht.
    rewrite repeat_run_S, pledgeYear_step, bind_Ret by lia.
    rewrite IH by lia. simpl poolAfter. do 2 f_equal. lia.
Qed.

Lemma pledgeAmount_years batch :
  - 2 ^ 63 <= batch < 2 ^ 63 ->
  ('(liquidity, _) ← for_lt (int batch `quot` MintYearBatches) pledgeYear
                       (MintLiquidity, MintPool);
   Integer.Div liquidity MintNodeMaximum)
  = Ret (pledgeAfter (Z.to_nat (batch `quot` 365))).
Proof.
  intros Hb. rewrite int_small by lia. unfold for_lt, MintYearBatches.
  rewrite repeat_pledgeYear by apply MintPool_nonneg.
  rewrite bind_Ret. unfold MintNodeMaximum. by rewrite Div_pos by lia.
Qed.

Lemma pledgeAmount_closed s :
  0 <= s < 2 ^ 63 ->
  pledgeAmount s = Ret (pledgeAfter (Z.to_nat (s `div` (dayNanos * 365)))).
Proof.
  intros Hs. unfold pledgeAmount. cbv zeta.
  assert (0 <= s `div` 3600000000000) as Hh by (apply Z.div_pos; lia).
  rewrite (Z.quot_div_nonneg s), (Z.quot_div_nonneg (s `div` 3600000000000)) by lia.
  assert (0 <= (s `div` 3600000000000) `div` 24 < 2 ^ 63) as Hb.
  { split; [apply Z.div_pos; lia |].
    apply Z.div_lt_upper_bound; [lia |]. apply Z.div_lt_upper_bound; lia. }
  rewrite pledgeAmount_years by lia. rewrite Z.quot_div_nonneg by lia.
  unfold dayNanos. by rewrite !Z.div_div by lia.
Qed.

Lemma pledgeAmount_negative s :
  - 2 ^ 63 <= s <= 0 -> pledgeAmount s = Ret (pledgeAfter 0).
Proof.
  intros Hs. unfold pledgeAmount. cbv zeta.
  assert (- 2 ^ 63 <= (s `quot` 3600000000000) `quot` 24 <= 0) as Hb.
  { assert (- 2 ^ 63 <= s `quot` 3600000000000 <= 0) as Hh.
    { split; [apply Z.quot_le_lower_bound; lia | apply Z.quot_le_upper_bound; lia]. }
    split; [apply Z.quot_le_lower_bound; lia | apply Z.quot_le_upper_bound; lia]. }
  rewrite pledgeAmount_years by lia.
  assert (((s `quot` 3600000000000) `quot` 24) `quot` 365 <= 0)
    by (apply Z.quot_le_upper_bound; lia).
  do 2 f_equal. lia.
Qed.

Lemma poolAfter_antitone n m pool :
  0 <= pool -> (n <= m)%nat -> poolAfter m pool <= poolAfter n pool.
Proof.
  intros Hp Hnm. induction Hnm as [|m Hnm IH]; [lia |].
  rewrite poolAfter_succ.
  pose proof (poolAfter_bounds m pool Hp). pose proof (tenth_bounds (poolAfter m pool)). lia.
Qed.

Lemma pledgeAfter_zero : pledgeAfter 0 = NewInteger 10000.
Proof.
  unfold pledgeAfter, MintLiquidity. simpl poolAfter. rewrite Z.sub_diag, Z.add_0_r.
  apply (NewInteger_div_exact 10000 50). lia.
Qed.

Lemma pledgeAfter_bounds n m :
  (n <= m)%nat ->
  NewInteger 10000 <= pledgeAfter n /\ pledgeAfter n <= pledgeAfter m /\
  pledgeAfter m <= NewInteger 20000.
Proof.
  intros Hnm. rewrite <- pledgeAfter_zero.
  pose proof MintPool_nonneg as HP.
  pose proof (poolAfter_antitone 0 n MintPool HP ltac:(lia)) as H0.
  pose proof (poolAfter_antitone n m MintPool HP Hnm) as H1.
  pose proof (poolAfter_bounds m MintPool HP) as H2.
  unfold pledgeAfter. split; [apply Z.div_le_mono; lia |].
  split; [apply Z.div_le_mono; lia |].
  rewrite <- (NewInteger_div_exact 20000 50) by lia.
  apply Z.div_le_mono; [lia |]. unfold MintLiquidity, MintPool in *.
  change (20000 * 50) with (500000 + 500000). rewrite <- NewInteger_add. lia.
Qed.

(** X4: for elapsed times [s <= s'] that a [time.Duration] holds,
    [pledgeAmount] returns a value for both, that of [s'] at least that of
    [s], both between 10 000 and 20 000; the two are equal when [s] and [s']
    lie in the same year of 365 days. *)
Theorem pledge_amount_grows (s s' : Z) :
  0 <= s <= s' -> s' < 2 ^ 63 ->
  exists p p' : Z,
    pledgeAmount s = Ret p /\ pledgeAmount s' = Ret p' /\
    NewInteger 10000 <= p /\ p <= p' /\ p' <= NewInteger 20000 /\
    (s `div` (dayNanos * 365) = s' `div` (dayNanos * 365) -> p = p').
Proof.
  intros Hs Hs'. rewrite !pledgeAmount_closed by lia.
  eexists _, _. do 2 (split; [reflexivity |]).
  assert (s `div` (dayNanos * 365) <= s' `div` (dayNanos * 365)) as Hle
    by (apply Z.div_le_mono; unfold dayNanos; lia).
  destruct (pledgeAfter_bounds (Z.to_nat (s `div` (dayNanos * 365)))
              (Z.to_nat (s' `div` (dayNanos * 365))) ltac:(lia)) as (H1 & H2 & H3).
  do 3 (split; [done |]). by intros ->.
Qed.

(** X5: [PledgeAmount] returns a value between 10 000 and 20 000 for every
    [uint64] timestamp from the epoch on; it is [pledgeAmount] of the time
    elapsed while that is below 2^63 nanoseconds, 10 000 throughout the
    first 365 days, and 10 000 again once the elapsed time no longer fits
    a [time.Duration]. *)
Theorem PledgeAmount_from_epoch (node : Node.t) (ts : Z) :
  0 <= Node.Epoch node <= ts -> ts < 2 ^ 64 ->
  exists p : Z,
    Node_PledgeAmount node ts = Ret p /\
    NewInteger 10000 <= p <= NewInteger 20000 /\
    (ts - Node.Epoch node < 2 ^ 63 ->
     Node_PledgeAmount node ts = pledgeAmount (ts - Node.Epoch node)) /\
    (ts - Node.Epoch node < dayNanos * 365 -> p = NewInteger 10000) /\
    (2 ^ 63 <= ts - Node.Epoch node -> p = NewInteger 10000).
Proof.
  intros He Ht. unfold Node_PledgeAmount.
  destruct (Z.ltb_spec ts (Node.Epoch node)); [lia |]. cbv zeta.
  unfold uint64. rewrite (Z.mod_small ts), Z.mod_small by lia.
  set (since := ts - Node.Epoch node) in *.
  destruct (Z.lt_ge_cases since (2 ^ 63)) as [Hsmall|Hbig].
  - rewrite int_small by lia. rewrite pledgeAmount_closed by lia.
    eexists. split; [reflexivity |].
    destruct (pledgeAfter_bounds 0 (Z.to_nat (since `div` (dayNanos * 365))) ltac:(lia))
      as (H1 & H2 & H3).
    rewrite pledgeAfter_zero in *.
    split; [lia |]. split; [done |]. split; [| lia].
    intros Hyear. rewrite Z.div_small by lia. apply pledgeAfter_zero.
  - assert (int since = since - 2 ^ 64) as ->.
    { unfold int. replace (since + 2 ^ 63) with (since - 2 ^ 63 + 1 * 2 ^ 64) by lia.
      rewrite Z.mod_add, Z.mod_small by lia. lia. }
    rewrite pledgeAmount_negative by lia. rewrite pledgeAfter_zero.
    eexists. split; [reflexivity |].
    assert (NewInteger 10000 <= NewInteger 20000)
      by (apply Z.leb_le; by rewrite NewInteger_leb).
    repeat split; (lia || done).
Qed.


(** ** What the gates answer, and the builders without a mint *)

Lemma checkUniversal_spec node timestamp validateOnly :
  0 <= Node.Epoch node -> 0 <= timestamp < 2 ^ 64 ->
  let hours := (timestamp - Node.Epoch node) `div` 3600000000000 in
  let batch := hours `div` 24 in
  checkUniversalMintPossibility node timestamp validateOnly
  = if (timestamp <=? Node.Epoch node) || (batch <? 1)
       || (hours `mod` 24 <? KernelMintTimeBegin) || (KernelMintTimeEnd <? hours `mod` 24)
    then Ret (0, Zero)
    else gateDistribution node validateOnly batch (dailyShare batch).
Proof.
  intros He Ht hours batch.
  unfold checkUniversalMintPossibility, noMint.
  destruct (Z.leb_spec timestamp (Node.Epoch node)) as [Hle|Hlt]; [done |].
  destruct (gate_hours (Node.Epoch node) timestamp He ltac:(lia))
    as (-> & Hh & -> & -> & Hb).
  fold hours batch. cbv zeta.
  destruct (Z.ltb_spec batch 1); [done |]. cbn [orb].
  destruct (_ || _); [done |].
  rewrite gate_pool by lia. unfold MintYearShares, MintYearBatches. run_step. done.
Qed.

Lemma checkLegacy_spec node timestamp validateOnly :
  0 <= Node.Epoch node -> 0 <= timestamp < 2 ^ 64 ->
  let hours := (timestamp - Node.Epoch node) `div` 3600000000000 in
  let batch := hours `div` 24 in
  let fork := Node.isMainnet node && (batch <? 72) in
  let kmb := if fork then 6 else KernelMintTimeBegin in
  let kme := if fork then 18 else KernelMintTimeEnd in
  checkLegacyMintPossibility node timestamp validateOnly
  = if (timestamp <=? Node.Epoch node) || (batch <? 1)
       || (hours `mod` 24 <? kmb) || (kme <? hours `mod` 24)
    then Ret (0, Zero)
    else gateDistribution node validateOnly batch (legacyFull batch).
Proof.
  intros He Ht hours batch fork kmb kme.
  unfold checkLegacyMintPossibility, noMint.
  destruct (Z.leb_spec timestamp (Node.Epoch node)) as [Hle|Hlt]; [done |].
  destruct (gate_hours (Node.Epoch node) timestamp He ltac:(lia))
    as (-> & Hh & -> & -> & Hb).
  fold hours batch. cbv zeta.
  destruct (Z.ltb_spec batch 1); [done |]. cbn [orb].
  unfold MainnetMintPeriodForkBatch, MainnetMintPeriodForkTimeBegin,
    MainnetMintPeriodForkTimeEnd.
  fold fork kmb kme.
  destruct (_ || _); [done |].
  rewrite gate_pool by lia. unfold MintYearShares, MintYearBatches. run_step. done.
Qed.

Lemma gateDistribution_cases node validateOnly batch perBatch :
  exists b a : Z,
    gateDistribution node validateOnly batch perBatch = Ret (b, a) /\
    ((b = 0 /\ a = Zero) \/ b = batch) /\
    (forall e,
       Store.ReadLastMintDistribution (Node.persistStore node) MaxUint64 = Failed e ->
       b = 0 /\ a = Zero).
Proof.
  unfold gateDistribution, noMint.
  destruct (Store.ReadLastMintDistribution _ _) as [dist|e].
  - destruct (_ <? _); [| destruct (_ =? _); [destruct validateOnly |]];
      eexists _, _; (split; [reflexivity |]); split; first [by left | by right | done].
  - eexists _, _. split; [reflexivity |]. split; [by left | done].
Qed.

Lemma gate_answer (c : bool) (batch b a : Z) (unread : Prop) :
  (c = false -> 1 <= batch) ->
  (b = 0 /\ a = Zero) \/ b = batch ->
  (unread -> b = 0 /\ a = Zero) ->
  exists b0 a0 : Z,
    (if c then Ret (0, Zero) else Ret (b, a)) = Ret (b0, a0) /\
    ((b0 = 0 /\ a0 = Zero) \/ (b0 = batch /\ 1 <= batch)) /\
    (unread -> (b0, a0) = (0, Zero)).
Proof.
  intros Hc Hb Hu. destruct c.
  - exists 0, Zero. split; [done |]. split; [by left | done].
  - exists b, a. split; [done |]. split.
    + destruct Hb as [Hb| ->]; [by left |]. right. split; [done | by apply Hc].
    + intros Hun. by destruct (Hu Hun) as [-> ->].
Qed.

(** X6: for [uint64] timestamps both gates always return an answer, never
    an error and never a panic; the batch of the answer is 0, with the zero
    amount, or the number of whole days since the epoch; when the last
    distribution cannot be read the answer is no mint. *)
Theorem gates_always_answer (node : Node.t) (timestamp : Z) (validateOnly : bool) :
  0 <= Node.Epoch node -> 0 <= timestamp < 2 ^ 64 ->
  let batch := ((timestamp - Node.Epoch node) `div` 3600000000000) `div` 24 in
  exists b a b' a' : Z,
    checkUniversalMintPossibility node timestamp validateOnly = Ret (b, a) /\
    checkLegacyMintPossibility node timestamp validateOnly = Ret (b', a') /\
    ((b = 0 /\ a = Zero) \/ (b = batch /\ 1 <= batch)) /\
    ((b' = 0 /\ a' = Zero) \/ (b' = batch /\ 1 <= batch)) /\
    (forall e,
       Store.ReadLastMintDistribution (Node.persistStore node) MaxUint64 = Failed e ->
       (b, a) = (0, Zero) /\ (b', a') = (0, Zero)).
Proof.
  intros He Ht batch.
  rewrite checkUniversal_spec, checkLegacy_spec by done. fold batch.
  destruct (gateDistribution_cases node validateOnly batch (dailyShare batch))
    as (b & a & -> & Hu & Hfu).
  destruct (gateDistribution_cases node validateOnly batch (legacyFull batch))
    as (b' & a' & -> & Hl & Hfl).
  set (unread := exists e, Store.ReadLastMintDistribution (Node.persistStore node) MaxUint64
                           = Failed e).
  assert (forall c1 c2 c3 : bool, c1 || (batch <? 1) || c2 || c3 = false -> 1 <= batch)
    as Hone.
  { intros c1 c2 c3 Hc. destruct c1; [done |]. destruct (Z.ltb_spec batch 1); [done | lia]. }
  match goal with
  | |- context [if ?c then Ret (0, Zero) else Ret (b, a)] =>
      destruct (gate_answer c batch b a unread) as (b0 & a0 & -> & Hb0 & Hf0);
        [apply Hone | done | by intros [e He'] ; apply (Hfu e) |]
  end.
  match goal with
  | |- context [if ?c then Ret (0, Zero) else Ret (b', a')] =>
      destruct (gate_answer c batch b' a' unread) as (b1 & a1 & -> & Hb1 & Hf1);
        [apply Hone | done | by intros [e He'] ; apply (Hfl e) |]
  end.
  exists b0, a0, b1, a1. do 4 (split; [done |]).
  intros e Hread. split; [apply Hf0 | apply Hf1]; by exists e.
Qed.

Lemma buildUniversal_noMint node custodianRequest timestamp validateOnly :
  checkUniversalMintPossibility node timestamp validateOnly = Ret (0, Zero) ->
  buildUniversalMintTransaction node custodianRequest timestamp validateOnly = Ret None.
Proof. intros Hgate. unfold buildUniversalMintTransaction. rewrite Hgate. done. Qed.

Lemma buildLegacy_noMint node timestamp validateOnly :
  checkLegacyMintPossibility node timestamp validateOnly = Ret (0, Zero) ->
  buildLegacyKerneNodeMintTransaction node timestamp validateOnly = Ret None.
Proof. intros Hgate. unfold buildLegacyKerneNodeMintTransaction. rewrite Hgate. done. Qed.



(** X8: a builder returns no transaction, in either mode, when the
    timestamp is not after the epoch, when less than a day has elapsed,
    when the hour of the day is outside the window of its gate, or when the
    last distribution cannot be read. *)
Theorem no_mint_built_outside_window (node : Node.t) (timestamp : Z) (validateOnly : bool)
    (custodianRequest : option CustodianUpdateRequest.t) :
  0 <= Node.Epoch node -> 0 <= timestamp < 2 ^ 64 ->
  let hours := (timestamp - Node.Epoch node) `div` 3600000000000 in
  let batch := hours `div` 24 in
  let fork := Node.isMainnet node && (batch <? 72) in
  let kmb := if fork then 6 else KernelMintTimeBegin in
  let kme := if fork then 18 else KernelMintTimeEnd in
  let unread :=
    exists e, Store.ReadLastMintDistribution (Node.persistStore node) MaxUint64 = Failed e in
  (timestamp <= Node.Epoch node \/ batch < 1 \/
   hours `mod` 24 < KernelMintTimeBegin \/ KernelMintTimeEnd < hours `mod` 24 \/ unread ->
   buildUniversalMintTransaction node custodianRequest timestamp validateOnly = Ret None) /\
  (timestamp <= Node.Epoch node \/ batch < 1 \/
   hours `mod` 24 < kmb \/ kme < hours `mod` 24 \/ unread ->
   buildLegacyKerneNodeMintTransaction node timestamp validateOnly = Ret None).
Proof.
  intros He Ht hours batch fork kmb kme unread. split; intros Hout.
  - apply buildUniversal_noMint. rewrite checkUniversal_spec by done.
    fold hours batch.
    destruct (Z.leb_spec timestamp (Node.Epoch node)); [done |].
    destruct (Z.ltb_spec batch 1); [done |].
    destruct (Z.ltb_spec (hours `mod` 24) KernelMintTimeBegin); [done |].
    destruct (Z.ltb_spec KernelMintTimeEnd (hours `mod` 24)); [done |]. cbn [orb].
    destruct Hout as [?|[?|[?|[?|[e Hread]]]]]; try lia.
    unfold gateDistribution. by rewrite Hread.
  - apply buildLegacy_noMint. rewrite checkLegacy_spec by done.
    fold hours batch fork kmb kme.
    destruct (Z.leb_spec timestamp (Node.Epoch node)); [done |].
    destruct (Z.ltb_spec batch 1); [done |].
    destruct (Z.ltb_spec (hours `mod` 24) kmb); [done |].
    destruct (Z.ltb_spec kme (hours `mod` 24)); [done |]. cbn [orb].
    destruct Hout as [?|[?|[?|[?|[e Hread]]]]]; try lia.
    unfold gateDistribution. by rewrite Hread.
Qed.


(** ** The distributor: epoch day, order of the shares, failures *)

Lemma distribute_epoch_day node accepted base timestamp :
  timestamp `div` dayNanos = Node.Epoch node `div` dayNanos ->
  distributeKernelMintByWorks node accepted base timestamp
  = (work ← Integer.Div base (Z.of_nat (length accepted));
     mret (map (fun n => {| CNodeWork.CNode := n; CNodeWork.Work := work |}) accepted)).
Proof.
  intros Hday. unfold distributeKernelMintByWorks. rewrite Hday, Z.ltb_irrefl, Z.sub_diag.
  change (uint64 0 =? 0) with true. cbv iota. rewrite length_map.
  destruct (Integer.Div _ _); [| done..]. rewrite !bind_Ret. unfold mret, run_mret.
  f_equal. by rewrite map_map.
Qed.

(** X9: on the day of the epoch the distributor reads nothing from the
    store: [n] accepted nodes receive [base / n] each, in the order given;
    without accepted nodes the division is fatal, as is a timestamp of a day
    before that of the epoch. *)
Theorem distribute_on_epoch_day (node : Node.t) (accepted : list CNode.t) (base : Z)
    (timestamp : Z) :
  let epoch := Node.Epoch node `div` dayNanos in
  let day := timestamp `div` dayNanos in
  (day < epoch ->
   distributeKernelMintByWorks node accepted base timestamp
   = Panic (Errorf "invalid mint day %d %d" [VInt epoch; VInt day])) /\
  (day = epoch -> accepted = [] ->
   exists e, distributeKernelMintByWorks node accepted base timestamp = Panic e) /\
  (day = epoch -> accepted <> [] ->
   distributeKernelMintByWorks node accepted base timestamp
   = Ret (map (fun n => {| CNodeWork.CNode := n;
                           CNodeWork.Work := base `div` Z.of_nat (length accepted) |})
            accepted)).
Proof.
  intros epoch day. split; [| split].
  - intros Hday. unfold distributeKernelMintByWorks. fold epoch day.
    by destruct (Z.ltb_spec day epoch); [| lia].
  - intros Hday ->. rewrite distribute_epoch_day by done. by eexists.
  - intros Hday Hne. rewrite distribute_epoch_day by done.
    rewrite Div_pos by (destruct accepted; [done | simpl; lia]). done.
Qed.

Lemma clamp_monotone avg x y :
  0 < avg -> x <= y ->
  avg `div` 7 <= clamp avg x /\ clamp avg x <= clamp avg y /\ clamp avg y <= 2 * avg.
Proof.
  intros Ha Hxy. unfold clamp. clear - Ha Hxy. repeat zcase; Z.div_mod_to_equations; lia.
Qed.

(** X10: for a positive average the clamp of the second loop is monotone
    in the work and maps every work into [[avg/7, 2 avg]]. *)
Theorem clamp_monotone_bounded (avg x y : Z) :
  0 < avg -> x <= y ->
  exists cx cy : Z,
    clampWork avg (Integer.Mul avg 7) (avg `div` 7) x = Ret cx /\
    clampWork avg (Integer.Mul avg 7) (avg `div` 7) y = Ret cy /\
    avg `div` 7 <= cx /\ cx <= cy /\ cy <= 2 * avg.
Proof.
  intros Ha Hxy. rewrite !clampWork_clamp. eexists _, _.
  do 2 (split; [reflexivity |]). by apply clamp_monotone.
Qed.

Lemma sumZ_elem_le l i (x : Z) :
  Forall (fun x => 0 <= x) l -> l !! i = Some x -> x <= sumZ l.
Proof.
  intros Hl. revert i. induction Hl as [|y l Hy Hl IH]; intros i Hi; [done |].
  pose proof (sumZ_nonneg l Hl). destruct i as [|i]; simpl in *.
  - injection Hi as ->. lia.
  - specialize (IH i Hi). lia.
Qed.

(** X11: in a distribution of a later day, a node receives at least as
    much as every node whose raw work is not larger; every share lies
    between zero and the amount to split. *)
Theorem shares_follow_work (node : Node.t) (accepted : list CNode.t) (base timestamp : Z)
    (mints : list CNodeWork.t) (works : gmap string (N * N)) (i j : nat) (ni nj : CNode.t)
    (ri rj : Z) :
  0 <= base ->
  uint64 (timestamp `div` dayNanos - Node.Epoch node `div` dayNanos) <> 0 ->
  distributeKernelMintByWorks node accepted base timestamp = Ret mints ->
  Store.ListNodeWorks (Node.persistStore node) (map CNode.IdForNetwork accepted)
    (uint32 (uint32 (timestamp `div` dayNanos) - 1)) = Ok works ->
  accepted !! i = Some ni -> accepted !! j = Some nj ->
  rawWork (default (0%N, 0%N) (works !! CNode.IdForNetwork ni)) = Ret ri ->
  rawWork (default (0%N, 0%N) (works !! CNode.IdForNetwork nj)) = Ret rj ->
  ri <= rj ->
  exists wi wj : Z,
    CNodeWork.Work <$> mints !! i = Some wi /\
    CNodeWork.Work <$> mints !! j = Some wj /\
    0 <= wi /\ wi <= wj /\ wj <= base.
Proof.
  intros Hbase Hday Hrun Hworks Hi Hj Hri Hrj Hle.
  pose proof (distribute_sum_le _ _ _ _ _ Hbase Hrun) as Hsum.
  pose proof (distribute_nonneg _ _ _ _ _ Hbase Hrun) as Hnn.
  destruct (distribute_works node accepted base timestamp mints Hrun Hday)
    as (works' & Hworks' & Hv & Hvalid & Hmin & Hmax & Havg & Htotal & Hm).
  rewrite Hworks in Hworks'. injection Hworks' as <-. cbv zeta in *.
  rewrite rawWork_value in Hri, Hrj. injection Hri as <-. injection Hrj as <-.
  set (raw := rawWorks works accepted) in *.
  set (avg := averageWork (workStats raw)) in *.
  set (total := sumZ (map (clamp avg) raw)) in *.
  assert (0 < avg) as Hpos.
  { pose proof (averageWork_nonneg (workStats raw) Hvalid Hmin Hmax). fold avg in H. lia. }
  assert (0 < total) as Htpos.
  { assert (0 <= total); [| lia]. apply sumZ_nonneg, Forall_map, Forall_forall.
    intros x Hx. apply clamp_nonneg; [lia |].
    subst raw. unfold rawWorks in Hx. apply list_elem_of_fmap in Hx as (n & -> & _).
    apply rawWorkOf_nonneg. }
  eexists _, _. rewrite Hm, !list_lookup_fmap, Hi, Hj. simpl.
  do 2 (split; [reflexivity |]).
  set (xi := rawWorkOf (default (0%N, 0%N) (works !! CNode.IdForNetwork ni))) in *.
  set (xj := rawWorkOf (default (0%N, 0%N) (works !! CNode.IdForNetwork nj))) in *.
  destruct (clamp_monotone avg xi xj Hpos Hle) as (Hlow & Hmono & _).
  assert (0 <= avg `div` 7) by (apply Z.div_pos; lia).
  unfold workShare. split; [apply Z.div_pos; nia |].
  split; [apply Z.div_le_mono; nia |].
  etrans; [| exact Hsum]. apply (sumZ_elem_le _ j); [done |].
  by rewrite Hm, !list_lookup_fmap, Hj.
Qed.


(** The distributor of a later day once the store has answered: the
    statistics of the first loop decide between an error, a fatal
    subtraction or division, and the shares. *)
Lemma distribute_steps node accepted base timestamp works spaces :
  let epoch := Node.Epoch node `div` dayNanos in
  let day := timestamp `div` dayNanos in
  let thr := int (Node.ConsensusThreshold node timestamp false) in
  let cids := map CNode.IdForNetwork accepted in
  let raw := rawWorks works accepted in
  let st := workStats raw in
  let invalid :=
    Errorf "distributeKernelMintByWorks not valid %d %d %d %d"
      [VInt day; VInt (Z.of_nat (length accepted)); VInt thr; VInt (valid st)] in
  epoch <= day -> uint64 (day - epoch) <> 0 ->
  validateWorksAndSpacesAggregator node cids thr day = Ret tt ->
  Store.ListNodeWorks (Node.persistStore node) cids (uint32 (uint32 day - 1)) = Ok works ->
  ListRoundSpaces node cids (uint64 (day - 1)) = Ret spaces ->
  distributeKernelMintByWorks node accepted base timestamp
  = if valid st <? thr then Err invalid
    else
      rest ← Integer.Sub (totalW st) (minW st);
      rest ← Integer.Sub rest (maxW st);
      avg ← Integer.Div rest (valid st - 2);
      if avg =? 0 then Err invalid
      else
        mapM (fun m => rat ← Integer.Ration (CNodeWork.Work m) (sumZ (map (clamp avg) raw));
                       mret (setWork m (Integer.Product rat base)))
          (map (fun n => {| CNodeWork.CNode := n;
                            CNodeWork.Work :=
                              clamp avg (rawWorkOf (default (0%N, 0%N)
                                                      (works !! CNode.IdForNetwork n))) |})
             accepted).
Proof.
  intros epoch day thr cids raw st invalid Hepoch Hday Hvalidate Hworks Hspaces.
  unfold distributeKernelMintByWorks. fold epoch day thr cids.
  destruct (Z.ltb_spec day epoch); [lia |].
  destruct (Z.eqb_spec (uint64 (day - epoch)) 0); [done |].
  rewrite Hvalidate, Hworks. simpl call. rewrite bind_Ret, Hspaces, bind_Ret.
  rewrite (mapM_Ret _ (fun m => setWork m (rawWorkOf (default (0%N, 0%N)
             (works !! CNode.IdForNetwork (CNodeWork.CNode m))))))
    by (intros m; rewrite rawWork_value; reflexivity).
  rewrite bind_Ret. rewrite !map_map. simpl.
  change (map (fun x => rawWorkOf _) accepted) with raw.
  fold (workStats raw). fold st.
  unfold notValid. rewrite length_map. fold invalid.
  destruct (valid st <? thr); [done |].
  destruct (Integer.Sub (totalW st) (minW st)) as [rest| |]; [| done..].
  rewrite !bind_Ret.
  destruct (Integer.Sub rest (maxW st)) as [rest'| |]; [| done..].
  rewrite !bind_Ret.
  destruct (Integer.Div rest' (valid st - 2)) as [avg| |]; [| done..].
  rewrite !bind_Ret. rewrite Sign_zero.
  destruct (avg =? 0); [done |].
  rewrite (mapM_Ret _ (fun m => setWork m (clamp avg (CNodeWork.Work m))))
    by (intros m; rewrite clampWork_clamp; reflexivity).
  rewrite bind_Ret, !map_map. simpl.
  rewrite foldl_Add.
  assert (NewInteger 0 = 0) as -> by (unfold Integer.NewInteger; lia).
  rewrite Z.add_0_l. subst raw. unfold rawWorks. rewrite !map_map. reflexivity.
Qed.

Lemma countWork_shape st x : 0 <= x -> statsShape st -> statsShape (countWork st x).
Proof.
  intros Hx Hst. destruct (decide (x = 0)) as [->|Hnz]; [by rewrite countWork_zero |].
  rewrite countWork_pos by lia. unfold statsShape in *. simpl.
  destruct Hst as [(Hv & Hmin & Hmax & Htot)|[(Hv & Hmin & Hmax & Htot)|(Hv & Hmin & Hmax & Htot)]].
  - right. left. rewrite Hv, Hmin, Hmax, Htot. simpl.
    destruct (Z.ltb_spec 0 x); lia.
  - right. right. rewrite Hv, Hmax, Htot.
    destruct (Z.eqb_spec (minW st) 0); [lia |].
    destruct (Z.ltb_spec x (minW st)); destruct (Z.ltb_spec (minW st) x); lia.
  - right. right.
    destruct (Z.eqb_spec (minW st) 0); [lia |].
    destruct (Z.ltb_spec x (minW st)); destruct (Z.ltb_spec (maxW st) x); lia.
Qed.

Lemma workStats_shape raw : Forall (fun x => 0 <= x) raw -> statsShape (workStats raw).
Proof.
  intros Hraw. unfold workStats.
  assert (statsShape {| valid := 0; minW := 0; maxW := 0; totalW := 0 |}) as Hst
    by (left; done).
  revert Hst. generalize {| valid := 0; minW := 0; maxW := 0; totalW := 0 |}.
  induction Hraw as [|x raw Hx Hraw IH]; intros st Hst; [done |].
  simpl. apply IH. by apply countWork_shape.
Qed.

Lemma rawWorks_nonneg works accepted : Forall (fun x => 0 <= x) (rawWorks works accepted).
Proof. apply Forall_map, Forall_forall. intros n _. apply rawWorkOf_nonneg. Qed.

(** X12: how the distributor of a later day fails.  An error of the
    aggregation check comes back wrapped as not ready; with fewer counted
    works than the threshold, or with a zero average, it returns the error
    not valid; with a threshold of at most two met by one or two counted
    works it ends in a panic, of the subtraction or of the division by
    [valid - 2]. *)
Theorem distribute_failures (node : Node.t) (accepted : list CNode.t) (base timestamp : Z)
    (works : gmap string (N * N)) (spaces : gmap string (list RoundSpace.t)) :
  let epoch := Node.Epoch node `div` dayNanos in
  let day := timestamp `div` dayNanos in
  let thr := int (Node.ConsensusThreshold node timestamp false) in
  let cids := map CNode.IdForNetwork accepted in
  let st := workStats (rawWorks works accepted) in
  let invalid :=
    Errorf "distributeKernelMintByWorks not valid %d %d %d %d"
      [VInt day; VInt (Z.of_nat (length accepted)); VInt thr; VInt (valid st)] in
  epoch <= day -> uint64 (day - epoch) <> 0 ->
  (forall e,
     validateWorksAndSpacesAggregator node cids thr day = Err e ->
     distributeKernelMintByWorks node accepted base timestamp
     = Err (Errorf "distributeKernelMintByWorks not ready yet %d %v" [VInt day; VErr e])) /\
  (validateWorksAndSpacesAggregator node cids thr day = Ret tt ->
   Store.ListNodeWorks (Node.persistStore node) cids (uint32 (uint32 day - 1)) = Ok works ->
   ListRoundSpaces node cids (uint64 (day - 1)) = Ret spaces ->
   (valid st < thr -> distributeKernelMintByWorks node accepted base timestamp = Err invalid) /\
   (thr <= valid st -> 1 <= valid st <= 2 ->
    exists e, distributeKernelMintByWorks node accepted base timestamp = Panic e) /\
   (thr <= valid st -> 2 < valid st -> averageWork st = 0 ->
    distributeKernelMintByWorks node accepted base timestamp = Err invalid)).
Proof.
  intros epoch day thr cids st invalid Hepoch Hday. split.
  - intros e Hvalidate. unfold distributeKernelMintByWorks. fold epoch day thr cids.
    destruct (Z.ltb_spec day epoch); [lia |].
    destruct (Z.eqb_spec (uint64 (day - epoch)) 0); [done |].
    by rewrite Hvalidate.
  - intros Hvalidate Hworks Hspaces.
    rewrite (distribute_steps node accepted base timestamp works spaces) by done.
    fold epoch day thr cids st invalid.
    pose proof (workStats_shape _ (rawWorks_nonneg works accepted)) as Hshape.
    fold st in Hshape. unfold statsShape in Hshape.
    split; [| split].
    + intros Hlt. by destruct (Z.ltb_spec (valid st) thr); [| lia].
    + intros Hthr Hv. destruct (Z.ltb_spec (valid st) thr); [lia |].
      destruct Hshape as [?|[(Hone & Hmin & Hmax & Htot)|(Htwo & Hmin & Hmax & Htot)]];
        [lia | |].
      * rewrite Htot, Sub_le, bind_Ret, Z.sub_diag by lia.
        unfold Integer.Sub. destruct (Z.ltb_spec 0 (maxW st)); [| lia]. by eexists.
      * rewrite Sub_le, bind_Ret, Sub_le, bind_Ret by lia.
        assert (valid st - 2 = 0) as -> by lia. unfold Integer.Div. by eexists.
    + intros Hthr Hv Havg. destruct (Z.ltb_spec (valid st) thr); [lia |].
      destruct Hshape as [?|[?|(Htwo & Hmin & Hmax & Htot)]]; [lia.. |].
      rewrite Sub_le, bind_Ret, Sub_le, bind_Ret, Div_pos, bind_Ret by lia.
      fold (averageWork st). by rewrite Havg.
Qed.

(** X13: the distributor of a later day returns the shares whenever the
    aggregation check passes, the store answers, at least three works and
    at least the threshold are counted, and the average is seven units or
    more; it keeps the accepted nodes in their order. *)
Theorem distribute_succeeds (node : Node.t) (accepted : list CNode.t) (base timestamp : Z)
    (works : gmap string (N * N)) (spaces : gmap string (list RoundSpace.t)) :
  let epoch := Node.Epoch node `div` dayNanos in
  let day := timestamp `div` dayNanos in
  let thr := int (Node.ConsensusThreshold node timestamp false) in
  let cids := map CNode.IdForNetwork accepted in
  let st := workStats (rawWorks works accepted) in
  epoch <= day -> uint64 (day - epoch) <> 0 ->
  validateWorksAndSpacesAggregator node cids thr day = Ret tt ->
  Store.ListNodeWorks (Node.persistStore node) cids (uint32 (uint32 day - 1)) = Ok works ->
  ListRoundSpaces node cids (uint64 (day - 1)) = Ret spaces ->
  thr <= valid st -> 2 < valid st -> 7 <= averageWork st ->
  exists mints,
    distributeKernelMintByWorks node accepted base timestamp = Ret mints /\
    map CNodeWork.CNode mints = accepted.
Proof.
  intros epoch day thr cids st Hepoch Hday Hvalidate Hworks Hspaces Hthr Hv Havg.
  rewrite (distribute_steps node accepted base timestamp works spaces) by done.
  fold epoch day thr cids st.
  pose proof (workStats_shape _ (rawWorks_nonneg works accepted)) as Hshape.
  fold st in Hshape. unfold statsShape in Hshape.
  destruct (Z.ltb_spec (valid st) thr); [lia |].
  destruct Hshape as [?|[?|(Htwo & Hmin & Hmax & Htot)]]; [lia.. |].
  rewrite Sub_le, bind_Ret, Sub_le, bind_Ret, Div_pos, bind_Ret by lia.
  fold (averageWork st). set (avg := averageWork st) in *.
  destruct (Z.eqb_spec avg 0); [lia |].
  assert (accepted <> []) as Hne.
  { intros ->. subst st. simpl in Hv. lia. }
  assert (0 < sumZ (map (clamp avg) (rawWorks works accepted))) as Htotal.
  { assert (Forall (fun c => 1 <= c) (map (clamp avg) (rawWorks works accepted))) as Hcl.
    { apply Forall_map, Forall_forall. intros x _.
      destruct (clamp_monotone avg x x ltac:(lia) ltac:(lia)) as [Hlow _].
      assert (1 <= avg `div` 7) by (apply Z.div_le_lower_bound; lia). lia. }
    destruct (map (clamp avg) (rawWorks works accepted)) as [|c clamped] eqn:Hmap.
    { apply (f_equal length) in Hmap. unfold rawWorks in Hmap.
      rewrite !length_map in Hmap. by destruct accepted. }
    apply Forall_cons in Hcl as [Hc Hrest].
    assert (0 <= sumZ clamped).
    { apply sumZ_nonneg. eapply Forall_impl; [exact Hrest |]. simpl. lia. }
    simpl. lia. }
  rewrite mapM_share by lia. eexists. split; [reflexivity |].
  rewrite !map_map. simpl. apply map_id.
Qed.


(** ** The aggregation check and the store listings *)

Lemma count_works (works : gmap string (N * N)) :
  map_fold (fun _ (w : N * N) n => if 0 <? Z.of_N w.1 then n + 1 else n) 0 works
  = Z.of_nat (size (filter (fun kw : string * (N * N) => (0 < kw.2.1)%N) works)).
Proof.
  apply (map_fold_weak_ind
           (fun r (m : gmap string (N * N)) =>
              r = Z.of_nat (size (filter (fun kw : string * (N * N) => (0 < kw.2.1)%N) m)))).
  - by rewrite map_filter_empty, map_size_empty.
  - intros i x m r Hi ->. destruct (Z.ltb_spec 0 (Z.of_N x.1)) as [Hx|Hx].
    + rewrite map_filter_insert_True by (simpl; lia).
      rewrite map_size_insert_None; [lia |].
      apply map_lookup_filter_None. by left.
    + rewrite map_filter_insert_not'; [done | simpl; lia |].
      intros y Hy. congruence.
Qed.

Lemma count_spaces batch (spaces : list RoundSpace.t) n :
  foldl (fun n s => if batch <=? RoundSpace.Batch s then n + 1 else n) n spaces
  = n + Z.of_nat (length (filter (fun s => batch <= RoundSpace.Batch s) spaces)).
Proof.
  revert n. induction spaces as [|s spaces IH]; intros n; simpl; [lia |].
  rewrite IH, filter_cons.
  destruct (Z.leb_spec batch (RoundSpace.Batch s)); destruct (decide _); simpl; lia.
Qed.

(** X14: the aggregation check passes exactly when the store lists the
    works of the day and the checkpoints, at least [thr] nodes have produced
    in the day, and as many checkpoints have reached the batch of the day as
    nodes have produced; it never panics. *)
Theorem validator_accepts_iff (node : Node.t) (cids : list Hash) (thr day : Z) :
  let batch := uint64 (day - Node.Epoch node `div` dayNanos) in
  (validateWorksAndSpacesAggregator node cids thr day = Ret tt <->
   exists works spaces,
     Store.ListNodeWorks (Node.persistStore node) cids (uint32 day) = Ok works /\
     Store.ListAggregatedRoundSpaceCheckpoints (Node.persistStore node) cids = Ok spaces /\
     let worked := size (filter (fun kw : string * (N * N) => (0 < kw.2.1)%N) works) in
     let reached := length (filter (fun s => batch <= RoundSpace.Batch s) spaces) in
     thr <= Z.of_nat worked /\ worked = reached) /\
  (forall e, validateWorksAndSpacesAggregator node cids thr day <> Panic e).
Proof.
  intros batch. unfold validateWorksAndSpacesAggregator. fold batch.
  destruct (Store.ListNodeWorks _ _ _) as [works|e].
  2: { split; [| done]. split; [done |]. by intros (? & ? & ? & _). }
  simpl call. rewrite bind_Ret, count_works.
  set (worked := size _).
  destruct (Z.ltb_spec (Z.of_nat worked) thr) as [Hlt|Hge].
  { split; [| done]. split; [done |].
    intros (works' & ? & [= <-] & _ & Hthr & _). fold worked in Hthr. lia. }
  destruct (Store.ListAggregatedRoundSpaceCheckpoints _ _) as [spaces|e].
  2: { split; [| done]. split; [done |]. by intros (? & ? & _ & ? & _). }
  simpl call. rewrite bind_Ret, count_spaces, Z.add_0_l.
  set (reached := length _).
  destruct (Z.ltb_spec (Z.of_nat reached) thr) as [Hlt'|Hge']; simpl.
  { split; [| done]. split; [done |].
    intros (works' & spaces' & [= <-] & [= <-] & Hthr & Heq).
    fold worked reached in Hthr, Heq. lia. }
  destruct (Z.eqb_spec (Z.of_nat worked) (Z.of_nat reached)) as [Heq|Hne]; simpl.
  - split; [| done]. split; [| done]. intros _. exists works, spaces.
    do 2 (split; [done |]). fold worked reached. split; lia.
  - split; [| done]. split; [done |].
    intros (works' & spaces' & [= <-] & [= <-] & Hthr & Heq).
    fold worked reached in Hthr, Heq. lia.
Qed.

Section RoundSpaces.

Variable read : Hash -> result (list RoundSpace.t).

Let step (acc : run (gmap string (list RoundSpace.t))) (id : Hash) :=
  spaces ← acc; ns ← call (read id); mret (<[id := ns]> spaces).

Lemma spaces_foldl_Err e cids : foldl step (Err e) cids = Err e.
Proof. induction cids as [|id cids IH]; [done | apply IH]. Qed.

Lemma spaces_foldl_Ret cids m spaces :
  foldl step (Ret m) cids = Ret spaces ->
  (forall id, id ∈ cids -> exists ns, read id = Ok ns /\ spaces !! id = Some ns) /\
  (forall id, id ∉ cids -> spaces !! id = m !! id).
Proof.
  revert m. induction cids as [|id0 cids IH]; intros m Hrun.
  - injection Hrun as <-. split; [| done]. intros id Hid. by apply elem_of_nil in Hid.
  - simpl in Hrun.
    destruct (read id0) as [ns0|e] eqn:Hread; simpl in Hrun;
      [| by rewrite spaces_foldl_Err in Hrun].
    destruct (IH _ Hrun) as [Hin Hout]. split.
    + intros id Hid. destruct (decide (id ∈ cids)) as [Hc|Hc]; [by apply Hin |].
      apply elem_of_cons in Hid as [->|Hid]; [| done].
      exists ns0. split; [done |]. by rewrite Hout, lookup_insert_eq.
    + intros id Hid. apply not_elem_of_cons in Hid as [Hne Hid].
      by rewrite Hout, lookup_insert_ne.
Qed.

Lemma spaces_foldl_all cids m :
  (forall id, id ∈ cids -> exists ns, read id = Ok ns) ->
  exists spaces, foldl step (Ret m) cids = Ret spaces.
Proof.
  revert m. induction cids as [|id0 cids IH]; intros m Hall; [by eexists |].
  simpl.
  destruct (Hall id0 ltac:(left)) as [ns0 ->]. simpl.
  apply IH. intros id Hid. apply Hall. by right.
Qed.

Lemma spaces_foldl_fails cids m id e :
  id ∈ cids -> read id = Failed e ->
  exists id' e', id' ∈ cids /\ read id' = Failed e' /\ foldl step (Ret m) cids = Err e'.
Proof.
  revert m. induction cids as [|id0 cids IH]; intros m Hid Hread.
  - by apply elem_of_nil in Hid.
  - simpl.
    destruct (read id0) as [ns0|e0] eqn:Hread0; simpl.
    + apply elem_of_cons in Hid as [->|Hid]; [congruence |].
      destruct (IH (<[id0 := ns0]> m) Hid Hread) as (id' & e' & Hin & Hfail & Hrun).
      exists id', e'. split; [by right | done].
    + exists id0, e0. split; [by left |]. split; [done |]. apply spaces_foldl_Err.
Qed.

End RoundSpaces.

(** X15: [ListRoundSpaces] returns a map that holds, for exactly the ids
    asked for, the spaces the store has for the batch of the day since the
    epoch; it returns one whenever the store answers for every id, and the
    error of a failed read otherwise. *)
Theorem ListRoundSpaces_lookup (node : Node.t) (cids : list Hash) (day : Z) :
  let batch := uint64 (day - Node.Epoch node `div` dayNanos) in
  let read := fun id => Store.ReadNodeRoundSpacesForBatch (Node.persistStore node) id batch in
  (forall spaces,
     ListRoundSpaces node cids day = Ret spaces ->
     (forall id, id ∈ cids -> exists ns, read id = Ok ns /\ spaces !! id = Some ns) /\
     (forall id, id ∉ cids -> spaces !! id = None)) /\
  ((forall id, id ∈ cids -> exists ns, read id = Ok ns) ->
   exists spaces, ListRoundSpaces node cids day = Ret spaces) /\
  (forall id e,
     id ∈ cids -> read id = Failed e ->
     exists id' e',
       id' ∈ cids /\ read id' = Failed e' /\ ListRoundSpaces node cids day = Err e').
Proof.
  intros batch read. unfold ListRoundSpaces. fold batch. split; [| split].
  - intros spaces Hrun. destruct (spaces_foldl_Ret read cids ∅ spaces Hrun) as [Hin Hout].
    split; [done |]. intros id Hid. by rewrite Hout.
  - apply spaces_foldl_all.
  - intros id e. apply spaces_foldl_fails.
Qed.

(** X16: while [Epoch + batch] days does not overflow, [ListMintWorks]
    lists the works of day [Epoch / day + batch] for the nodes accepted at
    that time; it is the listing the distributor reads at a timestamp of
    the following day, when the accepted nodes are the same. *)
Theorem ListMintWorks_day (node : Node.t) (batch : Z) :
  0 <= Node.Epoch node -> 0 <= batch -> Node.Epoch node + batch * dayNanos < 2 ^ 64 ->
  let now := Node.Epoch node + batch * dayNanos in
  let accepted := Node.NodesListWithoutState node now true in
  ListMintWorks node batch
  = Store.ListNodeWorks (Node.persistStore node) (map CNode.IdForNetwork accepted)
      (uint32 (Node.Epoch node `div` dayNanos + batch)) /\
  forall timestamp,
    timestamp `div` dayNanos = Node.Epoch node `div` dayNanos + batch + 1 ->
    Node.NodesListWithoutState node timestamp true = accepted ->
    ListMintWorks node batch
    = Store.ListNodeWorks (Node.persistStore node)
        (map CNode.IdForNetwork (Node.NodesListWithoutState node timestamp true))
        (uint32 (uint32 (timestamp `div` dayNanos) - 1)).
Proof.
  intros He Hb Hnow now accepted.
  assert (ListMintWorks node batch
          = Store.ListNodeWorks (Node.persistStore node) (map CNode.IdForNetwork accepted)
              (uint32 (Node.Epoch node `div` dayNanos + batch))) as Heq.
  { unfold ListMintWorks, uint64. cbv zeta.
    assert (0 <= batch * dayNanos) by (unfold dayNanos; lia).
    rewrite (Z.mod_small (batch * dayNanos)), Z.mod_small by lia.
    by rewrite Z.div_add by (unfold dayNanos; lia). }
  split; [done |]. intros timestamp Hday Hsame. rewrite Heq, Hsame, Hday.
  f_equal. unfold uint32.
  rewrite Zminus_mod_idemp_l. f_equal. lia.
Qed.


(** ** The universal builder and the slash of the legacy light pool *)

Lemma distribute_keeps_nodes node accepted base timestamp mints :
  distributeKernelMintByWorks node accepted base timestamp = Ret mints ->
  map CNodeWork.CNode mints = accepted.
Proof.
  intros Hrun.
  destruct (decide (uint64 (timestamp `div` dayNanos - Node.Epoch node `div` dayNanos) = 0))
    as [Hday|Hday].
  - unfold distributeKernelMintByWorks in Hrun. rewrite Hday in Hrun.
    destruct (_ <? _); [done |]. change (0 =? 0) with true in Hrun. cbv iota in Hrun.
    destruct (Integer.Div base _) as [work| |]; [| done..]. injection Hrun as <-.
    rewrite !map_map. simpl. apply map_id.
  - destruct (distribute_works node accepted base timestamp mints Hrun Hday)
      as (works & _ & _ & _ & _ & _ & _ & _ & ->).
    rewrite map_map. simpl. apply map_id.
Qed.

(** X17: a transaction the universal builder returns pays the accepted
    nodes, one output each, at most five tenths of the amount of the gate in
    all, then four tenths to the custodian, then the rest, which is at
    least one tenth, to the light account. *)
Theorem universal_mint_split (node : Node.t)
    (custodianRequest : option CustodianUpdateRequest.t) (timestamp : Z) (validateOnly : bool)
    (ver : VersionedTransaction.t) :
  buildUniversalMintTransaction node custodianRequest timestamp validateOnly = Ret (Some ver) ->
  exists (batch amount : Z) (kernel : list Z) (safe light : Z),
    checkUniversalMintPossibility node timestamp validateOnly = Ret (batch, amount) /\
    0 < amount /\
    outputAmounts (VersionedTransaction.Transaction ver) = kernel ++ [safe; light] /\
    length kernel = length (Node.NodesListWithoutState node timestamp true) /\
    Forall (fun work => 0 <= work) kernel /\
    sumZ kernel <= amount `div` 10 * 5 /\
    safe = amount `div` 10 * 4 /\
    amount `div` 10 <= light.
Proof.
  intros Hrun.
  destruct (buildUniversal_sound node custodianRequest timestamp validateOnly) as [_ Hsound].
  destruct (Hsound ver Hrun)
    as (batch & amount & mints & mint & Hgate & Hdist & Hsum & Hmint & Hle & Houts & _).
  assert (0 < amount) as Hpos.
  { unfold buildUniversalMintTransaction in Hrun. rewrite Hgate, bind_Ret in Hrun.
    cbv beta iota in Hrun. rewrite Sign_nonpos in Hrun.
    destruct (Z.leb_spec amount 0); [done | lia]. }
  pose proof (half_bounds amount 5 ltac:(lia) ltac:(lia)) as Hkernel.
  exists batch, amount, (map CNodeWork.Work mints), (amount `div` 10 * 4),
    (MintData.Amount mint - (sumZ (map CNodeWork.Work mints) + amount `div` 10 * 4)).
  unfold Integer.Mul in *.
  split; [done |]. split; [done |]. split; [done |].
  split.
  { rewrite length_map, <- (distribute_keeps_nodes _ _ _ _ _ Hdist). by rewrite length_map. }
  split; [by apply (distribute_nonneg _ _ _ _ _ (proj1 Hkernel) Hdist) |].
  split; [done |]. split; [done |].
  pose proof (Z.mul_div_le amount 10 ltac:(lia)). lia.
Qed.

Lemma length_outputs_addWorkOutput batch script mints tx total :
  length (Transaction.Outputs (foldl (addWorkOutput batch script) (tx, total) mints).1)
  = (length (Transaction.Outputs tx) + length mints)%nat.
Proof.
  revert tx total. induction mints as [|m mints IH]; intros tx total; simpl; [lia |].
  rewrite IH. simpl. rewrite length_app. simpl. lia.
Qed.

(** X18: the universal builder returns a transaction whenever the gate
    grants a positive amount for a positive batch, the distributor returns
    shares that are at most the kernel part, the store has a domain, and
    the node is off mainnet or the batch is before the V3 fork; without a
    domain it ends in a panic. *)
Theorem universal_mint_built (node : Node.t)
    (custodianRequest : option CustodianUpdateRequest.t) (timestamp : Z) (validateOnly : bool)
    (batch amount : Z) (mints : list CNodeWork.t) :
  checkUniversalMintPossibility node timestamp validateOnly = Ret (batch, amount) ->
  0 < amount -> 0 < batch ->
  distributeKernelMintByWorks node (Node.NodesListWithoutState node timestamp true)
    (Integer.Mul (amount `div` 10) 5) timestamp = Ret mints ->
  (Store.ReadDomains (Node.persistStore node) = [] ->
   exists e,
     buildUniversalMintTransaction node custodianRequest timestamp validateOnly = Panic e) /\
  (Store.ReadDomains (Node.persistStore node) <> [] ->
   Node.isMainnet node = false \/ uint64 batch < MainnetMintTransactionV3ForkBatch ->
   exists ver,
     buildUniversalMintTransaction node custodianRequest timestamp validateOnly
     = Ret (Some ver) /\
     firstMint (VersionedTransaction.Transaction ver)
     = Ret {| MintData.Group := "UNIVERSAL"; MintData.Batch := uint64 batch;
              MintData.Amount := amount |} /\
     length (Transaction.Outputs (VersionedTransaction.Transaction ver))
     = (length mints + 2)%nat).
Proof.
  intros Hgate Hamount Hbatch Hdist.
  pose proof (half_bounds amount 5 ltac:(lia) ltac:(lia)) as Hkernel.
  pose proof (half_bounds amount 9 ltac:(lia) ltac:(lia)) as Hsafe.
  pose proof (distribute_sum_le _ _ _ _ _ (proj1 Hkernel) Hdist) as Hsum.
  unfold Integer.Mul in Hsum.
  unfold buildUniversalMintTransaction.
  generalize (NewAddressFromSeed (zeroBytes 64)). intros light.
  rewrite Hgate, bind_Ret. cbv beta iota. rewrite Sign_nonpos.
  destruct (Z.leb_spec amount 0); [lia |]. destruct (Z.leb_spec batch 0); [lia |].
  cbn [orb]. rewrite Div_pos, bind_Ret by lia. rewrite Hdist.
  pose proof (length_outputs_addWorkOutput batch (NewThresholdScript 1) mints
                (AddUniversalMintInput (NewTransaction XINAssetId) (uint64 batch) amount)
                (NewInteger 0)) as Hlen.
  destruct (foldl_addWorkOutput batch (NewThresholdScript 1) mints
              (AddUniversalMintInput (NewTransaction XINAssetId) (uint64 batch) amount)
              (NewInteger 0)) as (tx & Hfold & Hmint & Htotal).
  rewrite Hfold in Hlen |- *. cbn [fst] in Hlen.
  rewrite NewInteger_zero, Z.add_0_l, Cmp_pos.
  destruct (Z.ltb_spec amount (sumZ (map CNodeWork.Work mints))); [lia |].
  rewrite !bind_Ret.
  destruct (Store.ReadDomains _) as [|domain ?]; (split; [intros Hd | intros Hd Hfork]);
    [by eexists | done | done |].
  rewrite Cmp_pos. unfold Integer.Add, Integer.Mul.
  destruct (Z.ltb_spec amount (sumZ (map CNodeWork.Work mints) + amount `div` 10 * 4));
    [lia |].
  unfold tryToSlashLegacyLightPool.
  assert (negb (Node.isMainnet node) || (uint64 batch <? MainnetMintTransactionV3ForkBatch)
          = true) as ->.
  { destruct Hfork as [->|Hfork]; [done |].
    destruct (Z.ltb_spec (uint64 batch) MainnetMintTransactionV3ForkBatch); [| lia].
    apply orb_true_r. }
  unfold mret at 1, run_mret. rewrite bind_Ret, firstMint_AddScriptOutput, Hmint.
  assert (firstMint (AddUniversalMintInput (NewTransaction XINAssetId) (uint64 batch) amount)
          = Ret {| MintData.Group := "UNIVERSAL"; MintData.Batch := uint64 batch;
                   MintData.Amount := amount |}) as Hfirst by reflexivity.
  rewrite Hfirst, bind_Ret. cbn [MintData.Amount].
  rewrite Sub_le, bind_Ret by lia.
  eexists. split; [reflexivity |]. unfold AsVersioned. cbn [VersionedTransaction.Transaction].
  rewrite !firstMint_AddScriptOutput, Hmint. split; [done |].
  cbn [AddScriptOutput Transaction.Outputs]. rewrite !length_app, Hlen. simpl. lia.
Qed.

(** X19: the slash of the legacy light pool leaves the transaction alone
    off mainnet and before the V3 fork; from the fork on, with the previous
    distribution read back, it leaves it alone when the groups agree and
    otherwise adds to the mint input the legacy pool less the universal
    pool of the previous batch, a subtraction that cannot fail; a previous
    distribution of another batch, or none, is fatal. *)
Theorem slash_legacy_light_pool (node : Node.t) (batch : Z) (tx : Transaction.t)
    (mint : MintData.t) :
  firstMint tx = Ret mint ->
  let previous :=
    Store.ReadMintDistributions (Node.persistStore node) (uint64 (batch - 1)) 1 in
  (Node.isMainnet node = false \/ batch < MainnetMintTransactionV3ForkBatch ->
   tryToSlashLegacyLightPool node batch tx = Ret tx) /\
  (Node.isMainnet node = true -> MainnetMintTransactionV3ForkBatch <= batch ->
   (previous = [] -> exists e, tryToSlashLegacyLightPool node batch tx = Panic e) /\
   (forall last rest,
      previous = last :: rest ->
      (uint64 (MintDistribution.Batch last + 1) <> batch ->
       exists e, tryToSlashLegacyLightPool node batch tx = Panic e) /\
      (uint64 (MintDistribution.Batch last + 1) = batch ->
       MintDistribution.Group last = MintData.Group mint ->
       tryToSlashLegacyLightPool node batch tx = Ret tx) /\
      (uint64 (MintDistribution.Batch last + 1) = batch ->
       MintDistribution.Group last <> MintData.Group mint ->
       exists universal legacy : Z,
         poolSizeUniversal (int (MintDistribution.Batch last)) = Ret universal /\
         poolSizeLegacy (int (MintDistribution.Batch last)) = Ret legacy /\
         universal <= legacy /\
         tryToSlashLegacyLightPool node batch tx
         = Ret (setMintAmount tx (MintData.Amount mint + (legacy - universal)))))).
Proof.
  intros Hmint previous. unfold tryToSlashLegacyLightPool. fold previous. split.
  - intros [->|Hb]; [done |].
    destruct (Z.ltb_spec batch MainnetMintTransactionV3ForkBatch); [| lia].
    by rewrite orb_true_r.
  - intros -> Hb. destruct (Z.ltb_spec batch MainnetMintTransactionV3ForkBatch); [lia |].
    cbn [negb orb]. rewrite Hmint, bind_Ret. split.
    + intros ->. by eexists.
    + intros last rest ->. split; [| split].
      * intros Hne. destruct (Z.eqb_spec (uint64 (MintDistribution.Batch last + 1)) batch);
          [done |]. by eexists.
      * intros Heq Hgroup. rewrite Heq, Z.eqb_refl. cbn [negb].
        by rewrite Hgroup, String.eqb_refl.
      * intros Heq Hgroup. rewrite Heq, Z.eqb_refl. cbn [negb].
        destruct (String.eqb_spec (MintDistribution.Group last) (MintData.Group mint));
          [done |].
        destruct (poolSize_bounds (int (MintDistribution.Batch last)))
          as (u & l & Hu & Hl & _ & Hul & _).
        exists u, l. rewrite Hu, Hl, !bind_Ret, Sub_le, bind_Ret by done. done.
Qed.


(** ** Validation of a mint snapshot *)

Lemma gateDistribution_mint_mode node batch perBatch b a :
  gateDistribution node false batch perBatch = Ret (b, a) ->
  (b, a) = (0, Zero) \/ gateDistribution node true batch perBatch = Ret (b, a).
Proof.
  unfold gateDistribution, noMint.
  destruct (Store.ReadLastMintDistribution _ _) as [dist|e]; [| intros [= <- <-]; by left].
  destruct (_ <? _); [intros [= <- <-]; by left |].
  destruct (_ =? _); [intros [= <- <-]; by left |]. by right.
Qed.

Lemma checkUniversal_mint_mode node timestamp b a :
  checkUniversalMintPossibility node timestamp false = Ret (b, a) ->
  (b, a) = (0, Zero) \/ checkUniversalMintPossibility node timestamp true = Ret (b, a).
Proof.
  unfold checkUniversalMintPossibility, noMint. cbv zeta.
  destruct (_ <=? _); [intros [= <- <-]; by left |].
  destruct (_ <? 1); [intros [= <- <-]; by left |].
  destruct (_ || _); [intros [= <- <-]; by left |].
  destruct (for_lt _ _ _) as [pool| |]; [| done..]. rewrite !bind_Ret.
  destruct (Integer.Div pool _) as [tenth| |]; [| done..]. rewrite !bind_Ret.
  destruct (Integer.Div tenth _) as [total| |]; [| done..]. rewrite !bind_Ret.
  apply gateDistribution_mint_mode.
Qed.

Lemma checkLegacy_mint_mode node timestamp b a :
  checkLegacyMintPossibility node timestamp false = Ret (b, a) ->
  (b, a) = (0, Zero) \/ checkLegacyMintPossibility node timestamp true = Ret (b, a).
Proof.
  unfold checkLegacyMintPossibility, noMint. cbv zeta.
  destruct (_ <=? _); [intros [= <- <-]; by left |].
  destruct (_ <? 1); [intros [= <- <-]; by left |].
  destruct (_ || _); [intros [= <- <-]; by left |].
  destruct (for_lt _ _ _) as [pool| |]; [| done..]. rewrite !bind_Ret.
  destruct (Integer.Div pool _) as [tenth| |]; [| done..]. rewrite !bind_Ret.
  destruct (Integer.Div tenth _) as [total| |]; [| done..]. rewrite !bind_Ret.
  destruct (Integer.Div total _) as [light| |]; [| done..]. rewrite !bind_Ret.
  apply gateDistribution_mint_mode.
Qed.

Lemma buildUniversal_mint_mode node custodianRequest timestamp built :
  buildUniversalMintTransaction node custodianRequest timestamp false = Ret (Some built) ->
  buildUniversalMintTransaction node custodianRequest timestamp true = Ret (Some built).
Proof.
  unfold buildUniversalMintTransaction.
  destruct (checkUniversalMintPossibility node timestamp false) as [[b a]| |] eqn:Egate;
    [| done..].
  destruct (checkUniversal_mint_mode _ _ _ _ Egate) as [Hzero|Hsame];
    [injection Hzero as -> -> | by rewrite Hsame].
  rewrite bind_Ret. cbv beta iota. by rewrite Sign_nonpos, NewInteger_zero.
Qed.

Lemma buildLegacy_mint_mode node timestamp built :
  0 <= Node.Epoch node -> 0 <= timestamp < 2 ^ 64 ->
  MainnetMintTransactionV2ForkBatch
  <= ((timestamp - Node.Epoch node) `div` 3600000000000) `div` 24 ->
  buildLegacyKerneNodeMintTransaction node timestamp false = Ret (Some built) ->
  buildLegacyKerneNodeMintTransaction node timestamp true = Ret (Some built).
Proof.
  intros He Ht Hfork. unfold buildLegacyKerneNodeMintTransaction.
  destruct (checkLegacyMintPossibility node timestamp false) as [[b a]| |] eqn:Egate;
    [| done..].
  destruct (checkLegacy_mint_mode _ _ _ _ Egate) as [Hzero|Hsame].
  { injection Hzero as -> ->.
    rewrite bind_Ret. cbv beta iota. by rewrite Sign_nonpos, NewInteger_zero. }
  rewrite Hsame.
  rewrite !bind_Ret. cbv beta iota.
  destruct (_ || _) eqn:Hnone; [done |].
  destruct (negb _ && _); [done |].
  rewrite checkLegacy_spec in Egate by done.
  assert (b = ((timestamp - Node.Epoch node) `div` 3600000000000) `div` 24) as ->.
  { apply orb_false_elim in Hnone as [_ Hb]. apply Z.leb_gt in Hb.
    destruct (_ || _); [injection Egate as <- _; lia |].
    destruct (gateDistribution_cases node false
                (((timestamp - Node.Epoch node) `div` 3600000000000) `div` 24)
                (legacyFull (((timestamp - Node.Epoch node) `div` 3600000000000) `div` 24)))
      as (b' & a' & Hd & [[-> _] | ->] & _); rewrite Hd in Egate; injection Egate as <- _;
      [lia | done]. }
  destruct (Z.ltb_spec (((timestamp - Node.Epoch node) `div` 3600000000000) `div` 24)
              MainnetMintTransactionV2ForkBatch); [lia |].
  by rewrite andb_false_r.
Qed.

(** X20: a transaction a builder returns for minting at a timestamp is
    accepted when a snapshot of that timestamp carries a transaction of the
    same payload hash and the store is unchanged: for the universal
    builder always, for the legacy builder from the V2 fork on. *)
Theorem validate_accepts_minted (node : Node.t) (now : Z) (snap : Snapshot.t)
    (tx built : VersionedTransaction.t) (cur : option CustodianUpdateRequest.t) :
  let timestamp :=
    if (Snapshot.Timestamp snap =? 0)
       && String.eqb (Snapshot.NodeId snap) (Node.IdForNetwork node)
    then uint64 now else Snapshot.Timestamp snap in
  ReadCustodian (Node.persistStore node) timestamp = Ok cur ->
  PayloadHash tx = PayloadHash built ->
  (cur <> None \/ Node.isMainnet node = false ->
   buildUniversalMintTransaction node cur timestamp false = Ret (Some built) ->
   validateMintSnapshot node now snap tx = Ret tt) /\
  (cur = None -> Node.isMainnet node = true ->
   0 <= Node.Epoch node -> 0 <= timestamp < 2 ^ 64 ->
   MainnetMintTransactionV2ForkBatch
   <= ((timestamp - Node.Epoch node) `div` 3600000000000) `div` 24 ->
   buildLegacyKerneNodeMintTransaction node timestamp false = Ret (Some built) ->
   validateMintSnapshot node now snap tx = Ret tt).
Proof.
  intros timestamp Hcur Hhash. unfold validateMintSnapshot. fold timestamp.
  rewrite Hcur. simpl call. rewrite bind_Ret. split.
  - intros Hdispatch Hbuilt. apply buildUniversal_mint_mode in Hbuilt.
    assert (bool_decide (cur = None) && Node.isMainnet node = false) as ->.
    { destruct Hdispatch as [Hc| ->]; [| apply andb_false_r].
      by rewrite bool_decide_eq_false_2. }
    rewrite Hbuilt, bind_Ret. cbv beta iota. unfold mret, run_mret. rewrite bind_Ret.
    by rewrite Hhash, String.eqb_refl.
  - intros -> -> He Ht Hfork Hbuilt. apply buildLegacy_mint_mode in Hbuilt; [| done..].
    rewrite bool_decide_eq_true_2 by done. cbn [andb].
    rewrite Hbuilt, bind_Ret. cbv beta iota. unfold mret, run_mret. rewrite bind_Ret.
    by rewrite Hhash, String.eqb_refl.
Qed.





(** ** The genesis loader *)

Lemma checkGenesisNodes_calm inputsFilter nodes e :
  checkGenesisNodes inputsFilter nodes <> Panic e.
Proof.
  induction nodes as [|input nodes IH]; [done |]. simpl.
  unfold checkGenesisNode. cbv zeta.
  destruct (NewAddressFromString _); simpl call; [| done]. rewrite bind_Ret.
  destruct (_ <? _); [done |]. destruct (default _ _); [done |].
  destruct (negb _); [done |]. unfold mret, run_mret. by rewrite bind_Ret.
Qed.

Lemma readGenesis_calm path e : readGenesis path <> Panic e.
Proof.
  unfold readGenesis.
  destruct (ReadFile path) as [f|]; simpl call; [| done]. rewrite bind_Ret.
  destruct (jsonUnmarshal f) as [gns|]; simpl call; [| done]. rewrite bind_Ret.
  destruct (negb _); [done |].
  pose proof (checkGenesisNodes_calm ∅ (Genesis.Nodes gns)) as Hcalm.
  destruct (checkGenesisNodes _ _) as [[]| |e0]; [done.. |]. by destruct (Hcalm e0).
Qed.

(** X22: [readGenesis] returns the parsed genesis exactly for a file that
    parses into seven nodes, each with an address the codec reads back, a
    balance of at least the pledge and the view key derived from its spend
    key; any other number of nodes gives the error with both numbers; it
    never panics. *)
Theorem readGenesis_accepts_iff (path : string) :
  (forall gns,
     readGenesis path = Ret gns <->
     exists f,
       ReadFile path = Ok f /\ jsonUnmarshal f = Ok gns /\
       length (Genesis.Nodes gns) = 7%nat /\
       Forall genesisNodeValid (Genesis.Nodes gns)) /\
  (forall f gns,
     ReadFile path = Ok f -> jsonUnmarshal f = Ok gns ->
     length (Genesis.Nodes gns) <> 7%nat ->
     readGenesis path
     = Err (Errorf "invalid genesis inputs number %d/%d"
              [VInt (Z.of_nat (length (Genesis.Nodes gns))); VInt 7])) /\
  (forall e, readGenesis path <> Panic e).
Proof.
  split; [| split].
  - intros gns. rewrite readGenesis_accepts. unfold MinimumNodeCount.
    split; intros (f & Hf & Hparse & Hlen & Hvalid); exists f; repeat split; (done || lia).
  - intros f gns Hf Hparse Hlen. unfold readGenesis, MinimumNodeCount.
    rewrite Hf. simpl call. rewrite bind_Ret, Hparse. simpl call. rewrite bind_Ret.
    by destruct (Z.eqb_spec (Z.of_nat (length (Genesis.Nodes gns))) 7); [lia |].
  - apply readGenesis_calm.
Qed.

Lemma genesisTransaction_pledged gns i input :
  NewInteger PledgeAmount <= GenesisNode.Balance input ->
  exists tx pledge rest,
    genesisTransaction gns i input = Ret tx /\
    Transaction.Outputs tx = pledge :: rest /\
    Transaction.Inputs tx
    = [{| Input.Hash := zeroBytes 32; Input.Index := i; Input.Mint := None |}] /\
    Transaction.Extra tx = Address.PublicSpendKey (GenesisNode.Address input) /\
    Output.Type_ pledge = OutputTypeNodePledge /\
    Output.Amount pledge = NewInteger PledgeAmount /\
    length (Output.Keys pledge) = length (Genesis.Nodes gns) /\
    Output.Script pledge
    = [OperatorCmp; OperatorSum;
       (int (int (Z.of_nat (length (Genesis.Nodes gns)) * 2) `quot` 3 + 1)) `mod` 256] /\
    (GenesisNode.Balance input = NewInteger PledgeAmount -> rest = []) /\
    (NewInteger PledgeAmount < GenesisNode.Balance input ->
     exists remaining,
       rest = [remaining] /\ Output.Type_ remaining = OutputTypeScript /\
       Output.Amount remaining = GenesisNode.Balance input - NewInteger PledgeAmount /\
       length (Output.Keys remaining) = 1%nat /\
       Output.Script remaining = [OperatorCmp; OperatorSum; 1]) /\
    outputsTotal tx = GenesisNode.Balance input.
Proof.
  intros Hbalance. unfold genesisTransaction. cbv zeta.
  rewrite Sub_le, bind_Ret by done. rewrite Cmp_pos, NewInteger_zero.
  set (pledged := NewInteger PledgeAmount) in *.
  destruct (Z.ltb_spec 0 (GenesisNode.Balance input - pledged)) as [Hrest|Hrest].
  - eexists _, _, _. split; [reflexivity |]. split; [reflexivity |].
    cbn [Transaction.Inputs Transaction.Extra Output.Type_ Output.Amount Output.Keys
         Output.Script].
    do 4 (split; [done |]). split; [by rewrite length_map |]. split; [done |].
    split; [lia |]. split.
    + intros _. eexists. split; [reflexivity |]. done.
    + unfold outputsTotal, outputAmounts. simpl. lia.
  - eexists _, _, _. split; [reflexivity |]. split; [reflexivity |].
    cbn [Transaction.Inputs Transaction.Extra Output.Type_ Output.Amount Output.Keys
         Output.Script].
    do 4 (split; [done |]). split; [by rewrite length_map |]. split; [done |].
    split; [done |]. split; [lia |].
    unfold outputsTotal, outputAmounts. simpl. lia.
Qed.

(** X23: the transaction of a genesis node with at least the pledge as
    balance has the pledge output of 10 000 first, with one key for each
    genesis node, followed by a script output of the rest of the balance
    exactly when there is a rest, so that the outputs add up to the
    balance; a balance below the pledge is fatal. *)
Theorem genesis_transaction_conserves (gns : Genesis.t) (i : Z) (input : GenesisNode.t) :
  (NewInteger PledgeAmount <= GenesisNode.Balance input ->
   exists tx pledge rest,
     genesisTransaction gns i input = Ret tx /\
     Transaction.Outputs tx = pledge :: rest /\
     Output.Type_ pledge = OutputTypeNodePledge /\
     Output.Amount pledge = NewInteger 10000 /\
     length (Output.Keys pledge) = length (Genesis.Nodes gns) /\
     (GenesisNode.Balance input = NewInteger 10000 -> rest = []) /\
     (NewInteger 10000 < GenesisNode.Balance input ->
      exists remaining,
        rest = [remaining] /\ Output.Type_ remaining = OutputTypeScript /\
        Output.Amount remaining = GenesisNode.Balance input - NewInteger 10000 /\
        length (Output.Keys remaining) = 1%nat) /\
     outputsTotal tx = GenesisNode.Balance input) /\
  (GenesisNode.Balance input < NewInteger PledgeAmount ->
   exists e, genesisTransaction gns i input = Panic e).
Proof.
  split.
  - intros Hbalance.
    destruct (genesisTransaction_pledged gns i input Hbalance)
      as (tx & pledge & rest & Htx & Houts & _ & _ & Htype & Hamount & Hkeys & _ & Hnone
          & Hsome & Htotal).
    exists tx, pledge, rest. unfold PledgeAmount in *.
    do 6 (split; [done |]). split; [| done].
    intros Hlt. destruct (Hsome Hlt) as (remaining & ? & ? & ? & ? & _). by exists remaining.
  - intros Hlt. unfold genesisTransaction, Integer.Sub. cbv zeta.
    destruct (Z.ltb_spec (GenesisNode.Balance input) (NewInteger PledgeAmount)); [| lia].
    by eexists.
Qed.

Lemma genesisSnapshots_shape gns networkId i seq nodes seq' snapshots :
  0 <= seq -> seq + Z.of_nat (length nodes) < 2 ^ 64 ->
  genesisSnapshots gns networkId i seq nodes = Ret (seq', snapshots) ->
  seq' = seq + Z.of_nat (length nodes) /\
  forall k input,
    nodes !! k = Some input ->
    exists tx,
      genesisTransaction gns (i + Z.of_nat k) input = Ret tx /\
      snapshots !! k
      = Some {| SnapshotWithTopologicalOrder.Snapshot :=
                  {| Snapshot.NodeId :=
                       ForNetwork (AddressHash (GenesisNode.Address input)) networkId;
                     Snapshot.Transaction :=
                       {| VersionedTransaction.Transaction := tx;
                          VersionedTransaction.Signatures := [] |};
                     Snapshot.RoundNumber := 0;
                     Snapshot.Timestamp := uint64 (int (Genesis.Epoch gns * 1000000000)) |};
                SnapshotWithTopologicalOrder.TopologicalOrder := seq + Z.of_nat k |}.
Proof.
  revert i seq seq' snapshots.
  induction nodes as [|input nodes IH]; intros i seq seq' snapshots Hseq Hmax Hrun.
  - injection Hrun as <- <-. split; [simpl; lia | done].
  - simpl in Hrun.
    destruct (genesisTransaction gns i input) as [tx| |] eqn:Htx; [| done..].
    rewrite bind_Ret in Hrun. cbv beta iota zeta in Hrun. unfold TopoCounterNext in Hrun.
    destruct (genesisSnapshots gns networkId (i + 1) (uint64 (seq + 1)) nodes)
      as [[seq'' rest]| |] eqn:Hrest; [| done..].
    rewrite bind_Ret in Hrun. injection Hrun as <- <-.
    cbn [length] in Hmax |- *. rewrite Nat2Z.inj_succ in Hmax |- *.
    assert (uint64 (seq + 1) = seq + 1) as Hnext by (unfold uint64; apply Z.mod_small; lia).
    rewrite Hnext in Hrest.
    destruct (IH (i + 1) (seq + 1) seq'' rest ltac:(lia) ltac:(lia) Hrest) as [-> Hshape].
    split; [lia |].
    intros [|k] input' Hk.
    + injection Hk as <-. exists tx. rewrite Z.add_0_r. split; [done |].
      simpl. by rewrite Z.add_0_r.
    + destruct (Hshape k input' Hk) as (tx' & Htx' & Hsnap).
      exists tx'. replace (i + Z.of_nat (S k)) with (i + 1 + Z.of_nat k) by lia.
      split; [done |]. change ((?x :: rest) !! S k) with (rest !! k).
      rewrite Hsnap. do 2 f_equal. lia.
Qed.

(** X24: on a store without a network record, a load that the store
    accepts appends one snapshot for each of the seven genesis nodes, in
    their order, with round 0, the epoch as timestamp and consecutive
    topological orders from the counter of the node, which moves on by
    seven; each transaction pays out the balance of its node, the pledge
    first under a script with threshold 5 and seven keys; the node gains the
    seven addresses and the ids of the network. *)
Theorem LoadGenesis_snapshots (node : Node.t) (configDir : string) (gns : Genesis.t)
    (data : string) :
  readGenesis (configDir +:+ "/genesis.json") = Ret gns ->
  jsonMarshal gns = Ok data ->
  NewHash data <> zeroBytes 32 ->
  KVStore.getError (Node.store node) = None ->
  KVStore.loadError (Node.store node) = None ->
  KVStore.setError (Node.store node) = None ->
  KVStore.table (Node.store node) !! stateKeyNetwork = None ->
  0 <= Node.TopoCounter node -> Node.TopoCounter node + 7 < 2 ^ 64 ->
  let networkId := NewHash data in
  let node' := (LoadGenesis node configDir).1 in
  let before := KVStore.snapshots (Node.store node) in
  (LoadGenesis node configDir).2 = Ret tt /\
  Node.TopoCounter node' = Node.TopoCounter node + 7 /\
  Node.ConsensusNodes node'
  = Node.ConsensusNodes node ++ map GenesisNode.Address (Genesis.Nodes gns) /\
  Node.networkId node' = networkId /\
  Node.IdForNetwork node' = ForNetwork (AddressHash (Node.Account node)) networkId /\
  length (KVStore.snapshots (Node.store node')) = (length before + 7)%nat /\
  forall i input,
    Genesis.Nodes gns !! i = Some input ->
    exists tx pledge rest,
      genesisTransaction gns (Z.of_nat i) input = Ret tx /\
      outputsTotal tx = GenesisNode.Balance input /\
      Transaction.Outputs tx = pledge :: rest /\
      Output.Amount pledge = NewInteger 10000 /\
      Output.Script pledge = [OperatorCmp; OperatorSum; 5] /\
      length (Output.Keys pledge) = 7%nat /\
      KVStore.snapshots (Node.store node') !! (length before + i)%nat
      = Some {| SnapshotWithTopologicalOrder.Snapshot :=
                  {| Snapshot.NodeId :=
                       ForNetwork (AddressHash (GenesisNode.Address input)) networkId;
                     Snapshot.Transaction :=
                       {| VersionedTransaction.Transaction := tx;
                          VersionedTransaction.Signatures := [] |};
                     Snapshot.RoundNumber := 0;
                     Snapshot.Timestamp := uint64 (int (Genesis.Epoch gns * 1000000000)) |};
                SnapshotWithTopologicalOrder.TopologicalOrder :=
                  Node.TopoCounter node + Z.of_nat i |}.
Proof.
  intros Hread Hmarshal Hzero Hget Hload Hset Hstored Hseq Hmax networkId node' before.
  subst before.
  pose proof Hread as (f & _ & _ & Hlen & Hvalid)%readGenesis_accepts.
  unfold MinimumNodeCount in Hlen.
  assert (length (Genesis.Nodes gns) = 7%nat) as Hseven by lia.
  destruct (genesisSnapshots_Ret gns networkId 0 (Node.TopoCounter node) (Genesis.Nodes gns)
              (readGenesis_balances _ _ Hread)) as (seq & snapshots & Hsnaps & Hcount).
  destruct (genesisSnapshots_shape gns networkId 0 (Node.TopoCounter node) (Genesis.Nodes gns)
              seq snapshots Hseq ltac:(lia) Hsnaps) as [-> Hshape].
  subst node'. unfold LoadGenesis. rewrite Hread, Hmarshal. fold networkId.
  unfold KVStore.StateGet. cbn [Node.store withGenesis]. rewrite Hget, Hstored.
  destruct (String.eqb_spec (zeroBytes 32) networkId) as [Heq|_]; [by symmetry in Heq |].
  cbn [Node.TopoCounter withGenesis]. rewrite Hsnaps.
  unfold KVStore.SnapshotsLoadGenesis, KVStore.StateSet. cbn [Node.store withGenesis].
  rewrite Hload. cbn [KVStore.setError]. rewrite Hset.
  cbn [fst snd withStore withGenesis Node.TopoCounter Node.ConsensusNodes Node.networkId
       Node.IdForNetwork Node.store KVStore.snapshots].
  split; [done |]. split; [lia |]. do 3 (split; [done |]).
  split; [rewrite length_app; lia |].
  intros i input Hi. destruct (Hshape i input Hi) as (tx & Htx & Hsnap).
  rewrite Z.add_0_l in Htx.
  assert (NewInteger PledgeAmount <= GenesisNode.Balance input) as Hbalance.
  { pose proof (readGenesis_balances _ _ Hread) as Hb.
    rewrite Forall_forall in Hb. apply Hb. by eapply list_elem_of_lookup_2. }
  destruct (genesisTransaction_pledged gns (Z.of_nat i) input Hbalance)
    as (tx' & pledge & rest & Htx' & Houts & _ & _ & _ & Hamount & Hkeys & Hscript & _
        & _ & Htotal).
  rewrite Htx in Htx'. injection Htx' as <-.
  exists tx, pledge, rest. rewrite Hseven in Hkeys, Hscript.
  do 3 (split; [done |]). split; [exact Hamount |]. split; [exact Hscript |].
  split; [done |].
  rewrite lookup_app_r by lia.
  match goal with
  | |- context [(?n + i - ?n)%nat] => replace (n + i - n)%nat with i by lia
  end.
  exact Hsnap.
Qed.

Lemma LoadGenesis_noop node configDir gns data :
  readGenesis (configDir +:+ "/genesis.json") = Ret gns ->
  jsonMarshal gns = Ok data ->
  KVStore.getError (Node.store node) = None ->
  KVStore.table (Node.store node) !! stateKeyNetwork = Some (NewHash data) \/
  (KVStore.table (Node.store node) !! stateKeyNetwork = None /\ zeroBytes 32 = NewHash data) ->
  LoadGenesis node configDir
  = (withGenesis node
       (Node.ConsensusNodes node ++ map GenesisNode.Address (Genesis.Nodes gns))
       (NewHash data) (ForNetwork (AddressHash (Node.Account node)) (NewHash data)),
     Ret tt).
Proof.
  intros Hread Hmarshal Hget Hstored. unfold LoadGenesis. rewrite Hread, Hmarshal.
  unfold KVStore.StateGet. cbn [Node.store withGenesis]. rewrite Hget.
  destruct Hstored as [-> | [-> ->]]; by rewrite String.eqb_refl.
Qed.

Lemma LoadGenesis_done node configDir :
  (LoadGenesis node configDir).2 = Ret tt ->
  exists gns data node',
    readGenesis (configDir +:+ "/genesis.json") = Ret gns /\
    jsonMarshal gns = Ok data /\
    LoadGenesis node configDir = (node', Ret tt) /\
    Node.Account node' = Node.Account node /\
    Node.networkId node' = NewHash data /\
    Node.ConsensusNodes node'
    = Node.ConsensusNodes node ++ map GenesisNode.Address (Genesis.Nodes gns) /\
    KVStore.getError (Node.store node') = None /\
    (KVStore.table (Node.store node') !! stateKeyNetwork = Some (NewHash data) \/
     (KVStore.table (Node.store node') !! stateKeyNetwork = None /\
      zeroBytes 32 = NewHash data)).
Proof.
  unfold LoadGenesis.
  destruct (readGenesis _) as [gns| |] eqn:Hread; [| done..].
  destruct (jsonMarshal gns) as [data|] eqn:Hmarshal; [| done].
  unfold KVStore.StateGet. cbn [Node.store withGenesis].
  destruct (KVStore.getError (Node.store node)) as [e|] eqn:Hget; [done |].
  destruct (KVStore.table (Node.store node) !! stateKeyNetwork) as [id|] eqn:Hstored.
  - destruct (String.eqb_spec id (NewHash data)) as [->|Hne]; [| done].
    intros _. eexists gns, data, _. do 2 (split; [done |]). split; [reflexivity |].
    cbn [withGenesis Node.Account Node.networkId Node.ConsensusNodes Node.store].
    do 4 (split; [done |]). by left.
  - destruct (String.eqb_spec (zeroBytes 32) (NewHash data)) as [Hzero|Hzero].
    + intros _. eexists gns, data, _. do 2 (split; [done |]). split; [reflexivity |].
      cbn [withGenesis Node.Account Node.networkId Node.ConsensusNodes Node.store].
      do 4 (split; [done |]). by right.
    + cbn [Node.TopoCounter withGenesis].
      destruct (genesisSnapshots _ _ _ _ _) as [[seq snapshots]| |]; [| done..].
      unfold KVStore.SnapshotsLoadGenesis, KVStore.StateSet. cbn [Node.store withGenesis].
      destruct (KVStore.loadError (Node.store node)) as [e|]; [done |].
      cbn [KVStore.setError].
      destruct (KVStore.setError (Node.store node)) as [e|]; [done |].
      intros _. eexists gns, data, _. do 2 (split; [done |]). split; [reflexivity |].
      cbn [withStore withGenesis Node.Account Node.networkId Node.ConsensusNodes Node.store
           KVStore.getError KVStore.table].
      do 4 (split; [done |]). left. apply lookup_insert_eq.
Qed.

(** X25: loading the genesis again on the node a successful load leaves
    succeeds and changes neither the store nor the counter: the snapshots
    and the network record are written once.  The consensus nodes gain the
    genesis addresses a second time. *)
Theorem LoadGenesis_again (node : Node.t) (configDir : string) :
  (LoadGenesis node configDir).2 = Ret tt ->
  let node' := (LoadGenesis node configDir).1 in
  let node'' := (LoadGenesis node' configDir).1 in
  (LoadGenesis node' configDir).2 = Ret tt /\
  Node.store node'' = Node.store node' /\
  Node.TopoCounter node'' = Node.TopoCounter node' /\
  Node.networkId node'' = Node.networkId node' /\
  exists gns,
    readGenesis (configDir +:+ "/genesis.json") = Ret gns /\
    Node.ConsensusNodes node'
    = Node.ConsensusNodes node ++ map GenesisNode.Address (Genesis.Nodes gns) /\
    Node.ConsensusNodes node''
    = Node.ConsensusNodes node' ++ map GenesisNode.Address (Genesis.Nodes gns).
Proof.
  intros Hfirst node' node''.
  destruct (LoadGenesis_done node configDir Hfirst)
    as (gns & data & n1 & Hread & Hmarshal & Hrun & Haccount & Hid & Hnodes & Hget & Hstored).
  subst node'' node'. rewrite Hrun. cbn [fst].
  rewrite (LoadGenesis_noop n1 configDir gns data Hread Hmarshal Hget Hstored).
  cbn [fst snd withGenesis Node.store Node.TopoCounter Node.networkId Node.ConsensusNodes].
  do 3 (split; [done |]). split; [done |]. by exists gns.
Qed.

(** X26: [LoadGenesis] never panics: it returns without error or with an
    error; the balances [readGenesis] has checked keep the subtraction of
    the pledge from failing.  When the genesis cannot be read the node is
    left as it was. *)
Theorem LoadGenesis_never_panics (node : Node.t) (configDir : string) :
  ((LoadGenesis node configDir).2 = Ret tt \/
   exists e, (LoadGenesis node configDir).2 = Err e) /\
  (forall e,
     readGenesis (configDir +:+ "/genesis.json") = Err e ->
     LoadGenesis node configDir = (node, Err e)).
Proof.
  unfold LoadGenesis. split.
  - destruct (readGenesis _) as [gns|e'|e'] eqn:Hread; [| by right; eexists |].
    2: { by destruct (readGenesis_calm (configDir +:+ "/genesis.json") e'). }
    destruct (jsonMarshal gns) as [data|]; [| by right; eexists].
    destruct (KVStore.StateGet _ _ _) as [[found id]|]; [| by right; eexists].
    destruct (String.eqb _ _); [by left |]. destruct found; [by right; eexists |].
    destruct (genesisSnapshots_Ret gns (NewHash data) 0
                (Node.TopoCounter
                   (withGenesis node
                      (Node.ConsensusNodes node
                       ++ map GenesisNode.Address (Genesis.Nodes gns))
                      (NewHash data)
                      (ForNetwork (AddressHash (Node.Account node)) (NewHash data))))
                (Genesis.Nodes gns) (readGenesis_balances _ _ Hread))
      as (seq & snapshots & -> & _).
    destruct (KVStore.SnapshotsLoadGenesis _ _); [| by right; eexists].
    destruct (KVStore.StateSet _ _ _); [by left | by right; eexists].
  - by intros e ->.
Qed.


(** ** The legacy builder *)

(** X27: where the legacy builder assembles the transaction itself, it
    returns one whenever the gate grants a positive amount for a positive
    batch and the distributor returns shares: one output for each share, and
    one more for the rest when the shares do not use up the amount. *)
Theorem legacy_mint_built (node : Node.t) (timestamp : Z) (validateOnly : bool)
    (batch amount : Z) (mints : list CNodeWork.t) :
  checkLegacyMintPossibility node timestamp validateOnly = Ret (batch, amount) ->
  0 < amount -> 0 < batch ->
  TransactionMintWorkHacks batch = EmptyString \/ Node.isMainnet node = false ->
  Node.isMainnet node = false \/ MainnetMintTransactionV2ForkBatch <= batch ->
  distributeKernelMintByWorks node (Node.NodesListWithoutState node timestamp true)
    amount timestamp = Ret mints ->
  let rest := amount - sumZ (map CNodeWork.Work mints) in
  exists ver,
    buildLegacyKerneNodeMintTransaction node timestamp validateOnly = Ret (Some ver) /\
    0 <= rest /\
    firstMint (VersionedTransaction.Transaction ver)
    = Ret {| MintData.Group := "KERNELNODE"; MintData.Batch := uint64 batch;
             MintData.Amount := amount |} /\
    length (Transaction.Outputs (VersionedTransaction.Transaction ver))
    = (length mints + (if (0 <? rest)%Z then 1 else 0))%nat.
Proof.
  intros Hgate Hamount Hbatch Hhack Hfork Hdist rest.
  pose proof (distribute_sum_le node _ amount timestamp mints ltac:(lia) Hdist) as Hsum.
  unfold buildLegacyKerneNodeMintTransaction.
  generalize (NewAddressFromSeed (zeroBytes 64)). intros diff.
  rewrite Hgate, bind_Ret. cbv beta iota. rewrite Sign_nonpos.
  destruct (Z.leb_spec amount 0); [lia |]. destruct (Z.leb_spec batch 0); [lia |].
  cbn [orb].
  assert (negb (String.eqb (TransactionMintWorkHacks batch) EmptyString)
          && Node.isMainnet node = false) as ->.
  { destruct Hhack as [-> | ->]; [done | apply andb_false_r]. }
  assert (Node.isMainnet node && (batch <? MainnetMintTransactionV2ForkBatch) = false) as ->.
  { destruct Hfork as [-> | ?]; [done |]. destruct (Z.ltb_spec batch
      MainnetMintTransactionV2ForkBatch); [lia | apply andb_false_r]. }
  rewrite Hdist.
  pose proof (length_outputs_addWorkOutput batch (NewThresholdScript 1) mints
                (AddKernelNodeMintInputLegacy (NewTransaction XINAssetId) (uint64 batch)
                   amount)
                (NewInteger 0)) as Hlen.
  destruct (foldl_addWorkOutput batch (NewThresholdScript 1) mints
              (AddKernelNodeMintInputLegacy (NewTransaction XINAssetId) (uint64 batch) amount)
              (NewInteger 0)) as (tx & Hfold & Hmint & Htotal).
  rewrite Hfold in Hlen |- *. cbn [fst] in Hlen.
  rewrite NewInteger_zero, Z.add_0_l, Cmp_pos.
  destruct (Z.ltb_spec amount (sumZ (map CNodeWork.Work mints))); [lia |].
  rewrite Sub_le, bind_Ret, Sign_pos by lia. fold rest.
  assert (firstMint (AddKernelNodeMintInputLegacy (NewTransaction XINAssetId) (uint64 batch)
                       amount)
          = Ret {| MintData.Group := "KERNELNODE"; MintData.Batch := uint64 batch;
                   MintData.Amount := amount |}) as Hfirst by reflexivity.
  destruct (Z.ltb_spec 0 rest); eexists; (split; [reflexivity |]); (split; [lia |]);
    unfold AsVersioned; cbn [VersionedTransaction.Transaction];
    rewrite ?firstMint_AddScriptOutput, Hmint, Hfirst; (split; [done |]);
    cbn [AddScriptOutput Transaction.Outputs]; rewrite ?length_app, Hlen; simpl; lia.
Qed.


(** ** The average of the distributor *)

Lemma countWork_counted st l x :
  0 <= x -> statsCounted st l ->
  statsCounted (countWork st x) (l ++ filter (fun y => 0 < y) [x]).
Proof.
  intros Hx (Hvalid & Htotal & Hpos & Hnil & Hcons).
  destruct (decide (x = 0)) as [->|Hnz].
  { rewrite countWork_zero. simpl. rewrite app_nil_r. done. }
  rewrite countWork_pos by lia.
  assert (filter (fun y => 0 < y) [x] = [x]) as ->.
  { rewrite filter_cons, decide_True by lia. done. }
  unfold statsCounted. simpl.
  rewrite length_app, sumZ_app, Forall_app. simpl.
  split; [lia |]. split; [lia |]. split; [split; [done | constructor; [lia | done]] |].
  split; [by destruct l |]. intros _.
  destruct l as [|y l].
  - destruct Hnil as [-> ->]; [done |]. simpl.
    destruct (Z.ltb_spec 0 x); [| lia].
    split; [by left |]. split; [by left |]. constructor; [lia | done].
  - destruct Hcons as (Hmin & Hmax & Hall); [done |].
    assert (0 < minW st) as Hminpos.
    { rewrite Forall_forall in Hpos. by apply Hpos. }
    destruct (Z.eqb_spec (minW st) 0); [lia |].
    rewrite Forall_forall in Hall.
    split; [| split].
    + destruct (Z.ltb_spec x (minW st)); [| by apply elem_of_app; left].
      apply elem_of_app. right. by left.
    + destruct (Z.ltb_spec (maxW st) x); [| by apply elem_of_app; left].
      apply elem_of_app. right. by left.
    + apply Forall_app. split.
      * apply Forall_forall. intros z Hz. specialize (Hall z Hz).
        destruct (Z.ltb_spec x (minW st)); destruct (Z.ltb_spec (maxW st) x); lia.
      * constructor; [| done]. specialize (Hall _ Hmin).
        destruct (Z.ltb_spec x (minW st)); destruct (Z.ltb_spec (maxW st) x); lia.
Qed.

Lemma foldl_countWork_counted st l raw :
  Forall (fun x => 0 <= x) raw -> statsCounted st l ->
  statsCounted (foldl countWork st raw) (l ++ filter (fun y => 0 < y) raw).
Proof.
  intros Hraw. revert st l. induction Hraw as [|x raw Hx Hraw IH]; intros st l Hst.
  - simpl. by rewrite app_nil_r.
  - simpl foldl. pose proof (countWork_counted st l x Hx Hst) as Hnext.
    specialize (IH _ _ Hnext). rewrite <- app_assoc in IH.
    replace (filter (fun y => 0 < y) (x :: raw))
      with (filter (fun y => 0 < y) [x] ++ filter (fun y => 0 < y) raw); [done |].
    rewrite !filter_cons. by destruct (decide (0 < x)).
Qed.

Lemma workStats_counted raw :
  Forall (fun x => 0 <= x) raw ->
  statsCounted (workStats raw) (filter (fun y => 0 < y) raw).
Proof.
  intros Hraw. apply (foldl_countWork_counted _ [] raw Hraw).
  unfold statsCounted. simpl. repeat split; done.
Qed.

(** X28: when the distributor returns on a later day, the works that are
    not zero number at least three and at least the threshold; the average
    is their sum less one least and one largest of them, over their number
    less two, and is positive; every node receives the clamp of its raw
    work times the base over the sum of the clamped works, floored. *)
Theorem distribute_trimmed_mean (node : Node.t) (accepted : list CNode.t)
    (base timestamp : Z) (mints : list CNodeWork.t) :
  uint64 (timestamp `div` dayNanos - Node.Epoch node `div` dayNanos) <> 0 ->
  distributeKernelMintByWorks node accepted base timestamp = Ret mints ->
  exists (works : gmap string (N * N)) (lo hi : Z),
    Store.ListNodeWorks (Node.persistStore node) (map CNode.IdForNetwork accepted)
      (uint32 (uint32 (timestamp `div` dayNanos) - 1)) = Ok works /\
    let raw := rawWorks works accepted in
    let counted := filter (fun x => 0 < x) raw in
    let avg := (sumZ counted - lo - hi) `div` (Z.of_nat (length counted) - 2) in
    let total := sumZ (map (clamp avg) raw) in
    (3 <= length counted)%nat /\
    int (Node.ConsensusThreshold node timestamp false) <= Z.of_nat (length counted) /\
    lo ∈ counted /\ hi ∈ counted /\ Forall (fun x => lo <= x <= hi) counted /\
    0 < avg /\ 0 < total /\
    map CNodeWork.Work mints = map (fun x => (clamp avg x * base) `div` total) raw.
Proof.
  intros Hday Hrun.
  destruct (distribute_works node accepted base timestamp mints Hrun Hday)
    as (works & Hworks & Hthr & Hvalid & Hmin & Hmax & Havg & Htotal & ->).
  cbv zeta in *.
  destruct (workStats_counted _ (rawWorks_nonneg works accepted))
    as (Hcount & Hsum & Hpos & _ & Hcons).
  set (raw := rawWorks works accepted) in *.
  set (st := workStats raw) in *.
  set (counted := filter (fun x => 0 < x) raw) in *.
  destruct Hcons as (Hlo & Hhi & Hall).
  { intros Hnil. rewrite Hnil in Hcount. simpl in Hcount. lia. }
  exists works, (minW st), (maxW st). split; [done |]. cbv zeta. fold raw. fold counted.
  assert ((sumZ counted - minW st - maxW st) `div` (Z.of_nat (length counted) - 2)
          = averageWork st) as ->.
  { unfold averageWork. by rewrite Hcount, Hsum. }
  pose proof (averageWork_nonneg st Hvalid Hmin Hmax) as Hnn.
  assert (0 <= sumZ (map (clamp (averageWork st)) raw)) as Htnn.
  { apply sumZ_nonneg, Forall_map, Forall_forall. intros x Hx.
    apply clamp_nonneg; [done |]. pose proof (rawWorks_nonneg works accepted) as Hraw.
    rewrite Forall_forall in Hraw. by apply Hraw. }
  split; [lia |]. split; [lia |]. do 3 (split; [done |]).
  split; [lia |]. split; [lia |].
  unfold raw, rawWorks. rewrite !map_map. reflexivity.
Qed.

End Kernel.

(** * The properties on the test network *)

(** C6 at batch 364, the last of the first year. *)
Lemma pool_size_monotone_witness :
  0 <= 364 /\
  exists u u' l l' : Z,
    poolSizeUniversal Example.Precision 364 = Ret u /\
    poolSizeUniversal Example.Precision (364 + 1) = Ret u' /\
    poolSizeLegacy Example.Precision 364 = Ret l /\
    poolSizeLegacy Example.Precision (364 + 1) = Ret l' /\
    u' <= u /\ l' <= l /\
    u <= MintPool Example.Precision /\ l <= MintPool Example.Precision.
Proof. split; [lia | apply (pool_size_monotone Example.Precision 364); lia]. Defined.

(** C7 fails with eight fractional digits: the pool at batch 1 is
    499 863.01369864, not 499 864. *)
Lemma pool_size_universal_batch_one :
  poolSizeUniversal 8 1 = Ret 49986301369864 /\
  poolSizeUniversal 8 1 <> Ret (Integer.NewInteger 8 499864).
Proof. split; [reflexivity | discriminate]. Qed.

(** C10 one nanosecond before the epoch. *)
Lemma pledge_amount_before_epoch_witness :
  Example.epoch - 1 < Node.Epoch (Example.node true) /\
  Node_PledgeAmount Example.Precision (Example.node true) (Example.epoch - 1)
  = Ret (Integer.NewInteger Example.Precision 10000).
Proof.
  assert (Example.epoch - 1 < Node.Epoch (Example.node true)) as Hts by (vm_compute; reflexivity).
  split; [exact Hts |].
  destruct (pledge_amount_before_epoch Example.Precision (Example.node true)
              (Example.epoch - 1) Hts) as (-> & _ & ->).
  reflexivity.
Defined.

(** C5 on mainnet, 25 hours after the epoch: one o'clock is outside the
    fork window and the legacy gate answers no mint; 30 hours after the
    epoch the configured window is not yet open for the universal gate. *)
Lemma gates_no_mint_outside_window_witness :
  checkLegacyMintPossibility Example.Precision Example.KernelMintTimeBegin
    Example.KernelMintTimeEnd (Example.node true) (Example.epoch + 25 * Example.hour) false
  = Ret (0, Integer.NewInteger Example.Precision 0) /\
  checkUniversalMintPossibility Example.Precision Example.KernelMintTimeBegin
    Example.KernelMintTimeEnd (Example.node true) (Example.epoch + 30 * Example.hour) true
  = Ret (0, Integer.NewInteger Example.Precision 0).
Proof.
  split.
  - apply (gates_no_mint_outside_window Example.Precision Example.KernelMintTimeBegin
             Example.KernelMintTimeEnd (Example.node true) (Example.epoch + 25 * Example.hour)
             false); [vm_compute; discriminate | vm_compute; split; [discriminate | reflexivity] |].
    right. right. left. vm_compute. reflexivity.
  - apply (gates_no_mint_outside_window Example.Precision Example.KernelMintTimeBegin
             Example.KernelMintTimeEnd (Example.node true) (Example.epoch + 30 * Example.hour)
             true); [vm_compute; discriminate | vm_compute; split; [discriminate | reflexivity] |].
    right. right. left. vm_compute. reflexivity.
Defined.



(** The distributor on the test network, 31 hours after the epoch, with
    700 to split. *)
Lemma distribute_on_test_network :
  distributeKernelMintByWorks Example.Precision (Example.node false) Example.accepted
    (Integer.NewInteger Example.Precision 700) (Example.epoch + 31 * Example.hour)
  = Ret (zip_with (fun n work => {| CNodeWork.CNode := n; CNodeWork.Work := work |})
           Example.accepted
           [1399999999; 9799999999; 9799999999; 9799999999; 9799999999; 9799999999;
            19600000001]).
Proof. vm_compute. reflexivity. Qed.

(** C3 fails on the raw works 0, 100 (five times) and 1000, with eight
    fractional digits and with none: the node without work is clamped to
    [100 / 7], not to 0, the clamped works add up to more than 700, and the
    node receives a share. *)
Lemma zero_work_node_receives_share :
  rawWorks 8 Example.works Example.accepted
  = Integer.NewInteger 8 <$> [0; 100; 100; 100; 100; 100; 1000] /\
  clamp (Integer.NewInteger 8 100) 0 = 1428571428 /\
  sumZ (clamp (Integer.NewInteger 8 100) <$> rawWorks 8 Example.works Example.accepted)
  = 71428571423 /\
  Integer.NewInteger 8 700 = 70000000000 /\
  match distributeKernelMintByWorks 8 (Example.node false) Example.accepted
          (Integer.NewInteger 8 700) (Example.epoch + 31 * Example.hour) with
  | Ret mints => CNodeWork.Work <$> mints
  | _ => []
  end = [1399999999; 9799999999; 9799999999; 9799999999; 9799999999; 9799999999;
         19600000001] /\
  clamp (Integer.NewInteger 0 100) 0 = 14 /\
  sumZ (clamp (Integer.NewInteger 0 100) <$> rawWorks 0 Example.works Example.accepted) = 709 /\
  match distributeKernelMintByWorks 0 (Example.node false) Example.accepted
          (Integer.NewInteger 0 700) (Example.epoch + 31 * Example.hour) with
  | Ret mints => CNodeWork.Work <$> mints
  | _ => []
  end = [13; 97; 97; 97; 97; 97; 197].
Proof. vm_compute. repeat split; reflexivity. Qed.

(** C3 as amended, on the test network: the node without work receives the
    share of [avg / 7]. *)
Lemma zero_work_raised_to_lower_bound_witness :
  exists mints,
    distributeKernelMintByWorks Example.Precision (Example.node false) Example.accepted
      (Integer.NewInteger Example.Precision 700) (Example.epoch + 31 * Example.hour)
    = Ret mints /\
    CNodeWork.CNode <$> mints = Example.accepted /\
    CNodeWork.Work <$> mints !! 0%nat = Some 1399999999.
Proof.
  eexists. split; [apply distribute_on_test_network |].
  destruct (proj1 (zero_work_raised_to_lower_bound Example.Precision) (Example.node false)
              Example.accepted (Integer.NewInteger Example.Precision 700)
              (Example.epoch + 31 * Example.hour) _ ltac:(vm_compute; discriminate)
              distribute_on_test_network)
    as (works & [= <-] & Hkept & _ & _ & _ & Hshare).
  split; [exact Hkept |].
  rewrite (Hshare 0%nat (Example.cnode "n0") eq_refl eq_refl). vm_compute. reflexivity.
Defined.

(** C4 on the test network, 31 hours after the epoch: both builders return
    a transaction, and its outputs add up to the amount of its mint input,
    one daily share for the universal builder and [full] for the legacy
    one. *)
Lemma mint_builders_conserve_witness :
  (exists ver mint,
     buildUniversalMintTransaction Example.Precision Example.KernelMintTimeBegin
       Example.KernelMintTimeEnd Example.NewHash Example.NewKeyFromSeed Example.Public
       Example.DeriveGhostPublicKey Example.AddressString Example.NewAddressFromSeed
       Example.XINAssetId Example.TxVersion Example.Operator64 Example.NewThresholdScript
       (Example.node false) None (Example.epoch + 31 * Example.hour) false = Ret (Some ver) /\
     firstMint (VersionedTransaction.Transaction ver) = Ret mint /\
     MintData.Amount mint = 13698630136 /\
     outputsTotal (VersionedTransaction.Transaction ver) = MintData.Amount mint) /\
  (exists ver,
     buildLegacyKerneNodeMintTransaction Example.Precision Example.KernelMintTimeBegin
       Example.KernelMintTimeEnd Example.NewHash Example.NewKeyFromSeed Example.Public
       Example.DeriveGhostPublicKey Example.AddressString Example.NewAddressFromSeed
       Example.XINAssetId Example.TxVersion Example.Operator64 Example.NewThresholdScript
       Example.TransactionMintWorkHacks Example.hexDecodeString
       Example.UnmarshalVersionedTransaction Example.buildMintTransactionV1
       (Example.node false) (Example.epoch + 31 * Example.hour) false = Ret (Some ver) /\
     outputsTotal (VersionedTransaction.Transaction ver) = 12328767117).
Proof.
  destruct (mint_builders_conserve Example.Precision Example.KernelMintTimeBegin
              Example.KernelMintTimeEnd Example.NewHash Example.NewKeyFromSeed Example.Public
              Example.DeriveGhostPublicKey Example.AddressString Example.NewAddressFromSeed
              Example.XINAssetId Example.TxVersion Example.Operator64
              Example.NewThresholdScript Example.TransactionMintWorkHacks
              Example.hexDecodeString Example.UnmarshalVersionedTransaction
              Example.buildMintTransactionV1 (Example.node false)
              (Example.epoch + 31 * Example.hour) false) as (_ & Huniversal & Hlegacy).
  split.
  - destruct (Huniversal None) as [_ Hbuilt].
    assert (exists ver,
              buildUniversalMintTransaction Example.Precision Example.KernelMintTimeBegin
                Example.KernelMintTimeEnd Example.NewHash Example.NewKeyFromSeed
                Example.Public Example.DeriveGhostPublicKey Example.AddressString
                Example.NewAddressFromSeed Example.XINAssetId Example.TxVersion
                Example.Operator64 Example.NewThresholdScript (Example.node false) None
                (Example.epoch + 31 * Example.hour) false = Ret (Some ver))
      as [ver Ebuild] by (eexists; vm_compute; reflexivity).
    destruct (Hbuilt ver Ebuild)
      as (batch & amount & mints & mint & _ & _ & _ & Hmint & _ & _ & Htotal).
    exists ver, mint. split; [exact Ebuild |]. split; [exact Hmint |]. split; [| exact Htotal].
    vm_compute in Ebuild. injection Ebuild as <-.
    vm_compute in Hmint. by injection Hmint as <-.
  - destruct (Hlegacy 1 12328767117) as [_ Hbuilt].
    + vm_compute. reflexivity.
    + left. reflexivity.
    + left. reflexivity.
    + assert (exists ver,
                buildLegacyKerneNodeMintTransaction Example.Precision
                  Example.KernelMintTimeBegin Example.KernelMintTimeEnd Example.NewHash
                  Example.NewKeyFromSeed Example.Public Example.DeriveGhostPublicKey
                  Example.AddressString Example.NewAddressFromSeed Example.XINAssetId
                  Example.TxVersion Example.Operator64 Example.NewThresholdScript
                  Example.TransactionMintWorkHacks Example.hexDecodeString
                  Example.UnmarshalVersionedTransaction Example.buildMintTransactionV1
                  (Example.node false) (Example.epoch + 31 * Example.hour) false
                = Ret (Some ver))
        as [ver Ebuild] by (eexists; vm_compute; reflexivity).
      destruct (Hbuilt ver Ebuild) as (mints & mint & _ & _ & _ & _ & _ & Htotal).
      exists ver. split; [exact Ebuild | exact Htotal].
Defined.

(** C8 on the genesis of seven copies of one node: it is read without
    error. *)
Lemma readGenesis_accepts_duplicates_witness :
  Genesis.Nodes Example.duplicated = replicate 7 (Example.genesisNode "g0") /\
  readGenesis Example.Precision Example.NewHash Example.NewKeyFromSeed Example.Public
    Example.AddressString Example.NewAddressFromString Example.ReadFile Example.jsonUnmarshal
    "duplicated/genesis.json"
  = Ret Example.duplicated.
Proof.
  split; [reflexivity |].
  apply (readGenesis_accepts_duplicates Example.Precision Example.NewHash
           Example.NewKeyFromSeed Example.Public Example.AddressString
           Example.NewAddressFromString Example.ReadFile Example.jsonUnmarshal
           "duplicated/genesis.json" "duplicated/genesis.json" Example.duplicated
           (Example.genesisNode "g0")); [reflexivity | reflexivity | reflexivity |].
  split; [by eexists |]. split; [vm_compute; discriminate | reflexivity].
Defined.

(** C9 on a fresh store: the snapshots of the seven genesis nodes are
    persisted and the network id is written; loading again leaves the store
    as it is. *)
Lemma LoadGenesis_network_record_witness :
  let load :=
    LoadGenesis Example.Precision Example.NewHash Example.NewKeyFromSeed Example.Public
      Example.DeriveGhostPublicKey Example.AddressString Example.AddressHash
      Example.NewAddressFromString Example.ForNetwork Example.XINAssetId Example.TxVersion
      Example.OperatorCmp Example.OperatorSum Example.ReadFile Example.jsonUnmarshal
      Example.jsonMarshal in
  let first := load (Example.node false) "config" in
  let second := load first.1 "config" in
  first.2 = Ret tt /\
  length (KVStore.snapshots (Node.store first.1)) = 7%nat /\
  is_Some (KVStore.table (Node.store first.1) !! stateKeyNetwork) /\
  second.2 = Ret tt /\
  Node.store second.1 = Node.store first.1.
Proof.
  intros load first second.
  assert (exists data, Example.jsonMarshal Example.genesis = Ok data) as [data Hdata]
    by (eexists; reflexivity).
  destruct (LoadGenesis_network_record Example.Precision Example.NewHash
              Example.NewKeyFromSeed Example.Public Example.DeriveGhostPublicKey
              Example.AddressString Example.AddressHash Example.NewAddressFromString
              Example.ForNetwork Example.XINAssetId Example.TxVersion Example.OperatorCmp
              Example.OperatorSum Example.ReadFile Example.jsonUnmarshal Example.jsonMarshal
              (Example.node false) "config" Example.genesis data)
    as (Habsent & _); [vm_compute; reflexivity | exact Hdata | reflexivity | |].
  { injection Hdata as <-. vm_compute. discriminate. }
  destruct (Habsent eq_refl) as (seq & snapshots & _ & Hlen & Hresult & Hsnapshots & Htable).
  fold load first in Hresult, Hsnapshots, Htable.
  destruct (LoadGenesis_network_record Example.Precision Example.NewHash
              Example.NewKeyFromSeed Example.Public Example.DeriveGhostPublicKey
              Example.AddressString Example.AddressHash Example.NewAddressFromString
              Example.ForNetwork Example.XINAssetId Example.TxVersion Example.OperatorCmp
              Example.OperatorSum Example.ReadFile Example.jsonUnmarshal Example.jsonMarshal
              first.1 "config" Example.genesis data)
    as (_ & Hpresent & _); [vm_compute; reflexivity | exact Hdata | reflexivity | |].
  { injection Hdata as <-. vm_compute. discriminate. }
  fold load second in Hpresent.
  split; [exact Hresult |]. split; [rewrite Hsnapshots, length_app, Hlen; reflexivity |].
  split; [rewrite Htable; by rewrite lookup_insert_eq |].
  apply Hpresent. rewrite Htable. apply lookup_insert_eq.
Defined.

(** * The further properties on the test network *)

(** X3, 31 hours after the epoch with batch 0 as the last one distributed:
    one daily share is granted and the universal pool is smaller by it. *)
Lemma gate_amount_is_pool_drop_witness :
  exists amount before after : Z,
    checkUniversalMintPossibility Example.Precision Example.KernelMintTimeBegin
      Example.KernelMintTimeEnd (Example.node false) (Example.epoch + 31 * Example.hour) false = Ret
      (1, amount) /\
    poolSizeUniversal Example.Precision 0 = Ret before /\
    poolSizeUniversal Example.Precision 1 = Ret after /\
    amount = before - after /\ amount = 13698630136.
Proof.
  destruct (gate_amount_is_pool_drop Example.Precision Example.KernelMintTimeBegin
    Example.KernelMintTimeEnd (Example.node false) (Example.epoch + 31 * Example.hour) false
    Example.lastDistribution) as [Huniversal _].
  - vm_compute. discriminate.
  - vm_compute. split; reflexivity.
  - reflexivity.
  - vm_compute. split; [discriminate | reflexivity].
  - reflexivity.
  - destruct Huniversal as (amount & before & after & Hgate & Hbefore & Hafter & Hdrop).
    { vm_compute. split; discriminate. }
    exists amount, before, after. do 4 (split; [assumption |]).
    vm_compute in Hgate. by injection Hgate as <-.
Defined.

(** X4 at the epoch and 400 days later: the pledge grows from 10 000 to
    11 000. *)
Lemma pledge_amount_grows_witness :
  exists p p' : Z,
    pledgeAmount Example.Precision 0 = Ret p /\
    pledgeAmount Example.Precision (400 * dayNanos) = Ret p' /\
    p <= p' /\ p = Integer.NewInteger Example.Precision 10000 /\
    p' = Integer.NewInteger Example.Precision 11000.
Proof.
  destruct (pledge_amount_grows Example.Precision 0 (400 * dayNanos)) as (p & p' & Hp & Hp' & _ &
    Hle & _).
  - vm_compute. split; discriminate.
  - vm_compute. reflexivity.
  - exists p, p'. do 3 (split; [assumption |]).
    vm_compute in Hp, Hp'. injection Hp as <-. injection Hp' as <-. split; reflexivity.
Defined.

(** X5, 400 days after the epoch. *)
Lemma PledgeAmount_from_epoch_witness :
  Node_PledgeAmount Example.Precision (Example.node true) (Example.epoch + 400 * dayNanos)
  = pledgeAmount Example.Precision (400 * dayNanos).
Proof.
  destruct (PledgeAmount_from_epoch Example.Precision (Example.node true) (Example.epoch + 400 *
    dayNanos)) as (p & _ & _ & Hsince & _).
  - vm_compute. split; discriminate.
  - vm_compute. reflexivity.
  - rewrite Hsince by (vm_compute; reflexivity). f_equal.
Defined.

(** X6, 31 hours after the epoch: both gates answer batch 1. *)
Lemma gates_always_answer_witness :
  exists a a' : Z,
    checkUniversalMintPossibility Example.Precision Example.KernelMintTimeBegin
      Example.KernelMintTimeEnd (Example.node true) (Example.epoch + 31 * Example.hour) true = Ret
      (1, a) /\
    checkLegacyMintPossibility Example.Precision Example.KernelMintTimeBegin
      Example.KernelMintTimeEnd (Example.node true) (Example.epoch + 31 * Example.hour) true = Ret
      (1, a').
Proof.
  destruct (gates_always_answer Example.Precision Example.KernelMintTimeBegin
    Example.KernelMintTimeEnd (Example.node true) (Example.epoch + 31 * Example.hour) true) as (b &
    a & b' & a' & Hu & Hl & _).
  - vm_compute. discriminate.
  - vm_compute. split; [discriminate | reflexivity].
  - exists a, a'. rewrite Hu, Hl. vm_compute in Hu, Hl.
    injection Hu as <- _. injection Hl as <- _. split; reflexivity.
Defined.


(** X8 on mainnet, 25 hours after the epoch: one o'clock is outside both
    windows. *)
Lemma no_mint_built_outside_window_witness :
  buildUniversalMintTransaction Example.Precision Example.KernelMintTimeBegin
    Example.KernelMintTimeEnd Example.NewHash Example.NewKeyFromSeed Example.Public
    Example.DeriveGhostPublicKey Example.AddressString Example.NewAddressFromSeed Example.XINAssetId
    Example.TxVersion Example.Operator64 Example.NewThresholdScript (Example.node true) None
    (Example.epoch + 25 * Example.hour) true = Ret None /\
  buildLegacyKerneNodeMintTransaction Example.Precision Example.KernelMintTimeBegin
    Example.KernelMintTimeEnd Example.NewHash Example.NewKeyFromSeed Example.Public
    Example.DeriveGhostPublicKey Example.AddressString Example.NewAddressFromSeed Example.XINAssetId
    Example.TxVersion Example.Operator64 Example.NewThresholdScript Example.TransactionMintWorkHacks
    Example.hexDecodeString Example.UnmarshalVersionedTransaction Example.buildMintTransactionV1
    (Example.node true) (Example.epoch + 25 * Example.hour) true = Ret None.
Proof.
  destruct (no_mint_built_outside_window Example.Precision Example.KernelMintTimeBegin
    Example.KernelMintTimeEnd Example.NewHash Example.NewKeyFromSeed Example.Public
    Example.DeriveGhostPublicKey Example.AddressString Example.NewAddressFromSeed Example.XINAssetId
    Example.TxVersion Example.Operator64 Example.NewThresholdScript Example.TransactionMintWorkHacks
    Example.hexDecodeString Example.UnmarshalVersionedTransaction Example.buildMintTransactionV1
    (Example.node true) (Example.epoch + 25 * Example.hour) true None) as [Huniversal Hlegacy].
  - vm_compute. discriminate.
  - vm_compute. split; [discriminate | reflexivity].
  - split.
    + apply Huniversal. right. right. left. vm_compute. reflexivity.
    + apply Hlegacy. right. right. left. vm_compute. reflexivity.
Defined.

(** X10 at an average of 100 units, for the works 50 and 400. *)
Lemma clamp_monotone_bounded_witness :
  exists cx cy : Z,
    clampWork 100 (Integer.Mul 100 7) (100 `div` 7) 50 = Ret cx /\
    clampWork 100 (Integer.Mul 100 7) (100 `div` 7) 400 = Ret cy /\
    100 `div` 7 <= cx /\ cx <= cy /\ cy <= 2 * 100.
Proof. apply (clamp_monotone_bounded 100 50 400); lia. Defined.

(** X11 on the test network: the node without work receives less than the
    node with the most work. *)
Lemma shares_follow_work_witness :
  exists mints wi wj,
    distributeKernelMintByWorks Example.Precision (Example.node false) Example.accepted
      (Integer.NewInteger Example.Precision 700) (Example.epoch + 31 * Example.hour)
    = Ret mints /\
    CNodeWork.Work <$> mints !! 0%nat = Some wi /\
    CNodeWork.Work <$> mints !! 6%nat = Some wj /\
    0 <= wi /\ wi <= wj /\ wj <= Integer.NewInteger Example.Precision 700.
Proof.
  pose proof distribute_on_test_network as Hrun.
  destruct (shares_follow_work Example.Precision (Example.node false) Example.accepted
              (Integer.NewInteger Example.Precision 700) (Example.epoch + 31 * Example.hour)
              _ Example.works 0%nat 6%nat (Example.cnode "n0") (Example.cnode "n6")
              0 (Integer.NewInteger Example.Precision 1000)
              ltac:(vm_compute; discriminate) ltac:(vm_compute; discriminate) Hrun)
    as (wi & wj & Hi & Hj & Hbounds).
  - reflexivity.
  - reflexivity.
  - reflexivity.
  - vm_compute. reflexivity.
  - vm_compute. reflexivity.
  - vm_compute. discriminate.
  - eexists. exists wi, wj. split; [exact Hrun |]. split; [exact Hi |].
    split; [exact Hj | exact Hbounds].
Defined.

(** X12 on the node that asks for seven working nodes: six have worked, the
    aggregation check fails, and the distributor answers not ready. *)
Lemma distribute_failures_witness :
  exists e,
    distributeKernelMintByWorks Example.Precision Example.strict Example.accepted
      (Integer.NewInteger Example.Precision 700) (Example.epoch + 31 * Example.hour)
    = Err (Errorf "distributeKernelMintByWorks not ready yet %d %v"
             [VInt ((Example.epoch + 31 * Example.hour) `div` dayNanos); VErr e]).
Proof.
  destruct (distribute_failures Example.Precision Example.strict Example.accepted
              (Integer.NewInteger Example.Precision 700) (Example.epoch + 31 * Example.hour)
              Example.works ∅) as [Hready _].
  - vm_compute. discriminate.
  - vm_compute. discriminate.
  - eexists. apply Hready. vm_compute. reflexivity.
Defined.

(** X13 on the test network: six works of at least the threshold of five
    are counted, the average is 100 units, and the shares are returned. *)
Lemma distribute_succeeds_witness :
  exists mints,
    distributeKernelMintByWorks Example.Precision (Example.node false) Example.accepted
      (Integer.NewInteger Example.Precision 700) (Example.epoch + 31 * Example.hour)
    = Ret mints /\
    map CNodeWork.CNode mints = Example.accepted.
Proof.
  apply (distribute_succeeds Example.Precision (Example.node false) Example.accepted
           (Integer.NewInteger Example.Precision 700) (Example.epoch + 31 * Example.hour)
           Example.works
           (match ListRoundSpaces (Example.node false) (map CNode.IdForNetwork Example.accepted)
                    (uint64 ((Example.epoch + 31 * Example.hour) `div` dayNanos - 1)) with
            | Ret spaces => spaces
            | _ => ∅
            end)).
  - vm_compute. discriminate.
  - vm_compute. discriminate.
  - vm_compute. reflexivity.
  - reflexivity.
  - vm_compute. reflexivity.
  - vm_compute. discriminate.
  - vm_compute. reflexivity.
  - vm_compute. discriminate.
Defined.

(** X16 for batch 0 on the test network. *)
Lemma ListMintWorks_day_witness :
  ListMintWorks (Example.node false) 0 = Ok Example.works.
Proof.
  destruct (ListMintWorks_day (Example.node false) 0) as [Hday _].
  - vm_compute. discriminate.
  - lia.
  - vm_compute. reflexivity.
  - rewrite Hday. reflexivity.
Defined.

(** X17 on the test network, 31 hours after the epoch: of one daily share,
    the seven nodes receive at most five tenths, the custodian four tenths
    and the light account the rest. *)
Lemma universal_mint_split_witness :
  exists ver kernel light,
    buildUniversalMintTransaction Example.Precision Example.KernelMintTimeBegin
      Example.KernelMintTimeEnd Example.NewHash Example.NewKeyFromSeed Example.Public
      Example.DeriveGhostPublicKey Example.AddressString Example.NewAddressFromSeed
      Example.XINAssetId Example.TxVersion Example.Operator64 Example.NewThresholdScript
      (Example.node false) None (Example.epoch + 31 * Example.hour) false = Ret (Some ver) /\
    outputAmounts (VersionedTransaction.Transaction ver)
    = kernel ++ [13698630136 `div` 10 * 4; light] /\
    length kernel = 7%nat /\
    sumZ kernel <= 13698630136 `div` 10 * 5 /\
    13698630136 `div` 10 <= light.
Proof.
  assert (exists ver,
            buildUniversalMintTransaction Example.Precision Example.KernelMintTimeBegin
              Example.KernelMintTimeEnd Example.NewHash Example.NewKeyFromSeed Example.Public
              Example.DeriveGhostPublicKey Example.AddressString Example.NewAddressFromSeed
              Example.XINAssetId Example.TxVersion Example.Operator64 Example.NewThresholdScript
              (Example.node false) None (Example.epoch + 31 * Example.hour) false = Ret (Some ver))
    as [ver Ebuild] by (eexists; vm_compute; reflexivity).
  destruct (universal_mint_split Example.Precision Example.KernelMintTimeBegin
    Example.KernelMintTimeEnd Example.NewHash Example.NewKeyFromSeed Example.Public
    Example.DeriveGhostPublicKey Example.AddressString Example.NewAddressFromSeed Example.XINAssetId
    Example.TxVersion Example.Operator64 Example.NewThresholdScript (Example.node false) None
    (Example.epoch + 31 * Example.hour) false ver Ebuild)
    as (batch & amount & kernel & safe & light & Hgate & _ & Houts & Hlen & _ & Hsum & -> & Hlight).
  vm_compute in Hgate. injection Hgate as <- <-.
  exists ver, kernel, light. split; [exact Ebuild |]. split; [exact Houts |].
  split; [exact Hlen |]. split; [exact Hsum | exact Hlight].
Defined.

(** X18 on the test network, 31 hours after the epoch: the transaction has
    nine outputs and mints one daily share for batch 1. *)
Lemma universal_mint_built_witness :
  exists ver,
    buildUniversalMintTransaction Example.Precision Example.KernelMintTimeBegin
      Example.KernelMintTimeEnd Example.NewHash Example.NewKeyFromSeed Example.Public
      Example.DeriveGhostPublicKey Example.AddressString Example.NewAddressFromSeed
      Example.XINAssetId Example.TxVersion Example.Operator64 Example.NewThresholdScript
      (Example.node false) None (Example.epoch + 31 * Example.hour) false = Ret (Some ver) /\
    firstMint (VersionedTransaction.Transaction ver)
    = Ret {| MintData.Group := "UNIVERSAL"; MintData.Batch := 1;
             MintData.Amount := 13698630136 |} /\
    length (Transaction.Outputs (VersionedTransaction.Transaction ver)) = 9%nat.
Proof.
  assert (exists mints,
            distributeKernelMintByWorks Example.Precision (Example.node false)
              (Node.NodesListWithoutState (Example.node false)
                 (Example.epoch + 31 * Example.hour) true)
              (Integer.Mul (13698630136 `div` 10) 5) (Example.epoch + 31 * Example.hour)
            = Ret mints /\ length mints = 7%nat)
    as (mints & Hdist & Hlen) by (eexists; vm_compute; split; reflexivity).
  destruct (universal_mint_built Example.Precision Example.KernelMintTimeBegin
    Example.KernelMintTimeEnd Example.NewHash Example.NewKeyFromSeed Example.Public
    Example.DeriveGhostPublicKey Example.AddressString Example.NewAddressFromSeed Example.XINAssetId
    Example.TxVersion Example.Operator64 Example.NewThresholdScript (Example.node false) None
    (Example.epoch + 31 * Example.hour) false 1 13698630136 mints) as [_ Hbuilt].
  - vm_compute. reflexivity.
  - lia.
  - lia.
  - exact Hdist.
  - destruct Hbuilt as (ver & Hver & Hmint & Houts); [discriminate | by left |].
    exists ver. split; [exact Hver |]. split; [exact Hmint |]. by rewrite Houts, Hlen.
Defined.

(** X19 on mainnet at batch 1314, after a legacy distribution of batch
    1313: the mint input of a universal transaction grows by the legacy
    pool less the universal pool of batch 1313. *)
Lemma slash_legacy_light_pool_witness :
  let tx :=
    AddUniversalMintInput (NewTransaction Example.TxVersion Example.XINAssetId) 1314 1000 in
  exists universal legacy : Z,
    poolSizeUniversal Example.Precision 1313 = Ret universal /\
    poolSizeLegacy Example.Precision 1313 = Ret legacy /\
    universal <= legacy /\
    tryToSlashLegacyLightPool Example.Precision Example.afterFork 1314 tx
    = Ret (setMintAmount tx (1000 + (legacy - universal))).
Proof.
  intros tx.
  destruct (slash_legacy_light_pool Example.Precision Example.afterFork 1314 tx
              {| MintData.Group := "UNIVERSAL"; MintData.Batch := 1314;
                 MintData.Amount := 1000 |} eq_refl) as [_ Hfork].
  destruct (Hfork eq_refl ltac:(vm_compute; discriminate)) as [_ Hlast].
  destruct (Hlast Example.legacyDistribution [] eq_refl) as (_ & _ & Hslash).
  apply Hslash; [reflexivity | discriminate].
Defined.

(** X20 on the test network, 31 hours after the epoch: the transaction the
    universal builder returns for minting is accepted in a snapshot of
    that time. *)
Lemma validate_accepts_minted_witness :
  exists built,
    buildUniversalMintTransaction Example.Precision Example.KernelMintTimeBegin
      Example.KernelMintTimeEnd Example.NewHash Example.NewKeyFromSeed Example.Public
      Example.DeriveGhostPublicKey Example.AddressString Example.NewAddressFromSeed
      Example.XINAssetId Example.TxVersion Example.Operator64 Example.NewThresholdScript
      (Example.node false) None (Example.epoch + 31 * Example.hour) false = Ret (Some built) /\
    validateMintSnapshot Example.Precision Example.KernelMintTimeBegin Example.KernelMintTimeEnd
      Example.NewHash Example.NewKeyFromSeed Example.Public Example.DeriveGhostPublicKey
      Example.AddressString Example.NewAddressFromSeed Example.XINAssetId Example.TxVersion
      Example.Operator64 Example.NewThresholdScript Example.TransactionMintWorkHacks
      Example.hexDecodeString Example.UnmarshalVersionedTransaction Example.buildMintTransactionV1
      Example.ReadCustodian Example.PayloadHash Example.PayloadMarshal Example.hexEncodeToString
      (Example.node false) 0 (Example.mintSnapshot (Example.epoch + 31 * Example.hour)) built = Ret
      tt.
Proof.
  assert (exists built,
            buildUniversalMintTransaction Example.Precision Example.KernelMintTimeBegin
              Example.KernelMintTimeEnd Example.NewHash Example.NewKeyFromSeed Example.Public
              Example.DeriveGhostPublicKey Example.AddressString Example.NewAddressFromSeed
              Example.XINAssetId Example.TxVersion Example.Operator64 Example.NewThresholdScript
              (Example.node false) None (Example.epoch + 31 * Example.hour) false = Ret (Some
              built))
    as [built Ebuild] by (eexists; vm_compute; reflexivity).
  exists built. split; [exact Ebuild |].
  destruct (validate_accepts_minted Example.Precision Example.KernelMintTimeBegin
    Example.KernelMintTimeEnd Example.NewHash Example.NewKeyFromSeed Example.Public
    Example.DeriveGhostPublicKey Example.AddressString Example.NewAddressFromSeed Example.XINAssetId
    Example.TxVersion Example.Operator64 Example.NewThresholdScript Example.TransactionMintWorkHacks
    Example.hexDecodeString Example.UnmarshalVersionedTransaction Example.buildMintTransactionV1
    Example.ReadCustodian Example.PayloadHash Example.PayloadMarshal Example.hexEncodeToString
    (Example.node false) 0 (Example.mintSnapshot (Example.epoch + 31 * Example.hour)) built built
    None eq_refl eq_refl) as [Huniversal _].
  apply Huniversal; [by right | exact Ebuild].
Defined.


(** X24 on a fresh store: the snapshot of the third genesis node is the
    third one stored, with topological order 2. *)
Lemma LoadGenesis_snapshots_witness :
  let loaded := (LoadGenesis Example.Precision Example.NewHash Example.NewKeyFromSeed Example.Public
    Example.DeriveGhostPublicKey Example.AddressString Example.AddressHash
    Example.NewAddressFromString Example.ForNetwork Example.XINAssetId Example.TxVersion
    Example.OperatorCmp Example.OperatorSum Example.ReadFile Example.jsonUnmarshal
    Example.jsonMarshal (Example.node false) "config").1 in
  Node.TopoCounter loaded = 7 /\
  length (Node.ConsensusNodes loaded) = 7%nat /\
  (SnapshotWithTopologicalOrder.TopologicalOrder
   <$> KVStore.snapshots (Node.store loaded) !! 2%nat) = Some 2.
Proof.
  assert (exists data, Example.jsonMarshal Example.genesis = Ok data /\ Example.NewHash data <>
    zeroBytes 32)
    as (data & Hdata & Hzero) by (eexists; split; [reflexivity | vm_compute; discriminate]).
  destruct (LoadGenesis_snapshots Example.Precision Example.NewHash Example.NewKeyFromSeed
    Example.Public Example.DeriveGhostPublicKey Example.AddressString Example.AddressHash
    Example.NewAddressFromString Example.ForNetwork Example.XINAssetId Example.TxVersion
    Example.OperatorCmp Example.OperatorSum Example.ReadFile Example.jsonUnmarshal
    Example.jsonMarshal (Example.node false) "config" Example.genesis data)
    as (_ & Hcounter & Hnodes & _ & _ & _ & Hsnapshots).
  - vm_compute. reflexivity.
  - exact Hdata.
  - exact Hzero.
  - reflexivity.
  - reflexivity.
  - reflexivity.
  - reflexivity.
  - vm_compute. discriminate.
  - vm_compute. reflexivity.
  - intros loaded. subst loaded. split; [exact Hcounter |].
    split; [rewrite Hnodes; reflexivity |].
    destruct (Hsnapshots 2%nat (Example.genesisNode "g2") eq_refl)
      as (tx & pledge & rest & _ & _ & _ & _ & _ & _ & Hsnap).
    change (length (KVStore.snapshots (Node.store (Example.node false))) + 2)%nat
      with 2%nat in Hsnap.
    rewrite Hsnap. reflexivity.
Defined.

(** X25 on a fresh store: the second load succeeds and leaves the seven
    snapshots of the first. *)
Lemma LoadGenesis_again_witness :
  let load := LoadGenesis Example.Precision Example.NewHash Example.NewKeyFromSeed Example.Public
    Example.DeriveGhostPublicKey Example.AddressString Example.AddressHash
    Example.NewAddressFromString Example.ForNetwork Example.XINAssetId Example.TxVersion
    Example.OperatorCmp Example.OperatorSum Example.ReadFile Example.jsonUnmarshal
    Example.jsonMarshal in
  let first := load (Example.node false) "config" in
  let second := load first.1 "config" in
  second.2 = Ret tt /\ Node.store second.1 = Node.store first.1 /\
  Node.TopoCounter second.1 = Node.TopoCounter first.1 /\
  length (Node.ConsensusNodes second.1) = 14%nat.
Proof.
  intros load first second. subst second first load.
  destruct (LoadGenesis_again Example.Precision Example.NewHash Example.NewKeyFromSeed
    Example.Public Example.DeriveGhostPublicKey Example.AddressString Example.AddressHash
    Example.NewAddressFromString Example.ForNetwork Example.XINAssetId Example.TxVersion
    Example.OperatorCmp Example.OperatorSum Example.ReadFile Example.jsonUnmarshal
    Example.jsonMarshal (Example.node false) "config")
    as (Hresult & Hstore & Hcounter & _ & gns & Hread & _ & Hnodes).
  - vm_compute. reflexivity.
  - split; [exact Hresult |]. split; [exact Hstore |]. split; [exact Hcounter |].
    rewrite Hnodes. vm_compute in Hread. injection Hread as <-. vm_compute. reflexivity.
Defined.

(** X27 on the test network, 31 hours after the epoch: seven shares and
    the rest make eight outputs. *)
Lemma legacy_mint_built_witness :
  exists ver,
    buildLegacyKerneNodeMintTransaction Example.Precision Example.KernelMintTimeBegin
      Example.KernelMintTimeEnd Example.NewHash Example.NewKeyFromSeed Example.Public
      Example.DeriveGhostPublicKey Example.AddressString Example.NewAddressFromSeed
      Example.XINAssetId Example.TxVersion Example.Operator64 Example.NewThresholdScript
      Example.TransactionMintWorkHacks Example.hexDecodeString Example.UnmarshalVersionedTransaction
      Example.buildMintTransactionV1 (Example.node false) (Example.epoch + 31 * Example.hour) false
      = Ret (Some ver) /\
    length (Transaction.Outputs (VersionedTransaction.Transaction ver)) = 8%nat.
Proof.
  assert (exists mints,
            distributeKernelMintByWorks Example.Precision (Example.node false)
              (Node.NodesListWithoutState (Example.node false)
                 (Example.epoch + 31 * Example.hour) true)
              12328767117 (Example.epoch + 31 * Example.hour)
            = Ret mints)
    as (mints & Hdist) by (eexists; vm_compute; reflexivity).
  destruct (legacy_mint_built Example.Precision Example.KernelMintTimeBegin
    Example.KernelMintTimeEnd Example.NewHash Example.NewKeyFromSeed Example.Public
    Example.DeriveGhostPublicKey Example.AddressString Example.NewAddressFromSeed Example.XINAssetId
    Example.TxVersion Example.Operator64 Example.NewThresholdScript Example.TransactionMintWorkHacks
    Example.hexDecodeString Example.UnmarshalVersionedTransaction Example.buildMintTransactionV1
    (Example.node false) (Example.epoch + 31 * Example.hour) false 1 12328767117 mints)
    as (ver & Hver & _ & _ & Houts).
  - vm_compute. reflexivity.
  - lia.
  - lia.
  - by left.
  - by left.
  - exact Hdist.
  - exists ver. split; [exact Hver |]. rewrite Houts.
    vm_compute in Hdist. injection Hdist as <-. vm_compute. reflexivity.
Defined.

(** X28 on the test network: six works are counted, and the average
    without a least and a largest of them is positive. *)
Lemma distribute_trimmed_mean_witness :
  exists (works : gmap string (N * N)) (lo hi : Z),
    let raw := rawWorks Example.Precision works Example.accepted in
    let counted := filter (fun x => 0 < x) raw in
    (3 <= length counted)%nat /\ lo ∈ counted /\ hi ∈ counted /\
    Forall (fun x => lo <= x <= hi) counted /\
    0 < (sumZ counted - lo - hi) `div` (Z.of_nat (length counted) - 2).
Proof.
  destruct (distribute_trimmed_mean Example.Precision (Example.node false) Example.accepted
              (Integer.NewInteger Example.Precision 700) (Example.epoch + 31 * Example.hour) _
              ltac:(vm_compute; discriminate) distribute_on_test_network)
    as (works & lo & hi & _ & Hlen & _ & Hlo & Hhi & Hall & Havg & _).
  exists works, lo, hi. cbv zeta. repeat split; assumption.
Defined.
